(** * LookCircuit face-analysis core: a shallow embedding and its properties

    The development follows the Python package [ai/face_analysis]:
    [skin_tone.py], [face_shape.py], [baldness.py] and [analyzer.py], with the
    sibling season rule of [ai/recommendation_engine/color_theory.py].
    It goes on to the callee and the callers of that core: the detector
    of [detector.py], the serialiser [FaceAnalysisResult.to_dict], the
    endpoint of [app/api/v1/analysis.py], and the recommendation engines
    of [color_theory.py] and [occasion_styling.py] that are fed with the
    values an analysis reports.

    Numbers.  Python's [float] is an IEEE-754 binary64 number.  Every
    function below is written once, over an interface [PyFloat] of the
    arithmetic the source uses, and the interface has two instances:
    - [Q], exact rational arithmetic, in which the properties that rest on
      sums, products and quotients are proved;
    - Rocq's primitive [float], which is binary64 with round-to-nearest-even
      as Python has it: the code is evaluated in it on concrete inputs, and
      the properties that rest on comparisons alone are proved in it for
      every value.

    Exceptions.  A Python expression that can raise ([x / y] with a divisor
    that is not a non-zero literal, [int(x)]) is written in the error monad
    [Res]; "never raises" is then a theorem and not a convention.
    The detector, the lookups in dicts and lists and the endpoint raise
    other exceptions as well ([IndexError], [KeyError], those of the
    libraries); they are written in the wider monad [Outcome].

    External code.  OpenCV and the MediaPipe landmark provider are not part
    of the repository; they enter as records of operations ([OpenCV],
    [FaceDetector]).  The operations are total where the source hands them
    the arrays they are documented for.  [cv2.dilate] is handed a boolean
    array ([baldness.py], line 160), a dtype the bindings of OpenCV 4
    reject with an exception: in the record it may raise, and what is
    proved of the hair coverage holds for a library that rejects the array
    as for one that converts it.  The detector of [detector.py] is
    embedded too, over a record [Detector.Libraries] of what it calls in
    MediaPipe, OpenCV and NumPy, and the orchestrator is run on it in
    [Analyzer.analyze]. *)

From Stdlib Require Import ZArith QArith Qabs Qminmax Lia Lqa List Bool Ascii String.
From Stdlib Require Import Sorting.Permutation Sorting.Sorted.
From Stdlib Require Import Floats.PrimFloat Floats.SpecFloat Floats.FloatOps.
From Stdlib Require Import Floats.FloatAxioms Uint63.
From stdpp Require Import base option gmap strings pretty.

Set Default Proof Using "Type".
Local Open Scope Z_scope.

(* ================================================================= *)
(** ** Exceptions *)

Inductive Exn : Set :=
  | ZeroDivisionError
  | OverflowError
  | ValueError
  | Cv2Error.                   (* [cv2.error]: OpenCV rejects an argument *)

Inductive Res (A : Type) : Type :=
  | Ok (a : A)
  | Raise (e : Exn).
Arguments Ok {A} a.
Arguments Raise {A} e.

Definition bind {A B} (m : Res A) (k : A -> Res B) : Res B :=
  match m with
  | Ok a => k a
  | Raise e => Raise e
  end.

Notation "'let*' x ':=' m 'in' k" := (bind m (fun x => k))
  (at level 10, x pattern, m at level 100, k at level 200).

Definition returns {A} (m : Res A) : Prop := exists a, m = Ok a.

(** A property of the value a computation returns, when it returns. *)
Definition on_result {A} (P : A -> Prop) (m : Res A) : Prop :=
  match m with
  | Ok a => P a
  | Raise _ => True
  end.

(* ================================================================= *)
(** ** The arithmetic of Python floats, as an interface *)

Class PyFloat (T : Type) := {
  lit : Q -> T;                 (* a literal, or an int converted to float *)
  fadd : T -> T -> T;
  fsub : T -> T -> T;
  fmul : T -> T -> T;
  fdiv : T -> T -> T;           (* the quotient, for a divisor known non-zero *)
  fabs : T -> T;
  flt : T -> T -> bool;
  fle : T -> T -> bool;
  feq : T -> T -> bool;
  ftrunc : T -> Res Z           (* int(x): truncation toward zero *)
}.

Declare Scope py_scope.
Delimit Scope py_scope with py.
Infix "+" := fadd : py_scope.
Infix "-" := fsub : py_scope.
Infix "*" := fmul : py_scope.
Infix "/" := fdiv : py_scope.
Infix "<?" := flt : py_scope.
Infix "<=?" := fle : py_scope.
Infix "=?" := feq : py_scope.
Notation "x >? y" := (flt y x) (only parsing) : py_scope.
Notation "x >=? y" := (fle y x) (only parsing) : py_scope.

Section PythonNumbers.
Context {T : Type} `{PyFloat T}.

(** [float(n)] for a Python int [n]. *)
Definition of_int (n : Z) : T := lit (inject_Z n).

(** [x / y] raises [ZeroDivisionError] on a zero divisor. *)
Definition py_div (x y : T) : Res T :=
  if (y =? lit 0)%py then Raise ZeroDivisionError else Ok (x / y)%py.

(** The builtin [min(a, b)] keeps [a] unless [b < a]; [max(a, b)] keeps
    [a] unless [b > a]. *)
Definition py_min (a b : T) : T := if (b <? a)%py then b else a.
Definition py_max (a b : T) : T := if (b >? a)%py then b else a.

(** Division of NumPy scalars ([np.mean], [np.int64 / int]) does not
    raise: a zero divisor gives [inf] or [nan] and a warning. *)
Definition np_true_divide (x y : T) : T := (x / y)%py.

(** [int(x)]. *)
Definition py_int (x : T) : Res Z := ftrunc x.
End PythonNumbers.

(** *** Exact instance *)

Definition Qlt_bool (a b : Q) : bool := negb (Qle_bool b a).

#[export] Instance Q_PyFloat : PyFloat Q := {
  lit q := q;
  fadd := Qplus;
  fsub := Qminus;
  fmul := Qmult;
  fdiv := Qdiv;
  fabs := Qabs;
  flt := Qlt_bool;
  fle := Qle_bool;
  feq := Qeq_bool;
  ftrunc q := Ok (Z.quot (Qnum q) (Zpos (Qden q)))
}.

(** *** IEEE-754 binary64 instance *)

(** [float(n)], exact for the integers below 2^53 in absolute value. *)
Definition float_of_Z (z : Z) : float :=
  if z <? 0 then PrimFloat.opp (PrimFloat.of_uint63 (Uint63.of_Z (- z)))
  else PrimFloat.of_uint63 (Uint63.of_Z z).

(** A decimal literal [n/d] denotes the double nearest to it, which the
    correctly rounded quotient of the two (exactly represented) integers
    gives. *)
Definition float_lit (q : Q) : float :=
  PrimFloat.div (float_of_Z (Qnum q)) (float_of_Z (Zpos (Qden q))).

Definition float_trunc (f : float) : Res Z :=
  match Prim2SF f with
  | S754_zero _ => Ok 0
  | S754_finite s m e =>
      let v := if 0 <=? e then Zpos m * 2 ^ e else Z.quot (Zpos m) (2 ^ (- e)) in
      Ok (if s then - v else v)
  | S754_infinity _ => Raise OverflowError
  | S754_nan => Raise ValueError
  end.

#[export] Instance float_PyFloat : PyFloat float := {
  lit := float_lit;
  fadd := PrimFloat.add;
  fsub := PrimFloat.sub;
  fmul := PrimFloat.mul;
  fdiv := PrimFloat.div;
  fabs := PrimFloat.abs;
  flt := PrimFloat.ltb;
  fle := PrimFloat.leb;
  feq := PrimFloat.eqb;
  ftrunc := float_trunc
}.

(* ================================================================= *)
(** ** NumPy arrays and the OpenCV operations *)

(** A two-dimensional array: its shape and its entries.  An image has
    three 8-bit channels per entry, in the order blue, green, red. *)
Record ndarray (A : Type) := mk_ndarray {
  shape0 : nat;
  shape1 : nat;
  entry : nat -> nat -> A
}.
Arguments mk_ndarray {A} _ _ _.
Arguments shape0 {A} _.
Arguments shape1 {A} _.
Arguments entry {A} _ _ _.

Definition Pixel : Type := Z * Z * Z.
Definition Image : Type := ndarray Pixel.

(** [image.size] of an image with three channels. *)
Definition size (image : Image) : Z :=
  Z.of_nat (shape0 image) * Z.of_nat (shape1 image) * 3.

(** The entries in row-major order, as [reshape(-1, ...)] lists them. *)
Definition to_list {A} (a : ndarray A) : list A :=
  flat_map (fun i => map (fun j => entry a i j) (seq 0 (shape1 a)))
           (seq 0 (shape0 a)).

Definition map_array {A B} (f : A -> B) (a : ndarray A) : ndarray B :=
  mk_ndarray (shape0 a) (shape1 a) (fun i j => f (entry a i j)).

(** An elementwise binary operator, on operands of one shape. *)
Definition zip_array {A B C} (f : A -> B -> C) (a : ndarray A) (b : ndarray B)
    : ndarray C :=
  mk_ndarray (shape0 a) (shape1 a) (fun i j => f (entry a i j) (entry b i j)).

(** [a[mask]]: the entries of [a] at which the mask holds. *)
Definition select {A} (a : ndarray A) (mask : ndarray bool) : list A :=
  flat_map (fun i =>
              flat_map (fun j => if entry mask i j then [entry a i j] else [])
                       (seq 0 (shape1 a)))
           (seq 0 (shape0 a)).

(** [np.sum] of a boolean array counts its true entries. *)
Definition count_true (mask : ndarray bool) : Z :=
  Z.of_nat (length (List.filter (fun b : bool => b) (to_list mask))).

Definition sum_Z (l : list Z) : Z := fold_left Z.add l 0.

(** The bounds of [a[start:stop]] on an axis of length [n]: the offset of
    the first entry and the number of entries. *)
Definition slice_index (n : Z) (i : Z) : Z :=
  if i <? 0 then Z.max (i + n) 0 else Z.min i n.

Definition slice_bounds (n : nat) (start stop : Z) : nat * nat :=
  let lo := slice_index (Z.of_nat n) start in
  let hi := slice_index (Z.of_nat n) stop in
  (Z.to_nat lo, Z.to_nat (Z.max 0 (hi - lo))).

(** [a[r0:r1, c0:c1]]. *)
Definition slice2 {A} (a : ndarray A) (r0 r1 c0 c1 : Z) : ndarray A :=
  let '(i0, h) := slice_bounds (shape0 a) r0 r1 in
  let '(j0, w) := slice_bounds (shape1 a) c0 c1 in
  mk_ndarray h w (fun i j => entry a (i0 + i)%nat (j0 + j)%nat).

Inductive MorphOp : Set := MORPH_OPEN | MORPH_CLOSE.

(** The operations of [cv2] the package calls, with the types of the
    arguments the source passes.  [dilate] receives the boolean texture
    mask as it is: it returns the dilated mask, or raises when the
    binding rejects the dtype. *)
Record OpenCV (T : Type) := {
  cvtColor_BGR2HSV : Image -> ndarray (Z * Z * Z);
  cvtColor_BGR2LAB : Image -> ndarray (Z * Z * Z);
  cvtColor_BGR2GRAY : Image -> ndarray Z;
  inRange : ndarray (Z * Z * Z) -> Z * Z * Z -> Z * Z * Z -> ndarray Z;
  getStructuringElement_ELLIPSE : Z * Z -> ndarray Z;
  morphologyEx : ndarray Z -> MorphOp -> ndarray Z -> ndarray Z;
  Canny : ndarray Z -> Z -> Z -> ndarray Z;
  dilate : ndarray bool -> ndarray Z -> Z -> Res (ndarray Z);
  (* the body of [_lab_to_hex]: float32 and uint8 casts around the
     conversion [cv2.COLOR_LAB2BGR], then the hexadecimal rendering *)
  LAB2BGR_hex : T -> T -> T -> string
}.
Arguments cvtColor_BGR2HSV {T} _.
Arguments cvtColor_BGR2LAB {T} _.
Arguments cvtColor_BGR2GRAY {T} _.
Arguments inRange {T} _.
Arguments getStructuringElement_ELLIPSE {T} _.
Arguments morphologyEx {T} _.
Arguments Canny {T} _.
Arguments dilate {T} _.
Arguments LAB2BGR_hex {T} _.

Definition same_shape {A B} (a : ndarray A) (b : ndarray B) : Prop :=
  shape0 a = shape0 b /\ shape1 a = shape1 b.

(** The shape contract of the operations used on the scalp region. *)
Record shape_preserving {T} (cv : OpenCV T) : Prop := {
  gray_shape : forall image, same_shape (cvtColor_BGR2GRAY cv image) image;
  morph_shape : forall a op k, same_shape (morphologyEx cv a op k) a
}.

(* ================================================================= *)
(** ** skin_tone.py: the class [SkinToneDetector] *)

Module SkinToneDetector.

Inductive FitzpatrickType : Set :=
  | TYPE_I | TYPE_II | TYPE_III | TYPE_IV | TYPE_V | TYPE_VI.

Definition value (f : FitzpatrickType) : Z :=
  match f with
  | TYPE_I => 1 | TYPE_II => 2 | TYPE_III => 3
  | TYPE_IV => 4 | TYPE_V => 5 | TYPE_VI => 6
  end.

Inductive Undertone : Set := COOL | WARM | NEUTRAL.

Definition Undertone_value (u : Undertone) : string :=
  match u with
  | COOL => "cool" | WARM => "warm" | NEUTRAL => "neutral"
  end.

Definition Undertone_eqb (u v : Undertone) : bool :=
  match u, v with
  | COOL, COOL | WARM, WARM | NEUTRAL, NEUTRAL => true
  | _, _ => false
  end.

(** The class attribute, a dict; iteration follows insertion order. *)
Definition FITZPATRICK_L_THRESHOLDS : list (FitzpatrickType * (Z * Z)) :=
  [ (TYPE_I, (75, 100));
    (TYPE_II, (65, 75));
    (TYPE_III, (55, 65));
    (TYPE_IV, (45, 55));
    (TYPE_V, (35, 45));
    (TYPE_VI, (0, 35)) ].

Section WithFloat.
Context {T : Type} `{PyFloat T}.
Local Open Scope py_scope.

Record SkinToneResult := {
  fitzpatrick_type : FitzpatrickType;
  undertone : Undertone;
  confidence : T;
  lab_values : T * T * T;
  hex_color : string
}.

(** The [for] loop of [_classify_fitzpatrick]: [None] when it runs to
    its end without returning. *)
Fixpoint fitzpatrick_loop (items : list (FitzpatrickType * (Z * Z)))
    (l_value : T) : Res (option (FitzpatrickType * T)) :=
  match items with
  | [] => Ok None
  | (fitz_type, (low, high)) :: rest =>
      if (of_int low <=? l_value) && (l_value <? of_int high) then
        let range_size := (high - low)%Z in
        let center := of_int (low + high) / lit 2 in
        let distance_from_center := fabs (l_value - center) in
        let* q := py_div distance_from_center (of_int range_size / lit 2) in
        let confidence := lit 1 - q in
        Ok (Some (fitz_type,
                  py_max (lit (7 # 10)) (py_min (lit (98 # 100)) confidence)))
      else fitzpatrick_loop rest l_value
  end.

Definition _classify_fitzpatrick (l_value : T) : Res (FitzpatrickType * T) :=
  let* found := fitzpatrick_loop FITZPATRICK_L_THRESHOLDS l_value in
  match found with
  | Some r => Ok r
  | None =>
      (* Edge cases *)
      if l_value >=? lit 75 then Ok (TYPE_I, lit (85 # 100))
      else Ok (TYPE_VI, lit (85 # 100))
  end.

Definition _classify_undertone (a_value b_value : T) : Res (Undertone * T) :=
  let a_shifted := a_value + lit 128 in
  let b_shifted := b_value + lit 128 in
  let a_shifted := if a_shifted =? lit 0 then lit (1 # 100) else a_shifted in
  let* ratio := py_div b_shifted a_shifted in
  if ratio >? lit (11 # 10) then
    Ok (WARM,
        py_min (lit (95 # 100))
               (lit (7 # 10) + (ratio - lit (11 # 10)) * lit (1 # 10)))
  else if ratio <? lit (9 # 10) then
    Ok (COOL,
        py_min (lit (95 # 100))
               (lit (7 # 10) + (lit (9 # 10) - ratio) * lit (1 # 10)))
  else
    (* Confidence is higher when closer to 1.0 *)
    Ok (NEUTRAL,
        lit (8 # 10) + (lit 1 - fabs (ratio - lit 1)) * lit (15 # 100)).

Definition _lab_to_hex (cv : OpenCV T) (l a b : T) : string :=
  LAB2BGR_hex cv l a b.

Definition _extract_skin_lab_values (cv : OpenCV T) (region : Image)
    : option (list (Z * Z * Z)) :=
  if (size region =? 0)%Z then None
  else
    let hsv := cvtColor_BGR2HSV cv region in
    let lab := cvtColor_BGR2LAB cv region in
    let mask1 := inRange cv hsv (0, 20, 70)%Z (20, 255, 255)%Z in
    (* Additional range for darker skin tones *)
    let mask2 := inRange cv hsv (0, 10, 60)%Z (25, 255, 255)%Z in
    let mask := zip_array Z.lor mask1 mask2 in
    let kernel := getStructuringElement_ELLIPSE cv (3, 3)%Z in
    let mask := morphologyEx cv mask MORPH_OPEN kernel in
    let mask := morphologyEx cv mask MORPH_CLOSE kernel in
    let skin_pixels := select lab (map_array (fun m => (0 <? m)%Z) mask) in
    let skin_pixels :=
      if (Z.of_nat (length skin_pixels) <? 10)%Z then
        (* Fall back to center region sampling *)
        let h := Z.of_nat (shape0 region) in
        let w := Z.of_nat (shape1 region) in
        to_list (slice2 lab (h / 4) (3 * h / 4) (w / 4) (3 * w / 4))%Z
      else skin_pixels in
    if (0 <? Z.of_nat (length skin_pixels))%Z then Some skin_pixels else None.

(** [np.mean] of one column of the pooled values. *)
Definition np_mean (column : list Z) : T :=
  np_true_divide (of_int (sum_Z column)) (of_int (Z.of_nat (length column))).

Definition analyze (cv : OpenCV T) (skin_regions : list Image)
    : Res (option SkinToneResult) :=
  if match skin_regions with [] => true | _ => false end
     || forallb (fun r => (size r =? 0)%Z) skin_regions
  then Ok None
  else
    (* Collect LAB values from all regions *)
    let all_lab_values :=
      flat_map (fun region =>
                  if (size region =? 0)%Z then []
                  else match _extract_skin_lab_values cv region with
                       | Some lab_values => lab_values
                       | None => []
                       end)
               skin_regions in
    match all_lab_values with
    | [] => Ok None
    | _ =>
        let avg_l := np_mean (map (fun p => fst (fst p)) all_lab_values) in
        let avg_a := np_mean (map (fun p => snd (fst p)) all_lab_values) in
        let avg_b := np_mean (map (fun p => snd p) all_lab_values) in
        let* (fitzpatrick_type, fitz_confidence) :=
          _classify_fitzpatrick avg_l in
        let* (undertone, undertone_confidence) :=
          _classify_undertone avg_a avg_b in
        let confidence := (fitz_confidence + undertone_confidence) / lit 2 in
        Ok (Some {| fitzpatrick_type := fitzpatrick_type;
                    undertone := undertone;
                    confidence := confidence;
                    lab_values := (avg_l, avg_a, avg_b);
                    hex_color := _lab_to_hex cv avg_l avg_a avg_b |})
    end.
End WithFloat.
Arguments SkinToneResult T : clear implicits.

Definition get_season (fitzpatrick : FitzpatrickType) (undertone : Undertone)
    : string :=
  let is_light := value fitzpatrick <=? 3 in
  let is_warm := Undertone_eqb undertone WARM in
  if is_light && is_warm then "spring"
  else if is_light && negb is_warm then "summer"
  else if negb is_light && is_warm then "autumn"
  else "winter".

End SkinToneDetector.

(* ================================================================= *)
(** ** Python strings *)

(** A [str] is written as the bytes of its UTF-8 encoding, so that text
    outside ASCII has bytes from 128 up.  [str.lower()] and [str.upper()]
    follow the Unicode character database ([lower] takes the letter A
    with a diaeresis to the small one), which is not reproduced here:
    the two methods are an interface, with the three facts the
    development uses of them.  On ASCII text [lower] changes the letters
    A to Z and nothing else, [upper] the letters a to z and nothing
    else; and lowering a lowered text changes nothing. *)

Definition is_ascii (s : string) : bool :=
  forallb (fun c => (nat_of_ascii c <? 128)%nat) (list_ascii_of_string s).

Definition ascii_lower (c : ascii) : ascii :=
  let n := nat_of_ascii c in
  if (65 <=? n)%nat && (n <=? 90)%nat then ascii_of_nat (n + 32) else c.

Definition ascii_upper (c : ascii) : ascii :=
  let n := nat_of_ascii c in
  if (97 <=? n)%nat && (n <=? 122)%nat then ascii_of_nat (n - 32) else c.

Fixpoint map_text (f : ascii -> ascii) (s : string) : string :=
  match s with
  | EmptyString => EmptyString
  | String c r => String (f c) (map_text f r)
  end.

Class PyStr := {
  lower : string -> string;
  upper : string -> string;
  lower_ascii_text :
    forall s, is_ascii s = true -> lower s = map_text ascii_lower s;
  upper_ascii_text :
    forall s, is_ascii s = true -> upper s = map_text ascii_upper s;
  lower_lower : forall s, lower (lower s) = lower s
}.

(* ================================================================= *)
(** ** color_theory.py: the season rule of [ColorTheoryEngine] *)

Module ColorTheoryEngine.

Inductive ColorSeason : Set := SPRING | SUMMER | AUTUMN | WINTER.

Definition value (s : ColorSeason) : string :=
  match s with
  | SPRING => "spring" | SUMMER => "summer"
  | AUTUMN => "autumn" | WINTER => "winter"
  end.

Section WithStr.
Context `{PyStr}.

Definition determine_season (fitzpatrick_type : Z) (undertone : string)
    : ColorSeason :=
  let is_light := fitzpatrick_type <=? 3 in
  let is_warm := String.eqb (lower undertone) "warm" in
  (* Neutral undertone: determine based on skin depth *)
  let is_warm :=
    if String.eqb (lower undertone) "neutral"
    then (* Neutrals can go either way - lean warm for light, cool for dark *)
         is_light
    else is_warm in
  if is_light && is_warm then SPRING
  else if is_light && negb is_warm then SUMMER
  else if negb is_light && is_warm then AUTUMN
  else WINTER.

End WithStr.

End ColorTheoryEngine.

(* ================================================================= *)
(** ** face_shape.py: the class [FaceShapeClassifier] *)

Module FaceShapeClassifier.

Inductive FaceShape : Set :=
  | OVAL | ROUND | SQUARE | HEART | OBLONG | DIAMOND | TRIANGLE.

Definition value (s : FaceShape) : string :=
  match s with
  | OVAL => "oval" | ROUND => "round" | SQUARE => "square"
  | HEART => "heart" | OBLONG => "oblong" | DIAMOND => "diamond"
  | TRIANGLE => "triangle"
  end.

Section WithFloat.
Context {T : Type} `{PyFloat T}.
Local Open Scope py_scope.

(** An f-string with at most one formatted number: the text before it,
    the number with its format, the text after it. *)
Inductive Reasoning : Type :=
  | Formatted (before : string) (x : T) (fmt : string) (after : string)
  | Plain (text : string).

Record FaceShapeResult := {
  shape : FaceShape;
  confidence : T;
  measurements : gmap string T;
  reasoning : Reasoning
}.

(* Threshold constants (tuned for accuracy) *)
Definition ROUND_LENGTH_WIDTH_THRESHOLD : T := lit (11 # 10).
Definition OBLONG_LENGTH_WIDTH_THRESHOLD : T := lit (13 # 10).
Definition HEART_FOREHEAD_JAW_THRESHOLD : T := lit (11 # 10).
Definition TRIANGLE_FOREHEAD_JAW_THRESHOLD : T := lit (9 # 10).
Definition SQUARE_JAWLINE_ANGLE_THRESHOLD : T := lit 150.
Definition DIAMOND_CHEEKBONE_THRESHOLD : T := lit (105 # 100).

(** [s += d] under a condition. *)
Definition add_if (c : bool) (s d : T) : T := if c then s + d else s.

(** The dict [scores], in insertion order. *)
Definition scores (length_width forehead_jaw jawline_angle
    cheekbone_forehead_ratio cheekbone_jaw_ratio : T) : list (FaceShape * T) :=
  (* ROUND: Short face, similar width and length *)
  let round_score := lit 0 in
  let round_score :=
    add_if (length_width <? ROUND_LENGTH_WIDTH_THRESHOLD)
           round_score (lit (4 # 10)) in
  let round_score :=
    add_if ((lit (95 # 100) <? forehead_jaw)
            && (forehead_jaw <? lit (105 # 100)))
           round_score (lit (3 # 10)) in
  let round_score :=
    add_if (jawline_angle <? lit 145) round_score (lit (3 # 10)) in
  (* OBLONG: Long face *)
  let oblong_score := lit 0 in
  let oblong_score :=
    if length_width >? OBLONG_LENGTH_WIDTH_THRESHOLD then
      let s := oblong_score + lit (6 # 10) in
      s + py_min (lit (4 # 10))
                 ((length_width - lit (13 # 10)) * lit (5 # 10))
    else oblong_score in
  let oblong_score :=
    add_if ((lit (9 # 10) <? forehead_jaw) && (forehead_jaw <? lit (11 # 10)))
           oblong_score (lit (2 # 10)) in
  (* HEART: Wide forehead, narrow jaw *)
  let heart_score := lit 0 in
  let heart_score :=
    if forehead_jaw >? HEART_FOREHEAD_JAW_THRESHOLD then
      let s := heart_score + lit (5 # 10) in
      s + py_min (lit (3 # 10))
                 ((forehead_jaw - lit (11 # 10)) * lit (3 # 10))
    else heart_score in
  let heart_score :=
    add_if (length_width >? lit 1) heart_score (lit (2 # 10)) in
  (* TRIANGLE: Narrow forehead, wide jaw *)
  let triangle_score := lit 0 in
  let triangle_score :=
    if forehead_jaw <? TRIANGLE_FOREHEAD_JAW_THRESHOLD then
      let s := triangle_score + lit (5 # 10) in
      s + py_min (lit (3 # 10))
                 ((lit (9 # 10) - forehead_jaw) * lit (3 # 10))
    else triangle_score in
  (* SQUARE: Angular jawline, balanced proportions *)
  let square_score := lit 0 in
  let square_score :=
    add_if (jawline_angle >? SQUARE_JAWLINE_ANGLE_THRESHOLD)
           square_score (lit (4 # 10)) in
  let square_score :=
    add_if (length_width <? lit (115 # 100)) square_score (lit (3 # 10)) in
  let square_score :=
    add_if ((lit (9 # 10) <? forehead_jaw) && (forehead_jaw <? lit (11 # 10)))
           square_score (lit (3 # 10)) in
  (* DIAMOND: Prominent cheekbones *)
  let diamond_score := lit 0 in
  let diamond_score :=
    add_if (cheekbone_forehead_ratio >? DIAMOND_CHEEKBONE_THRESHOLD)
           diamond_score (lit (4 # 10)) in
  let diamond_score :=
    add_if (cheekbone_jaw_ratio >? DIAMOND_CHEEKBONE_THRESHOLD)
           diamond_score (lit (4 # 10)) in
  let diamond_score :=
    add_if ((lit (11 # 10) <? length_width) && (length_width <? lit (13 # 10)))
           diamond_score (lit (2 # 10)) in
  (* OVAL: Balanced proportions (default/fallback) *)
  let oval_score := lit 0 in
  let oval_score :=
    add_if ((lit (11 # 10) <? length_width) && (length_width <? lit (13 # 10)))
           oval_score (lit (4 # 10)) in
  let oval_score :=
    add_if ((lit (9 # 10) <? forehead_jaw) && (forehead_jaw <? lit (11 # 10)))
           oval_score (lit (3 # 10)) in
  let oval_score :=
    add_if ((lit 130 <? jawline_angle) && (jawline_angle <? lit 150))
           oval_score (lit (3 # 10)) in
  [ (ROUND, round_score); (OBLONG, oblong_score); (HEART, heart_score);
    (TRIANGLE, triangle_score); (SQUARE, square_score);
    (DIAMOND, diamond_score); (OVAL, oval_score) ].

(** [max(d, key=d.get)]: the first key, in iteration order, whose value
    no later value exceeds; [ValueError] on an empty dict. *)
Fixpoint max_from {K} (best : K * T) (rest : list (K * T)) : K * T :=
  match rest with
  | [] => best
  | kv :: rest' => max_from (if snd kv >? snd best then kv else best) rest'
  end.

Definition max_by_value {K} (d : list (K * T)) : Res (K * T) :=
  match d with
  | [] => Raise ValueError
  | kv :: rest => Ok (max_from kv rest)
  end.

(** [sorted(xs, reverse=True)]. *)
Fixpoint insert_desc (x : T) (l : list T) : list T :=
  match l with
  | [] => [x]
  | y :: l' => if y <? x then x :: l else y :: insert_desc x l'
  end.

Definition sorted_reverse (xs : list T) : list T :=
  fold_right insert_desc [] xs.

Definition _generate_reasoning (shape : FaceShape)
    (length_width forehead_jaw jawline_angle : T) : Reasoning :=
  match shape with
  | OVAL =>
      Formatted "Balanced proportions with length-to-width ratio of "
                length_width ".2f" ""
  | ROUND =>
      Formatted "Face length approximately equals width (ratio: "
                length_width ".2f" ")"
  | SQUARE =>
      Formatted "Angular jawline (" jawline_angle ".0f"
                "°) with balanced proportions"
  | HEART =>
      Formatted "Forehead wider than jaw (ratio: " forehead_jaw ".2f" ")"
  | OBLONG =>
      Formatted "Face length significantly exceeds width (ratio: "
                length_width ".2f" ")"
  | DIAMOND => Plain "Prominent cheekbones with narrower forehead and jaw"
  | TRIANGLE =>
      Formatted "Jaw wider than forehead (ratio: " forehead_jaw ".2f" ")"
  end.

Definition _apply_classification_rules (length_width forehead_jaw
    jawline_angle cheekbone_forehead_ratio cheekbone_jaw_ratio : T)
    : Res (FaceShape * T * Reasoning) :=
  let scores := scores length_width forehead_jaw jawline_angle
                       cheekbone_forehead_ratio cheekbone_jaw_ratio in
  (* Find best match *)
  let* (best_shape, best_score) := max_by_value scores in
  (* Calculate confidence based on score difference from second best *)
  let sorted_scores := sorted_reverse (map snd scores) in
  let confidence :=
    match sorted_scores with
    | s0 :: s1 :: _ =>
        let score_gap := s0 - s1 in
        py_min (lit (98 # 100)) (lit (7 # 10) + score_gap * lit (5 # 10))
    | _ => lit (85 # 100)
    end in
  (* If no clear winner, default to oval *)
  let '(best_shape, confidence) :=
    if best_score <? lit (3 # 10) then (OVAL, lit (6 # 10))
    else (best_shape, confidence) in
  let reasoning :=
    _generate_reasoning best_shape length_width forehead_jaw jawline_angle in
  Ok (best_shape, confidence, reasoning).

Definition classify (measurements : gmap string T) : Res FaceShapeResult :=
  let length_width := default (lit 1) (measurements !! "length_width_ratio") in
  let forehead_jaw := default (lit 1) (measurements !! "forehead_jaw_ratio") in
  let jawline_angle := default (lit 140) (measurements !! "jawline_angle") in
  (* Calculate additional ratios for diamond detection *)
  let forehead_width := default (lit 1) (measurements !! "forehead_width") in
  let jaw_width := default (lit 1) (measurements !! "jaw_width") in
  let cheekbone_width := default (lit 1) (measurements !! "cheekbone_width") in
  let* cheekbone_forehead_ratio :=
    if forehead_width >? lit 0 then py_div cheekbone_width forehead_width
    else Ok (lit 1) in
  let* cheekbone_jaw_ratio :=
    if jaw_width >? lit 0 then py_div cheekbone_width jaw_width
    else Ok (lit 1) in
  let* (shape, confidence, reasoning) :=
    _apply_classification_rules length_width forehead_jaw jawline_angle
                                cheekbone_forehead_ratio cheekbone_jaw_ratio in
  Ok {| shape := shape;
        confidence := confidence;
        measurements := measurements;
        reasoning := reasoning |}.
End WithFloat.
Arguments Reasoning T : clear implicits.
Arguments FaceShapeResult T : clear implicits.

End FaceShapeClassifier.

(* ================================================================= *)
(** ** baldness.py: the class [BaldnessDetector] *)

Module BaldnessDetector.

Inductive HairCoverageLevel : Set := FULL | THINNING | BALD.

Definition value (l : HairCoverageLevel) : string :=
  match l with
  | FULL => "full" | THINNING => "thinning" | BALD => "bald"
  end.

Definition level_neqb (a b : HairCoverageLevel) : bool :=
  match a, b with
  | FULL, FULL | THINNING, THINNING | BALD, BALD => false
  | _, _ => true
  end.

Section WithFloat.
Context {T : Type} `{PyFloat T}.
Local Open Scope py_scope.

Record BaldnessResult := {
  coverage_level : HairCoverageLevel;
  coverage_percentage : T;
  confidence : T;
  requires_alternative_styling : bool
}.

(* Coverage thresholds *)
Definition FULL_COVERAGE_THRESHOLD : T := lit (80 # 100).
Definition THINNING_THRESHOLD : T := lit (40 # 100).

Definition _extract_scalp_region (image : Image) (face_bbox : Z * Z * Z * Z)
    : Res (option Image) :=
  let '(x, y, w, h) := face_bbox in
  let img_width := Z.of_nat (shape1 image) in
  (* Calculate scalp region (above forehead) *)
  let* scalp_height := py_int (of_int h * lit (5 # 10)) in
  let scalp_y := Z.max 0 (y - scalp_height) in
  let scalp_h := (y - scalp_y)%Z in
  (* Widen the region slightly to capture sides *)
  let* margin := py_int (of_int w * lit (1 # 10)) in
  let scalp_x := Z.max 0 (x - margin) in
  let* widened := py_int (of_int w * lit (12 # 10)) in
  let scalp_w := Z.min (img_width - scalp_x) widened in
  if (scalp_h <? 10)%Z || (scalp_w <? 10)%Z then Ok None
  else Ok (Some (slice2 image scalp_y (scalp_y + scalp_h)
                        scalp_x (scalp_x + scalp_w))).

(** The mask of hair pixels of a scalp region, and its texture mask. *)
Definition texture_mask (cv : OpenCV T) (region : Image) : ndarray bool :=
  let gray := cvtColor_BGR2GRAY cv region in
  let edges := Canny cv gray 50%Z 150%Z in
  map_array (fun e => (0 <? e)%Z) edges.

Definition hair_mask (cv : OpenCV T) (region : Image) : Res (ndarray Z) :=
  let hsv := cvtColor_BGR2HSV cv region in
  let gray := cvtColor_BGR2GRAY cv region in
  (* Criterion 1: Dark pixels *)
  let mean_brightness :=
    np_true_divide (of_int (sum_Z (to_list gray)))
                   (of_int (Z.of_nat (length (to_list gray)))) in
  let dark_threshold := py_max (lit 50) (mean_brightness * lit (6 # 10)) in
  let dark_mask := map_array (fun g => of_int g <? dark_threshold) gray in
  (* Criterion 2: Low saturation *)
  let low_sat_mask := map_array (fun p => (snd (fst p) <? 80)%Z) hsv in
  (* Criterion 3: Texture analysis using edge detection *)
  let texture_mask := texture_mask cv region in
  let kernel := getStructuringElement_ELLIPSE cv (3, 3)%Z in
  (* hair is dark AND (low saturation OR has texture) *)
  let* dilated := dilate cv texture_mask kernel 2%Z in
  let hair_mask :=
    zip_array (fun (d : bool) m => Z.land (Z.b2z d) m) dark_mask
      (zip_array (fun (s : bool) m => Z.lor (Z.b2z s) m) low_sat_mask
                 dilated) in
  (* Clean up mask *)
  let hair_mask := morphologyEx cv hair_mask MORPH_CLOSE kernel in
  Ok (morphologyEx cv hair_mask MORPH_OPEN kernel).

Definition _calculate_hair_coverage (cv : OpenCV T) (region : Image)
    : Res (T * T) :=
  if (size region =? 0)%Z then Ok (lit 100, lit (5 # 10))
  else
    let* hair_mask := hair_mask cv region in
    let texture_mask := texture_mask cv region in
    (* Calculate coverage *)
    let total_pixels := (Z.of_nat (shape0 region) * Z.of_nat (shape1 region))%Z in
    let hair_pixels := count_true (map_array (fun m => (0 <? m)%Z) hair_mask) in
    let coverage_percentage :=
      if (0 <? total_pixels)%Z then
        np_true_divide (of_int hair_pixels) (of_int total_pixels) * lit 100
      else lit 0 in
    (* Confidence based on mask quality *)
    let edge_ratio :=
      np_true_divide (of_int (count_true texture_mask))
                     (of_int total_pixels) in
    let confidence := py_min (lit (95 # 100))
                             (lit (7 # 10) + edge_ratio * lit (5 # 10)) in
    Ok (coverage_percentage, confidence).

Definition analyze (cv : OpenCV T) (image : Image) (face_bbox : Z * Z * Z * Z)
    : Res (option BaldnessResult) :=
  (* Extract region above the face (scalp area) *)
  let* scalp_region := _extract_scalp_region image face_bbox in
  match scalp_region with
  | None =>
      Ok (Some {| coverage_level := FULL;
                  coverage_percentage := lit 100;
                  confidence := lit (5 # 10);
                  requires_alternative_styling := false |})
  | Some scalp_region =>
      if (size scalp_region =? 0)%Z then
        Ok (Some {| coverage_level := FULL;
                    coverage_percentage := lit 100;
                    confidence := lit (5 # 10);
                    requires_alternative_styling := false |})
      else
        (* Analyze hair coverage *)
        let* (coverage_percentage, confidence) :=
          _calculate_hair_coverage cv scalp_region in
        (* Classify coverage level *)
        let level :=
          if coverage_percentage >=? FULL_COVERAGE_THRESHOLD * lit 100 then FULL
          else if coverage_percentage >=? THINNING_THRESHOLD * lit 100
               then THINNING
               else BALD in
        Ok (Some {| coverage_level := level;
                    coverage_percentage := coverage_percentage;
                    confidence := confidence;
                    requires_alternative_styling := level_neqb level FULL |})
  end.
End WithFloat.
Arguments BaldnessResult T : clear implicits.

End BaldnessDetector.

(* ================================================================= *)
(** ** analyzer.py: the class [FaceAnalyzer] *)

Module FaceAnalyzer.

Section WithFloat.
Context {T : Type} `{PyFloat T}.
Local Open Scope py_scope.

Definition Landmarks : Type := list (T * T * T).

Record FaceDetectionResult := {
  landmarks : Landmarks;
  bbox : Z * Z * Z * Z;
  confidence : T;
  image_shape : Z * Z
}.

(** The landmark provider and the region extractor built on it
    ([detector.py], with its square roots, arc cosine and
    [cv2.boundingRect]): what [FaceAnalyzer] calls on its
    [face_detector]. *)
Record FaceDetector := {
  detect : Image -> option FaceDetectionResult;
  get_cheek_regions : Image -> Landmarks -> Image * Image;
  get_forehead_region : Image -> Landmarks -> Image;
  get_face_measurements : Landmarks -> gmap string T
}.

Record FaceAnalysisResult := {
  detected : bool;
  skin_tone : option (SkinToneDetector.SkinToneResult T);
  face_shape : option (FaceShapeClassifier.FaceShapeResult T);
  hair_coverage : option (BaldnessDetector.BaldnessResult T);
  color_season : option string;
  overall_confidence : T
}.

(** The builtin [sum] starts from the int 0. *)
Definition py_sum (xs : list T) : T := fold_left fadd xs (lit 0).

Definition analyze (face_detector : FaceDetector) (cv : OpenCV T)
    (image : Image) : Res FaceAnalysisResult :=
  (* Step 1: Detect face and extract landmarks *)
  match detect face_detector image with
  | None =>
      Ok {| detected := false;
            skin_tone := None;
            face_shape := None;
            hair_coverage := None;
            color_season := None;
            overall_confidence := lit 0 |}
  | Some detection =>
      (* Step 2: Analyze skin tone from cheek and forehead regions *)
      let '(left_cheek, right_cheek) :=
        get_cheek_regions face_detector image (landmarks detection) in
      let forehead :=
        get_forehead_region face_detector image (landmarks detection) in
      let skin_regions :=
        (if (0 <? size left_cheek)%Z then [left_cheek] else [])
        ++ (if (0 <? size right_cheek)%Z then [right_cheek] else [])
        ++ (if (0 <? size forehead)%Z then [forehead] else []) in
      let* skin_tone_result := SkinToneDetector.analyze cv skin_regions in
      (* Step 3: Classify face shape from measurements *)
      let measurements :=
        get_face_measurements face_detector (landmarks detection) in
      let* face_shape_result := FaceShapeClassifier.classify measurements in
      (* an instance of the dataclass, which is never [None] and is true
         in the tests [if face_shape_result:] below *)
      let face_shape_result := Some face_shape_result in
      (* Step 4: Analyze hair coverage *)
      let* baldness_result := BaldnessDetector.analyze cv image (bbox detection) in
      (* Step 5: Determine color season *)
      let color_season :=
        match skin_tone_result with
        | Some r =>
            Some (SkinToneDetector.get_season (SkinToneDetector.fitzpatrick_type r)
                                       (SkinToneDetector.undertone r))
        | None => None
        end in
      (* Calculate overall confidence *)
      let confidences :=
        match skin_tone_result with
        | Some r => [SkinToneDetector.confidence r]
        | None => []
        end
        ++ match face_shape_result with
           | Some r => [FaceShapeClassifier.confidence r]
           | None => []
           end
        ++ match baldness_result with
           | Some r => [BaldnessDetector.confidence r]
           | None => []
           end in
      let* overall_confidence :=
        match confidences with
        | [] => Ok (lit 0)
        | _ => py_div (py_sum confidences)
                      (of_int (Z.of_nat (length confidences)))
        end in
      Ok {| detected := true;
            skin_tone := skin_tone_result;
            face_shape := face_shape_result;
            hair_coverage := baldness_result;
            color_season := color_season;
            overall_confidence := overall_confidence |}
  end.
End WithFloat.
Arguments Landmarks T : clear implicits.
Arguments FaceDetectionResult T : clear implicits.
Arguments FaceDetector T : clear implicits.
Arguments FaceAnalysisResult T : clear implicits.

End FaceAnalyzer.

(* ================================================================= *)
(** * The specification's vocabulary, and sample inputs *)

Section BinaryOrderWords.
Local Open Scope Z_scope.

(** The order of binary64 values that are not NaN, as a lexicographic
    order on triples: the class (negative infinity, negative, zero,
    positive, positive infinity), then exponent and mantissa. *)
Definition rank (f : spec_float) : option (Z * Z * Z) :=
  match f with
  | S754_nan => None
  | S754_infinity true => Some (0, 0, 0)
  | S754_finite true m e => Some (1, - e, - Z.pos m)
  | S754_zero _ => Some (2, 0, 0)
  | S754_finite false m e => Some (3, e, Z.pos m)
  | S754_infinity false => Some (4, 0, 0)
  end.

Definition lex_lt (a b : Z * Z * Z) : Prop :=
  let '(a1, a2, a3) := a in
  let '(b1, b2, b3) := b in
  a1 < b1 \/ (a1 = b1 /\ (a2 < b2 \/ (a2 = b2 /\ a3 < b3))).

Definition lex_le (a b : Z * Z * Z) : Prop :=
  let '(a1, a2, a3) := a in
  let '(b1, b2, b3) := b in
  a1 < b1 \/ (a1 = b1 /\ (a2 < b2 \/ (a2 = b2 /\ a3 <= b3))).

Definition float_rank (x : float) : option (Z * Z * Z) := rank (Prim2SF x).

End BinaryOrderWords.

Section ToneWords.
Local Open Scope Q_scope.

(** The six bands with their levels, and the clamped confidence of a
    luminance inside a band, as the specification words them. *)
Definition tone_bands : list (Z * (Z * Z)) :=
  [ (1, (75, 100)); (2, (65, 75)); (3, (55, 65));
    (4, (45, 55)); (5, (35, 45)); (6, (0, 35)) ]%Z.

Definition band_confidence (lo hi : Z) (L : Q) : Q :=
  let bandCenter := (inject_Z lo + inject_Z hi) / 2 in
  let bandWidth := inject_Z hi - inject_Z lo in
  Qmax (7 # 10) (Qmin (98 # 100) (1 - Qabs (L - bandCenter) / (bandWidth / 2))).

(** The same confidence as the code computes it, in any arithmetic. *)
Definition clamped_confidence {T} `{PyFloat T} (lo hi : Z) (L : T) : T :=
  py_max (lit (7 # 10))
    (py_min (lit (98 # 100))
       (lit 1 - fabs (L - of_int (lo + hi) / lit 2)
                / (of_int (hi - lo) / lit 2)))%py.

(** The ratio the code forms, in exact arithmetic. *)
Definition undertone_ratio (a b : Q) : Q :=
  let a_shifted := a + 128 in
  (b + 128) / (if Qeq_bool a_shifted 0 then 1 # 100 else a_shifted).

(** The ratio the code forms, in binary64. *)
Definition undertone_ratio_float (a b : float) : float :=
  let a_shifted := (a + lit 128)%py in
  ((b + lit 128)
   / (if (a_shifted =? lit 0)%py then lit (1 # 100) else a_shifted))%py.

End ToneWords.

Section ShapeWords.
Import FaceShapeClassifier.
Local Open Scope Q_scope.

Definition all_shapes : list FaceShape :=
  [ROUND; OBLONG; HEART; TRIANGLE; SQUARE; DIAMOND; OVAL].

(** A list in non-increasing order. *)
Definition descending : list Q -> Prop := StronglySorted (fun x y => y <= x).

(** The specification's words.  [winner sc shape conf]: [best] is the
    maximum of the scores [sc]; [top] and [second] are the two highest of
    them, counted with multiplicity; below the floor 0.3 the answer is
    oval at confidence 0.6, and otherwise a category that scores [best],
    at confidence min(0.98, 0.7 + 0.5 * (top - second)). *)
Definition winner (sc : list (FaceShape * Q)) (shape : FaceShape) (conf : Q)
    : Prop :=
  exists best top second rest,
    (exists s, In (s, best) sc)
    /\ (forall s v, In (s, v) sc -> v <= best)
    /\ Permutation (top :: second :: rest) (map snd sc)
    /\ top == best
    /\ second <= top
    /\ Forall (fun x => x <= second) rest
    /\ (best < 3 # 10 -> shape = OVAL /\ conf == 6 # 10)
    /\ (3 # 10 <= best ->
        In (shape, best) sc
        /\ conf == Qmin (98 # 100) ((7 # 10) + (5 # 10) * (top - second))).

(** The five quantities the scores are computed from. *)
Definition quantities (m : gmap string Q) : Q * Q * Q * Q * Q :=
  let forehead_width := default 1 (m !! "forehead_width") in
  let jaw_width := default 1 (m !! "jaw_width") in
  let cheekbone_width := default 1 (m !! "cheekbone_width") in
  (default 1 (m !! "length_width_ratio"),
   default 1 (m !! "forehead_jaw_ratio"),
   default 140 (m !! "jawline_angle"),
   if Qlt_le_dec 0 forehead_width then cheekbone_width / forehead_width else 1,
   if Qlt_le_dec 0 jaw_width then cheekbone_width / jaw_width else 1).

(** [x] is not below [y]. *)
Definition not_below (x y : float) : Prop := PrimFloat.ltb x y = false.

Definition descending_float : list float -> Prop := StronglySorted not_below.

(** The same vocabulary in binary64, with "not below" for the order. *)
Definition winner_float (sc : list (FaceShape * float)) (shape : FaceShape)
    (conf : float) : Prop :=
  exists best top second rest,
    (exists s, In (s, best) sc)
    /\ (forall s v, In (s, v) sc -> not_below best v)
    /\ Permutation (top :: second :: rest) (map snd sc)
    /\ not_below top best
    /\ not_below best top
    /\ not_below top second
    /\ Forall (not_below second) rest
    /\ (PrimFloat.ltb best (lit (3 # 10)) = true ->
        shape = OVAL /\ conf = lit (6 # 10))
    /\ (PrimFloat.ltb best (lit (3 # 10)) = false ->
        In (shape, best) sc
        /\ conf = py_min (lit (98 # 100))
                    (lit (7 # 10) + (top - second) * lit (5 # 10))%py).

Definition quantities_float (m : gmap string float)
    : float * float * float * float * float :=
  let forehead_width := default (lit 1) (m !! "forehead_width") in
  let jaw_width := default (lit 1) (m !! "jaw_width") in
  let cheekbone_width := default (lit 1) (m !! "cheekbone_width") in
  (default (lit 1) (m !! "length_width_ratio"),
   default (lit 1) (m !! "forehead_jaw_ratio"),
   default (lit 140) (m !! "jawline_angle"),
   if PrimFloat.ltb (lit 0) forehead_width
   then PrimFloat.div cheekbone_width forehead_width else lit 1,
   if PrimFloat.ltb (lit 0) jaw_width
   then PrimFloat.div cheekbone_width jaw_width else lit 1).

(** The measurement mappings of the two examples: the three named keys
    and nothing else. *)
Definition three_ratios {T} `{PyFloat T} (length_width forehead_jaw jawline : Q)
    : gmap string T :=
  <["length_width_ratio" := lit length_width]>
    (<["forehead_jaw_ratio" := lit forehead_jaw]>
       (<["jawline_angle" := lit jawline]> ∅)).

Definition classified {T} `{PyFloat T} (m : gmap string T) : Res string :=
  let* r := classify m in Ok (value (shape r)).

End ShapeWords.

Section ScalpWords.
Local Open Scope Z_scope.

(** The specification's words: the scalp rectangle is half the face
    height, above the face, widened by a tenth of the face width on each
    side and clipped to the image. *)
Definition scalp_h (face_bbox : Z * Z * Z * Z) : Z :=
  let '(x, y, w, h) := face_bbox in
  y - Z.max 0 (y - Z.quot h 2).

Definition scalp_w (image : Image) (face_bbox : Z * Z * Z * Z) : Z :=
  let '(x, y, w, h) := face_bbox in
  Z.min (Z.of_nat (shape1 image) - Z.max 0 (x - Z.quot w 10))
        (Z.quot (12 * w) 10).

Definition default_result {T} `{PyFloat T} : BaldnessDetector.BaldnessResult T :=
  {| BaldnessDetector.coverage_level := BaldnessDetector.FULL;
     BaldnessDetector.coverage_percentage := lit 100;
     BaldnessDetector.confidence := lit (5 # 10);
     BaldnessDetector.requires_alternative_styling := false |}.

(** The specification's words: the pixels of a scalp region are its
    positions, row by row; a hair pixel is one at which the mask is set;
    the count of hair pixels and of all pixels. *)
Definition pixels (region : Image) : list (nat * nat) :=
  flat_map (fun i => map (fun j => (i, j)) (seq 0 (shape1 region)))
           (seq 0 (shape0 region)).

Definition hair_pixel_count (region : Image) (mask : ndarray Z) : Z :=
  Z.of_nat (length (List.filter (fun p => 0 <? entry mask (fst p) (snd p))
                                (pixels region))).

Definition total_pixels (region : Image) : Z :=
  Z.of_nat (shape0 region) * Z.of_nat (shape1 region).

(** The call of [cv2.dilate] on the texture mask of a scalp region. *)
Definition dilate_call {T} `{PyFloat T} (cv : OpenCV T) (region : Image)
    : Res (ndarray Z) :=
  dilate cv (BaldnessDetector.texture_mask cv region)
         (getStructuringElement_ELLIPSE cv (3, 3)) 2.

(** A binding that rejects every boolean array, as those of OpenCV 4 do. *)
Definition rejects_bool {T} (cv : OpenCV T) : Prop :=
  forall src kernel iterations,
    dilate cv src kernel iterations = Raise Cv2Error.

End ScalpWords.

Section OrchestratorWords.
Import FaceAnalyzer.

(** A result of a successful detection carries a face shape and a hair
    coverage. *)
Definition shape_and_hair_present {T} (r : FaceAnalysisResult T) : Prop :=
  detected r = true ->
  exists fs hc, face_shape r = Some fs /\ hair_coverage r = Some hc.

End OrchestratorWords.

Section SampleInputs.
Local Open Scope Z_scope.

(** The two string methods on ASCII text, for the examples. *)
Definition ascii_text : PyStr.
Proof.
  refine {| lower := map_text ascii_lower; upper := map_text ascii_upper |}.
  - reflexivity.
  - reflexivity.
  - induction s as [|c s IH]; cbn [map_text]; [reflexivity|].
    rewrite IH. f_equal.
    destruct c as [[] [] [] [] [] [] [] []]; reflexivity.
Defined.

(** A stand-in for OpenCV that works entry by entry, with no
    neighbourhood: enough to run the pipeline on a concrete image. *)
Definition pointwise_cv {T} `{PyFloat T} : OpenCV T := {|
  cvtColor_BGR2HSV := fun image => image;
  cvtColor_BGR2LAB := fun image => image;
  cvtColor_BGR2GRAY :=
    map_array (fun p : Pixel => (fst (fst p) + snd (fst p) + snd p) / 3);
  inRange := fun src lo hi =>
    map_array (fun p : Z * Z * Z =>
                 if (fst (fst lo) <=? fst (fst p)) && (fst (fst p) <=? fst (fst hi))
                 then 255 else 0) src;
  getStructuringElement_ELLIPSE := fun _ => mk_ndarray 3 3 (fun _ _ => 1);
  morphologyEx := fun src _ _ => src;
  Canny := fun image _ _ => map_array (fun _ => 0) image;
  dilate := fun src _ _ => Ok (map_array Z.b2z src);
  LAB2BGR_hex := fun _ _ _ => "#000000"
|}.

(** The same stand-in with a [dilate] that rejects boolean arrays. *)
Definition strict_cv {T} `{PyFloat T} : OpenCV T := {|
  cvtColor_BGR2HSV := cvtColor_BGR2HSV pointwise_cv;
  cvtColor_BGR2LAB := cvtColor_BGR2LAB pointwise_cv;
  cvtColor_BGR2GRAY := cvtColor_BGR2GRAY pointwise_cv;
  inRange := inRange pointwise_cv;
  getStructuringElement_ELLIPSE := getStructuringElement_ELLIPSE pointwise_cv;
  morphologyEx := morphologyEx pointwise_cv;
  Canny := Canny pointwise_cv;
  dilate := fun _ _ _ => Raise Cv2Error;
  LAB2BGR_hex := LAB2BGR_hex pointwise_cv
|}.

(** A 480 by 640 image, for the examples. *)
Definition test_image : Image :=
  mk_ndarray 480 640
    (fun i j => (Z.of_nat i mod 256, Z.of_nat j mod 256, Z.of_nat (i + j) mod 256)).

(** A 40 by 40 image, dark in its columns below 15 and bright elsewhere:
    half of the scalp rectangle of the box (5, 30, 20, 40) is hair. *)
Definition half_dark_image : Image :=
  mk_ndarray 40 40
    (fun i j => if (j <? 15)%nat then (10, 10, 10) else (240, 40, 240)).

Definition no_face {T} `{PyFloat T} : FaceAnalyzer.FaceDetector T := {|
  FaceAnalyzer.detect := fun _ => None;
  FaceAnalyzer.get_cheek_regions := fun image _ => (image, image);
  FaceAnalyzer.get_forehead_region := fun image _ => image;
  FaceAnalyzer.get_face_measurements := fun _ => ∅
|}.

(** A detector that finds a face whose cheek and forehead crops are
    empty: detection succeeds, the skin tone and the season are absent,
    the face shape and the hair coverage are present. *)
Definition face_without_skin {T} `{PyFloat T} : FaceAnalyzer.FaceDetector T := {|
  FaceAnalyzer.detect := fun _ =>
    Some {| FaceAnalyzer.landmarks := [];
            FaceAnalyzer.bbox := (5, 30, 20, 40);
            FaceAnalyzer.confidence := lit (95 # 100);
            FaceAnalyzer.image_shape := (40, 40) |};
  FaceAnalyzer.get_cheek_regions := fun image _ =>
    (slice2 image 0 0 0 0, slice2 image 0 0 0 0);
  FaceAnalyzer.get_forehead_region := fun image _ => slice2 image 0 0 0 0;
  FaceAnalyzer.get_face_measurements := fun _ => three_ratios (12 # 10) 1 140
|}.

End SampleInputs.

(* ================================================================= *)
(** * The detector, the serialiser and the recommendation engines *)

(** ** Exceptions of lookups and of external code *)

Inductive Exception : Type :=
  | Core (e : Exn)             (* raised in the analysis core *)
  | KeyError (key : string)
  | IndexError
  | ExternalError (message : string).

Inductive Outcome (A : Type) : Type :=
  | Returns (a : A)
  | Raises (e : Exception).
Arguments Returns {A} a.
Arguments Raises {A} e.

#[export] Instance Outcome_ret : MRet Outcome := fun A a => Returns a.

#[export] Instance Outcome_bind : MBind Outcome := fun A B k m =>
  match m with
  | Returns a => k a
  | Raises e => Raises e
  end.

(** A computation of the arithmetic core, among the others. *)
Definition of_res {A} (m : Res A) : Outcome A :=
  match m with
  | Ok a => Returns a
  | Raise e => Raises (Core e)
  end.

(** [d[key]] on a dict with string keys. *)
Definition getitem {A} (d : gmap string A) (key : string) : Outcome A :=
  match d !! key with
  | Some v => Returns v
  | None => Raises (KeyError key)
  end.

(** [xs[0]] and [xs[1:]]. *)
Definition first_item {A} (xs : list A) : Outcome A :=
  match xs with
  | x :: _ => Returns x
  | [] => Raises IndexError
  end.

(* ================================================================= *)
(** ** detector.py: the class [FaceDetector] *)

Module Detector.

(* Key landmark indices for ROI extraction *)
Definition FOREHEAD_LANDMARKS : list nat :=
  [10; 338; 297; 332; 284; 251; 389; 356; 454; 323; 361; 288; 397; 365; 379;
   378; 400; 377; 152; 148; 176; 149; 150; 136; 172; 58; 132; 93; 234; 127;
   162; 21; 54; 103; 67; 109]%nat.
Definition LEFT_CHEEK_LANDMARKS : list nat :=
  [50; 101; 36; 205; 206; 207; 187; 123; 116; 117; 118; 119]%nat.
Definition RIGHT_CHEEK_LANDMARKS : list nat :=
  [280; 330; 266; 425; 426; 427; 411; 352; 345; 346; 347; 348]%nat.

(* Face shape measurement landmarks *)
Definition FACE_TOP : nat := 10.
Definition FACE_BOTTOM : nat := 152.
Definition FACE_LEFT : nat := 234.
Definition FACE_RIGHT : nat := 454.
Definition FOREHEAD_LEFT : nat := 70.
Definition FOREHEAD_RIGHT : nat := 300.
Definition JAW_LEFT : nat := 172.
Definition JAW_RIGHT : nat := 397.
Definition CHEEKBONE_LEFT : nat := 234.
Definition CHEEKBONE_RIGHT : nat := 454.

Section WithFloat.
Context {T : Type} `{PyFloat T}.
Local Open Scope py_scope.

(** What the detector calls in MediaPipe, OpenCV and NumPy.
    [face_mesh_process] stands for [FaceMesh.process] and the reading of
    [multi_face_landmarks]: the normalised landmarks of each face found. *)
Record Libraries := {
  cvtColor_BGR2RGB : Image -> Image;
  face_mesh_process : Image -> list (list (T * T * T));
  boundingRect : list (Z * Z) -> Z * Z * Z * Z;
  astype_int32 : T -> Z;
  linalg_norm : T * T -> T;
  dot : T * T -> T * T -> T;
  clip : T -> T -> T -> T;
  arccos : T -> T;
  degrees : T -> T
}.

(** [ndarray.min()] and [ndarray.max()]: NumPy propagates a NaN, the only
    value that differs from itself, and raises [ValueError] on an empty
    array. *)
Definition isnan (x : T) : bool := negb (x =? x).

Definition minimum (a b : T) : T :=
  if isnan a then a else if isnan b then b else if b <? a then b else a.

Definition maximum (a b : T) : T :=
  if isnan a then a else if isnan b then b else if a <? b then b else a.

Definition reduce (f : T -> T -> T) (xs : list T) : Outcome T :=
  match xs with
  | [] => Raises (Core ValueError)
  | x :: rest => Returns (fold_left f rest x)
  end.

(** [landmarks[:, k]]: an array built from no rows has one axis, and the
    second index raises. *)
Definition column {A} (k : T * T * T -> A) (landmarks : list (T * T * T))
    : Outcome (list A) :=
  match landmarks with
  | [] => Raises IndexError
  | _ => Returns (map k landmarks)
  end.

Definition detect (lib : Libraries) (image : Image)
    : Outcome (option (FaceAnalyzer.FaceDetectionResult T)) :=
  (* Convert BGR to RGB *)
  let rgb_image := cvtColor_BGR2RGB lib image in
  let height := Z.of_nat (shape0 image) in
  let width := Z.of_nat (shape1 image) in
  (* Process with MediaPipe *)
  match face_mesh_process lib rgb_image with
  | [] => mret None
  | face_landmarks :: _ =>
      (* Extract landmarks as numpy array *)
      let landmarks :=
        map (fun lm : T * T * T =>
               (fst (fst lm) * of_int width,
                snd (fst lm) * of_int height,
                snd lm * of_int width))
            face_landmarks in
      (* Calculate bounding box *)
      x_coords ← column (fun p => fst (fst p)) landmarks;
      y_coords ← column (fun p => snd (fst p)) landmarks;
      x_lo ← reduce minimum x_coords;
      x_min ← of_res (py_int x_lo);
      x_hi ← reduce maximum x_coords;
      x_max ← of_res (py_int x_hi);
      y_lo ← reduce minimum y_coords;
      y_min ← of_res (py_int y_lo);
      y_hi ← reduce maximum y_coords;
      y_max ← of_res (py_int y_hi);
      let bbox := (x_min, y_min, x_max - x_min, y_max - y_min)%Z in
      mret (Some {| FaceAnalyzer.landmarks := landmarks;
                    FaceAnalyzer.bbox := bbox;
                    FaceAnalyzer.confidence := lit (95 # 100);
                    FaceAnalyzer.image_shape := (height, width) |})
  end.

(** [landmarks[landmark_indices, :2]]: the rows named, each cut to its
    first two columns; an index past the last row raises. *)
Definition row (landmarks : FaceAnalyzer.Landmarks T) (idx : nat)
    : Outcome (T * T) :=
  match landmarks !! idx with
  | Some p => Returns (fst p)
  | None => Raises IndexError
  end.

Fixpoint rows (landmarks : FaceAnalyzer.Landmarks T) (indices : list nat)
    : Outcome (list (T * T)) :=
  match indices with
  | [] => mret []
  | idx :: rest =>
      p ← row landmarks idx;
      ps ← rows landmarks rest;
      mret (p :: ps)
  end.

Definition extract_roi (lib : Libraries) (image : Image)
    (landmarks : FaceAnalyzer.Landmarks T) (landmark_indices : list nat)
    : Outcome Image :=
  (* Get points for the specified landmarks *)
  selected ← rows landmarks landmark_indices;
  let points :=
    map (fun p : T * T => (astype_int32 lib (fst p), astype_int32 lib (snd p)))
        selected in
  (* Create bounding rect *)
  let '(x, y, w, h) := boundingRect lib points in
  (* Add padding *)
  let padding := 5%Z in
  let x := Z.max 0 (x - padding) in
  let y := Z.max 0 (y - padding) in
  let w := Z.min (Z.of_nat (shape1 image) - x) (w + 2 * padding) in
  let h := Z.min (Z.of_nat (shape0 image) - y) (h + 2 * padding) in
  mret (slice2 image y (y + h) x (x + w)).

Definition get_cheek_regions (lib : Libraries) (image : Image)
    (landmarks : FaceAnalyzer.Landmarks T) : Outcome (Image * Image) :=
  left_cheek ← extract_roi lib image landmarks LEFT_CHEEK_LANDMARKS;
  right_cheek ← extract_roi lib image landmarks RIGHT_CHEEK_LANDMARKS;
  mret (left_cheek, right_cheek).

Definition get_forehead_region (lib : Libraries) (image : Image)
    (landmarks : FaceAnalyzer.Landmarks T) : Outcome Image :=
  extract_roi lib image landmarks FOREHEAD_LANDMARKS.

(** The difference of two rows, as NumPy subtracts them. *)
Definition sub2 (p q : T * T) : T * T := (fst p - fst q, snd p - snd q).

Definition distance (lib : Libraries) (landmarks : FaceAnalyzer.Landmarks T)
    (idx1 idx2 : nat) : Outcome T :=
  p ← row landmarks idx1;
  q ← row landmarks idx2;
  mret (linalg_norm lib (sub2 p q)).

Definition get_face_measurements (lib : Libraries)
    (landmarks : FaceAnalyzer.Landmarks T) : Outcome (gmap string T) :=
  face_length ← distance lib landmarks FACE_TOP FACE_BOTTOM;
  face_width ← distance lib landmarks FACE_LEFT FACE_RIGHT;
  forehead_width ← distance lib landmarks FOREHEAD_LEFT FOREHEAD_RIGHT;
  jaw_width ← distance lib landmarks JAW_LEFT JAW_RIGHT;
  cheekbone_width ← distance lib landmarks CHEEKBONE_LEFT CHEEKBONE_RIGHT;
  (* Calculate jawline angle *)
  left_jaw ← row landmarks JAW_LEFT;
  right_jaw ← row landmarks JAW_RIGHT;
  chin ← row landmarks FACE_BOTTOM;
  let vec1 := sub2 left_jaw chin in
  let vec2 := sub2 right_jaw chin in
  let cos_angle :=
    np_true_divide (dot lib vec1 vec2)
                   (linalg_norm lib vec1 * linalg_norm lib vec2) in
  let jawline_angle :=
    degrees lib (arccos lib (clip lib cos_angle (lit (-1)) (lit 1))) in
  mret (list_to_map
          [ ("face_length", face_length);
            ("face_width", face_width);
            ("forehead_width", forehead_width);
            ("jaw_width", jaw_width);
            ("cheekbone_width", cheekbone_width);
            ("jawline_angle", jawline_angle);
            ("length_width_ratio",
             if face_width >? lit 0
             then np_true_divide face_length face_width else lit 0);
            ("forehead_jaw_ratio",
             if jaw_width >? lit 0
             then np_true_divide forehead_width jaw_width else lit 0) ]).

End WithFloat.
Arguments Libraries T : clear implicits.

End Detector.

(* ================================================================= *)
(** ** Strings and dicts of the recommendation engines *)

Section PythonStrings.

(** [s.replace(old, new)] for one-character [old] and [new]. *)
Fixpoint replace (old new : ascii) (s : string) : string :=
  match s with
  | EmptyString => EmptyString
  | String c r =>
      String (if Ascii.eqb c old then new else c) (replace old new r)
  end.

(** [x in xs] for a list of strings. *)
Definition contains (xs : list string) (x : string) : bool :=
  existsb (String.eqb x) xs.

(** A dict literal whose iteration order matters, with its keys
    distinct: [key in d] and [d[key]]. *)
Definition assoc {A} (d : list (string * A)) (key : string) : option A :=
  option_map snd (find (fun kv => String.eqb (fst kv) key) d).

Definition getitem_assoc {A} (d : list (string * A)) (key : string)
    : Outcome A :=
  match assoc d key with
  | Some v => Returns v
  | None => Raises (KeyError key)
  end.

(** The values of the response dicts: a string or a list of strings. *)
Inductive Leaf : Type :=
  | Text (s : string)
  | Items (xs : list string).

End PythonStrings.

(* ================================================================= *)
(** ** color_theory.py: palettes, style, grooming, recommendations *)

Module SeasonalPalettes.
Import ColorTheoryEngine.

Record ColorPalette := {
  best_colors : list string;
  accent_colors : list string;
  neutral_colors : list string;
  avoid_colors : list string;
  metal_preference : string
}.

Definition ColorSeason_eqb (a b : ColorSeason) : bool :=
  match a, b with
  | SPRING, SPRING | SUMMER, SUMMER | AUTUMN, AUTUMN | WINTER, WINTER => true
  | _, _ => false
  end.

(* Seasonal color palettes *)
Definition SEASONAL_PALETTES : list (ColorSeason * ColorPalette) :=
  [
    (SPRING,
     {| best_colors :=
          ["#FFDAB9"; "#FFD700"; "#FF6347"; "#98FB98"; "#87CEEB"; "#FFA07A";
           "#F0E68C"; "#DDA0DD"];
        accent_colors := ["#FF4500"; "#32CD32"; "#FF69B4"];
        neutral_colors :=
          ["#F5F5DC"; "#D2B48C"; "#8B7355"; "#FFFFF0"];
        avoid_colors :=
          ["#000000"; "#4A0000"; "#2F4F4F"; "#800000"];
        metal_preference := "gold" |});
    (SUMMER,
     {| best_colors :=
          ["#E6E6FA"; "#B0C4DE"; "#DDA0DD"; "#FFC0CB"; "#ADD8E6"; "#D8BFD8";
           "#F0E68C"; "#98FB98"];
        accent_colors := ["#9370DB"; "#20B2AA"; "#DB7093"];
        neutral_colors :=
          ["#DCDCDC"; "#C0C0C0"; "#A9A9A9"; "#F5F5F5"];
        avoid_colors :=
          ["#FF4500"; "#FFD700"; "#8B4513"; "#FF6347"];
        metal_preference := "silver" |});
    (AUTUMN,
     {| best_colors :=
          ["#8B4513"; "#D2691E"; "#556B2F"; "#CD853F"; "#B8860B"; "#A0522D";
           "#6B8E23"; "#DAA520"];
        accent_colors := ["#FF8C00"; "#228B22"; "#DC143C"];
        neutral_colors :=
          ["#F5DEB3"; "#D2B48C"; "#8B7355"; "#5C4033"];
        avoid_colors :=
          ["#FF69B4"; "#00FFFF"; "#E6E6FA"; "#C0C0C0"];
        metal_preference := "gold" |});
    (WINTER,
     {| best_colors :=
          ["#000080"; "#800020"; "#228B22"; "#FFFFFF"; "#DC143C"; "#4169E1";
           "#8B008B"; "#2F4F4F"];
        accent_colors := ["#FF0000"; "#0000FF"; "#FF1493"];
        neutral_colors :=
          ["#000000"; "#FFFFFF"; "#808080"; "#36454F"];
        avoid_colors :=
          ["#FFDAB9"; "#F5DEB3"; "#DEB887"; "#FFE4B5"];
        metal_preference := "silver" |}) ].

(** [self.SEASONAL_PALETTES[season]]. *)
Definition get_palette (season : ColorSeason) : Outcome ColorPalette :=
  match find (fun kv => ColorSeason_eqb (fst kv) season) SEASONAL_PALETTES with
  | Some kv => Returns (snd kv)
  | None => Raises (KeyError (value season))
  end.

Section WithStr.
Context `{PyStr}.

Definition get_color_recommendations (fitzpatrick_type : Z) (undertone : string)
    : Outcome (ColorSeason * ColorPalette) :=
  let season := determine_season fitzpatrick_type undertone in
  palette ← get_palette season;
  mret (season, palette).

End WithStr.

End SeasonalPalettes.

Module StyleMatchingEngine.
Import ColorTheoryEngine.

(* Neckline recommendations by face shape *)
Definition NECKLINE_BY_FACE_SHAPE : gmap string (list string) :=
  list_to_map [
    ("oval",
     ["v-neck"; "crew"; "scoop"; "boat"; "turtleneck"]);
    ("round",
     ["v-neck"; "deep-v"; "asymmetric"; "open collar"]);
    ("square",
     ["scoop"; "round"; "cowl"; "off-shoulder"]);
    ("heart",
     ["v-neck"; "sweetheart"; "scoop"; "boat"]);
    ("oblong",
     ["crew"; "boat"; "cowl"; "turtleneck"; "square"]);
    ("diamond",
     ["boat"; "off-shoulder"; "v-neck"; "scoop"]);
    ("triangle",
     ["boat"; "off-shoulder"; "cowl"; "wide scoop"]) ].

(* Pattern recommendations by body type *)
Definition PATTERN_BY_BODY_TYPE : gmap string (list string) :=
  list_to_map [
    ("ectomorph",
     ["horizontal stripes"; "bold patterns"; "large prints"]);
    ("mesomorph",
     ["solid colors"; "medium patterns"; "subtle prints"]);
    ("endomorph",
     ["vertical stripes"; "small patterns"; "solid dark colors"]) ].

(* Fit recommendations *)
Definition FIT_BY_BODY_TYPE : gmap string (list string) :=
  list_to_map [
    ("ectomorph",
     ["regular"; "relaxed"; "layered"]);
    ("mesomorph",
     ["slim"; "regular"; "tailored"]);
    ("endomorph",
     ["regular"; "structured"; "a-line"]) ].

(* Accessory recommendations by face shape *)
Definition EYEWEAR_BY_FACE_SHAPE : gmap string (list string) :=
  list_to_map [
    ("oval",
     ["aviator"; "wayfarer"; "round"; "cat-eye"]);
    ("round",
     ["rectangular"; "square"; "angular"; "wayfarers"]);
    ("square",
     ["round"; "oval"; "aviator"; "cat-eye"]);
    ("heart",
     ["aviator"; "round"; "rimless"; "light frames"]);
    ("oblong",
     ["oversized"; "square"; "decorative temples"]);
    ("diamond",
     ["oval"; "rimless"; "cat-eye"; "browline"]);
    ("triangle",
     ["cat-eye"; "semi-rimless"; "bold top frames"]) ].

Section WithStr.
Context `{PyStr}.

(** In [table.get(key.lower(), table["oval"])] the default is an
    expression of its own: it is looked up, and can raise, whether or not
    the key is present. *)
Definition get_neckline_recommendations (face_shape : string)
    : Outcome (list string) :=
  fallback ← getitem NECKLINE_BY_FACE_SHAPE "oval";
  mret (default fallback (NECKLINE_BY_FACE_SHAPE !! lower face_shape)).

Definition get_pattern_recommendations (body_type : string)
    : Outcome (list string) :=
  fallback ← getitem PATTERN_BY_BODY_TYPE "mesomorph";
  mret (default fallback (PATTERN_BY_BODY_TYPE !! lower body_type)).

Definition get_fit_recommendations (body_type : string)
    : Outcome (list string) :=
  fallback ← getitem FIT_BY_BODY_TYPE "mesomorph";
  mret (default fallback (FIT_BY_BODY_TYPE !! lower body_type)).

Definition get_eyewear_recommendations (face_shape : string)
    : Outcome (list string) :=
  fallback ← getitem EYEWEAR_BY_FACE_SHAPE "oval";
  mret (default fallback (EYEWEAR_BY_FACE_SHAPE !! lower face_shape)).

End WithStr.

End StyleMatchingEngine.

Module GroomingRecommendationEngine.
Import ColorTheoryEngine.

Definition HAIRSTYLES_BY_FACE_SHAPE : gmap string (list string) :=
  list_to_map [
    ("oval",
     ["side part"; "pompadour"; "textured crop"; "slick back"; "quiff"]);
    ("round",
     ["high fade"; "pompadour"; "side part"; "spiky"; "undercut"]);
    ("square",
     ["textured top"; "side part"; "classic taper"; "crew cut"]);
    ("heart",
     ["side swept"; "fringe"; "textured crop"; "medium length"]);
    ("oblong",
     ["side part"; "bangs"; "textured layers"; "medium length"]);
    ("diamond",
     ["side swept"; "textured fringe"; "medium layers"]);
    ("triangle",
     ["voluminous top"; "side part"; "textured quiff"]) ].

Definition BEARD_STYLES_BY_FACE_SHAPE : gmap string (list string) :=
  list_to_map [
    ("oval",
     ["stubble"; "short beard"; "full beard"; "goatee"]);
    ("round",
     ["chin strap"; "goatee"; "anchor beard"; "extended goatee"]);
    ("square",
     ["stubble"; "circle beard"; "short boxed beard"]);
    ("heart",
     ["full beard"; "balbo"; "anchor"; "chin curtain"]);
    ("oblong",
     ["mutton chops"; "stubble"; "short sides long chin"]);
    ("diamond",
     ["full beard"; "chin strap"; "anchor"]);
    ("triangle",
     ["stubble"; "goatee"; "soul patch"]) ].

(* For bald/thinning users *)
Definition BALD_RECOMMENDATIONS : gmap string (list string) :=
  list_to_map [
    ("beard_priority",
     ["full beard"; "sculpted beard"; "goatee"; "stubble"]);
    ("accessory_focus",
     ["statement glasses"; "hats/caps"; "scarves"]);
    ("neckline_emphasis",
     ["v-neck"; "open collar"; "crew neck"]);
    ("grooming_tips",
     ["Keep scalp moisturized and protected from sun";
      "Consider a clean shave for a polished look";
      "Invest in quality sunglasses and eyewear";
      "Well-groomed facial hair adds definition"]) ].

Section WithStr.
Context `{PyStr}.

Definition get_hairstyle_recommendations (face_shape hair_coverage : string)
    : Outcome (list string) :=
  if contains ["bald"; "thinning"] (lower hair_coverage)
  then mret ["buzz cut"; "clean shave"; "very short crop"]
  else
    fallback ← getitem HAIRSTYLES_BY_FACE_SHAPE "oval";
    mret (default fallback (HAIRSTYLES_BY_FACE_SHAPE !! lower face_shape)).

Definition get_beard_recommendations (face_shape hair_coverage : string)
    : Outcome (list string) :=
  if contains ["bald"; "thinning"] (lower hair_coverage)
  then getitem BALD_RECOMMENDATIONS "beard_priority"
  else
    fallback ← getitem BEARD_STYLES_BY_FACE_SHAPE "oval";
    mret (default fallback (BEARD_STYLES_BY_FACE_SHAPE !! lower face_shape)).

End WithStr.

Definition get_bald_specific_recommendations : gmap string (list string) :=
  BALD_RECOMMENDATIONS.

End GroomingRecommendationEngine.

Module RecommendationEngine.
Import ColorTheoryEngine SeasonalPalettes.

Section WithStr.
Context `{PyStr}.

Definition generate_recommendations (fitzpatrick_type : Z)
    (undertone face_shape body_type hair_coverage gender : string)
    : Outcome (gmap string (gmap string Leaf)) :=
  (* Color recommendations *)
  '(season, palette) ← get_color_recommendations fitzpatrick_type undertone;
  (* Style recommendations *)
  necklines ← StyleMatchingEngine.get_neckline_recommendations face_shape;
  patterns ← StyleMatchingEngine.get_pattern_recommendations body_type;
  fits ← StyleMatchingEngine.get_fit_recommendations body_type;
  eyewear ← StyleMatchingEngine.get_eyewear_recommendations face_shape;
  (* Grooming recommendations *)
  hairstyles ←
    GroomingRecommendationEngine.get_hairstyle_recommendations
      face_shape hair_coverage;
  beard_styles ←
    (if String.eqb (lower gender) "male"
     then GroomingRecommendationEngine.get_beard_recommendations
            face_shape hair_coverage
     else mret []);
  (* Build recommendation response *)
  let recommendations : gmap string (gmap string Leaf) :=
    list_to_map [
      ("color_analysis",
       list_to_map [
         ("season", Text (value season));
         ("best_colors", Items (best_colors palette));
         ("accent_colors", Items (accent_colors palette));
         ("neutral_colors", Items (neutral_colors palette));
         ("avoid_colors", Items (avoid_colors palette));
         ("metal_preference", Text (metal_preference palette)) ]);
      ("style",
       list_to_map [
         ("recommended_necklines", Items necklines);
         ("patterns", Items patterns);
         ("fits", Items fits);
         ("eyewear", Items eyewear) ]);
      ("grooming",
       list_to_map [
         ("hairstyles", Items hairstyles);
         ("beard_styles", Items beard_styles) ]);
      ("reasoning",
       list_to_map [
         ("color",
          Text ("Your " +:+ undertone +:+ " undertone and Type "
                +:+ pretty fitzpatrick_type +:+ " skin place you in the "
                +:+ upper (value season) +:+ " color season."));
         ("necklines",
          Text ("Your " +:+ face_shape +:+ " face shape is complemented by "
                +:+ String.concat ", " (take 3 necklines) +:+ " necklines."));
         ("patterns",
          Text ("Your " +:+ body_type +:+ " body type works well with "
                +:+ String.concat ", " (take 2 patterns) +:+ ".")) ]) ] in
  (* Add bald-specific recommendations if applicable *)
  if contains ["bald"; "thinning"] (lower hair_coverage) then
    let recommendations :=
      <["alternative_styling" :=
          Items <$> GroomingRecommendationEngine.get_bald_specific_recommendations]>
        recommendations in
    reasoning ← getitem recommendations "reasoning";
    mret (<["reasoning" :=
              <["hair" := Text "Focus on complementary accessories and well-groomed facial hair to create a polished look."]>
                reasoning]>
            recommendations)
  else mret recommendations.

End WithStr.

End RecommendationEngine.

(* ================================================================= *)
(** ** occasion_styling.py: the class [OccasionStylingEngine] *)

Module OccasionStylingEngine.
Import ColorTheoryEngine.

Record OccasionOutfit := {
  occasion : string;
  top : gmap string Leaf;
  bottom : gmap string Leaf;
  footwear : gmap string Leaf;
  accessories : list string;
  grooming_notes : string;
  color_suggestions : list string
}.

(* Base outfit templates by occasion *)
Definition OCCASION_TEMPLATES
    : list (string * gmap string (gmap string (list string))) :=
  [
    ("casual",
     list_to_map [
       ("male",
        list_to_map [
           ("tops",
            ["t-shirt"; "polo"; "casual shirt"; "henley"]);
           ("bottoms",
            ["jeans"; "chinos"; "shorts"]);
           ("footwear",
            ["sneakers"; "loafers"; "sandals"]);
           ("accessories",
            ["watch"; "sunglasses"; "cap"]) ]);
       ("female",
        list_to_map [
           ("tops",
            ["blouse"; "t-shirt"; "tank top"; "crop top"]);
           ("bottoms",
            ["jeans"; "skirt"; "shorts"; "culottes"]);
           ("footwear",
            ["sneakers"; "flats"; "sandals"]);
           ("accessories",
            ["tote bag"; "sunglasses"; "minimal jewelry"]) ]) ]);
    ("formal",
     list_to_map [
       ("male",
        list_to_map [
           ("tops",
            ["dress shirt"; "blazer"; "suit jacket"]);
           ("bottoms",
            ["dress pants"; "suit trousers"]);
           ("footwear",
            ["oxford shoes"; "derby shoes"; "loafers"]);
           ("accessories",
            ["tie"; "pocket square"; "cufflinks"; "dress watch"]) ]);
       ("female",
        list_to_map [
           ("tops",
            ["blouse"; "blazer"; "dress shirt"]);
           ("bottoms",
            ["dress pants"; "pencil skirt"; "formal dress"]);
           ("footwear",
            ["heels"; "pumps"; "loafers"]);
           ("accessories",
            ["structured bag"; "pearl jewelry"; "elegant watch"]) ]) ]);
    ("business_casual",
     list_to_map [
       ("male",
        list_to_map [
           ("tops",
            ["button-down shirt"; "polo"; "sweater"; "light blazer"]);
           ("bottoms",
            ["chinos"; "dress pants"; "dark jeans"]);
           ("footwear",
            ["loafers"; "brogues"; "clean sneakers"]);
           ("accessories",
            ["leather belt"; "watch"; "minimal jewelry"]) ]);
       ("female",
        list_to_map [
           ("tops",
            ["blouse"; "cardigan"; "blazer"; "knit top"]);
           ("bottoms",
            ["dress pants"; "midi skirt"; "tailored jeans"]);
           ("footwear",
            ["flats"; "low heels"; "loafers"]);
           ("accessories",
            ["tote bag"; "simple jewelry"; "scarf"]) ]) ]);
    ("date_night",
     list_to_map [
       ("male",
        list_to_map [
           ("tops",
            ["fitted shirt"; "smart casual blazer"; "dark sweater"]);
           ("bottoms",
            ["dark jeans"; "chinos"; "smart trousers"]);
           ("footwear",
            ["chelsea boots"; "loafers"; "clean sneakers"]);
           ("accessories",
            ["nice watch"; "subtle cologne"; "leather belt"]) ]);
       ("female",
        list_to_map [
           ("tops",
            ["elegant blouse"; "bodysuit"; "dressy top"]);
           ("bottoms",
            ["fitted jeans"; "skirt"; "dress"]);
           ("footwear",
            ["heels"; "ankle boots"; "elegant flats"]);
           ("accessories",
            ["statement jewelry"; "clutch"; "light fragrance"]) ]) ]);
    ("fitness",
     list_to_map [
       ("male",
        list_to_map [
           ("tops",
            ["performance t-shirt"; "tank top"; "compression shirt"]);
           ("bottoms",
            ["shorts"; "joggers"; "compression pants"]);
           ("footwear",
            ["running shoes"; "training shoes"]);
           ("accessories",
            ["fitness tracker"; "sweatband"; "gym bag"]) ]);
       ("female",
        list_to_map [
           ("tops",
            ["sports bra"; "tank top"; "workout tee"]);
           ("bottoms",
            ["leggings"; "shorts"; "joggers"]);
           ("footwear",
            ["running shoes"; "cross-trainers"]);
           ("accessories",
            ["hair tie"; "fitness tracker"; "gym bag"]) ]) ]);
    ("festive",
     list_to_map [
       ("male",
        list_to_map [
           ("tops",
            ["kurta"; "sherwani"; "bandhgala"; "ethnic jacket"]);
           ("bottoms",
            ["churidar"; "dhoti pants"; "formal trousers"]);
           ("footwear",
            ["mojari"; "juttis"; "formal leather shoes"]);
           ("accessories",
            ["dupatta/stole"; "brooch"; "ethnic jewelry"]) ]);
       ("female",
        list_to_map [
           ("tops",
            ["saree blouse"; "lehenga choli"; "anarkali"]);
           ("bottoms",
            ["saree"; "lehenga"; "palazzo"]);
           ("footwear",
            ["heels"; "juttis"; "embellished sandals"]);
           ("accessories",
            ["statement jewelry"; "clutch"; "bindi"; "bangles"]) ]) ]);
    ("interview",
     list_to_map [
       ("male",
        list_to_map [
           ("tops",
            ["white/light dress shirt"; "conservative blazer"]);
           ("bottoms",
            ["dark dress pants"; "suit trousers"]);
           ("footwear",
            ["oxford shoes"; "polished leather shoes"]);
           ("accessories",
            ["conservative tie"; "minimal watch"; "leather portfolio"]) ]);
       ("female",
        list_to_map [
           ("tops",
            ["professional blouse"; "blazer"]);
           ("bottoms",
            ["dress pants"; "pencil skirt"; "professional dress"]);
           ("footwear",
            ["closed-toe heels"; "flats"]);
           ("accessories",
            ["minimal jewelry"; "professional bag"; "portfolio"]) ]) ]) ].

Definition _get_grooming_notes (occasion gender : string) : string :=
  let notes : gmap string string :=
    list_to_map [
      ("formal",
       "Clean-shaven or well-groomed facial hair. Neat hairstyle.");
      ("casual",
       "Relaxed grooming, but maintain cleanliness.");
      ("interview",
       "Conservative, polished appearance. Minimal fragrance.");
      ("date_night",
       "Well-groomed, subtle fragrance, attention to detail.");
      ("fitness",
       "Hair tied back if long, minimal products.");
      ("festive",
       "Traditional grooming appropriate for the occasion.");
      ("business_casual",
       "Professional but relaxed grooming.") ] in
  default "Maintain a clean, well-groomed appearance." (notes !! occasion).

Section WithStr.
Context `{PyStr}.

Definition get_occasion_outfit (occasion gender : string)
    (color_palette : list string) (face_shape : string)
    : Outcome OccasionOutfit :=
  let occasion_key := replace " " "_" (lower occasion) in
  let gender_key := lower gender in
  let occasion_key :=
    match assoc OCCASION_TEMPLATES occasion_key with
    | None => "casual"
    | Some _ => occasion_key
    end in
  by_gender ← getitem_assoc OCCASION_TEMPLATES occasion_key;
  template ← getitem by_gender gender_key;
  (* Select primary and accent colors from palette *)
  let primary_colors :=
    match color_palette with
    | [] => ["#000000"; "#FFFFFF"]
    | _ => take 3 color_palette
    end in
  tops ← getitem template "tops";
  top_type ← first_item tops;
  tops' ← getitem template "tops";
  bottoms ← getitem template "bottoms";
  bottom_type ← first_item bottoms;
  bottoms' ← getitem template "bottoms";
  shoes ← getitem template "footwear";
  footwear_type ← first_item shoes;
  shoes' ← getitem template "footwear";
  accessories ← getitem template "accessories";
  mret {| occasion := occasion;
          top :=
            list_to_map [
              ("type", Text top_type);
              ("alternatives", Items (drop 1 tops'));
              ("color_suggestion",
               Text (match primary_colors with
                     | c :: _ => c
                     | [] => "#FFFFFF"
                     end)) ];
          bottom :=
            list_to_map [
              ("type", Text bottom_type);
              ("alternatives", Items (drop 1 bottoms'));
              ("color_suggestion",
               Text (match primary_colors with
                     | _ :: c :: _ => c
                     | _ => "#000000"
                     end)) ];
          footwear :=
            list_to_map [
              ("type", Text footwear_type);
              ("alternatives", Items (drop 1 shoes'));
              ("color_suggestion", Text "neutral") ];
          accessories := accessories;
          grooming_notes := _get_grooming_notes occasion_key gender_key;
          color_suggestions := primary_colors |}.

End WithStr.

Definition get_all_occasions : list string := map fst OCCASION_TEMPLATES.

End OccasionStylingEngine.

(* ================================================================= *)
(** ** analyzer.py: [FaceAnalysisResult.to_dict] *)

(** The values of the response: JSON, with the formatted reasoning of the
    face shape as a leaf of its own. *)
Local Unset Elimination Schemes.
Inductive Json (T : Type) : Type :=
  | JBool (b : bool)
  | JInt (n : Z)
  | JFloat (x : T)
  | JStr (s : string)
  | JReasoning (r : FaceShapeClassifier.Reasoning T)
  | JDict (d : gmap string (Json T)).
Local Set Elimination Schemes.
Arguments JBool {T} b.
Arguments JInt {T} n.
Arguments JFloat {T} x.
Arguments JStr {T} s.
Arguments JReasoning {T} r.
Arguments JDict {T} d.

Module Analyzer.
Import FaceAnalyzer.

(** [fitzpatrick_type.name]. *)
Definition name (f : SkinToneDetector.FitzpatrickType) : string :=
  match f with
  | SkinToneDetector.TYPE_I => "TYPE_I"
  | SkinToneDetector.TYPE_II => "TYPE_II"
  | SkinToneDetector.TYPE_III => "TYPE_III"
  | SkinToneDetector.TYPE_IV => "TYPE_IV"
  | SkinToneDetector.TYPE_V => "TYPE_V"
  | SkinToneDetector.TYPE_VI => "TYPE_VI"
  end.

Section WithFloat.
Context {T : Type}.

(** An instance of a dataclass is true in a test; a string is true when
    it is not empty. *)
Definition to_dict (self : FaceAnalysisResult T) : gmap string (Json T) :=
  let result : gmap string (Json T) :=
    list_to_map [ ("detected", JBool (detected self));
                  ("overall_confidence", JFloat (overall_confidence self)) ] in
  let result :=
    match skin_tone self with
    | Some skin_tone =>
        <["skin_tone" :=
            JDict (list_to_map [
              ("fitzpatrick_type",
               JStr (name (SkinToneDetector.fitzpatrick_type skin_tone)));
              ("fitzpatrick_value",
               JInt (SkinToneDetector.value
                       (SkinToneDetector.fitzpatrick_type skin_tone)));
              ("undertone",
               JStr (SkinToneDetector.Undertone_value
                       (SkinToneDetector.undertone skin_tone)));
              ("confidence", JFloat (SkinToneDetector.confidence skin_tone));
              ("hex_color", JStr (SkinToneDetector.hex_color skin_tone)) ])]>
          result
    | None => result
    end in
  let result :=
    match face_shape self with
    | Some face_shape =>
        <["face_shape" :=
            JDict (list_to_map [
              ("shape",
               JStr (FaceShapeClassifier.value
                       (FaceShapeClassifier.shape face_shape)));
              ("confidence",
               JFloat (FaceShapeClassifier.confidence face_shape));
              ("reasoning",
               JReasoning (FaceShapeClassifier.reasoning face_shape)) ])]>
          result
    | None => result
    end in
  let result :=
    match hair_coverage self with
    | Some hair_coverage =>
        <["hair_coverage" :=
            JDict (list_to_map [
              ("level",
               JStr (BaldnessDetector.value
                       (BaldnessDetector.coverage_level hair_coverage)));
              ("percentage",
               JFloat (BaldnessDetector.coverage_percentage hair_coverage));
              ("confidence",
               JFloat (BaldnessDetector.confidence hair_coverage));
              ("requires_alternative_styling",
               JBool (BaldnessDetector.requires_alternative_styling
                        hair_coverage)) ])]>
          result
    | None => result
    end in
  match color_season self with
  | Some color_season =>
      if String.eqb color_season "" then result
      else <["color_season" := JStr color_season]> result
  | None => result
  end.

End WithFloat.

Section WithDetector.
Context {T : Type} `{PyFloat T}.
Local Open Scope py_scope.

(** [FaceAnalyzer.analyze] with the detector of [detector.py] as its
    [face_detector]: the calls on the detector may raise, in the order
    the source makes them. *)
Definition analyze (lib : Detector.Libraries T) (cv : OpenCV T)
    (image : Image) : Outcome (FaceAnalysisResult T) :=
  (* Step 1: Detect face and extract landmarks *)
  detection ← Detector.detect lib image;
  match detection with
  | None =>
      mret {| detected := false;
              skin_tone := None;
              face_shape := None;
              hair_coverage := None;
              color_season := None;
              overall_confidence := lit 0 |}
  | Some detection =>
      (* Step 2: Analyze skin tone from cheek and forehead regions *)
      cheeks ← Detector.get_cheek_regions lib image (landmarks detection);
      let '(left_cheek, right_cheek) := cheeks in
      forehead ← Detector.get_forehead_region lib image (landmarks detection);
      let skin_regions :=
        (if (0 <? size left_cheek)%Z then [left_cheek] else [])
        ++ (if (0 <? size right_cheek)%Z then [right_cheek] else [])
        ++ (if (0 <? size forehead)%Z then [forehead] else []) in
      skin_tone_result ← of_res (SkinToneDetector.analyze cv skin_regions);
      (* Step 3: Classify face shape from measurements *)
      measurements ← Detector.get_face_measurements lib (landmarks detection);
      face_shape_result ← of_res (FaceShapeClassifier.classify measurements);
      let face_shape_result := Some face_shape_result in
      (* Step 4: Analyze hair coverage *)
      baldness_result ← of_res (BaldnessDetector.analyze cv image (bbox detection));
      (* Step 5: Determine color season *)
      let color_season :=
        match skin_tone_result with
        | Some r =>
            Some (SkinToneDetector.get_season (SkinToneDetector.fitzpatrick_type r)
                                       (SkinToneDetector.undertone r))
        | None => None
        end in
      (* Calculate overall confidence *)
      let confidences :=
        match skin_tone_result with
        | Some r => [SkinToneDetector.confidence r]
        | None => []
        end
        ++ match face_shape_result with
           | Some r => [FaceShapeClassifier.confidence r]
           | None => []
           end
        ++ match baldness_result with
           | Some r => [BaldnessDetector.confidence r]
           | None => []
           end in
      overall_confidence ←
        of_res match confidences with
               | [] => Ok (lit 0)
               | _ => py_div (py_sum confidences)
                             (of_int (Z.of_nat (length confidences)))
               end;
      mret {| detected := true;
              skin_tone := skin_tone_result;
              face_shape := face_shape_result;
              hair_coverage := baldness_result;
              color_season := color_season;
              overall_confidence := overall_confidence |}
  end.

(** The detector seen from the orchestrator once its four calls have
    returned. *)
Definition returned (detection : option (FaceDetectionResult T))
    (cheeks : Image * Image) (forehead : Image) (measurements : gmap string T)
    : FaceDetector T := {|
  detect := fun _ => detection;
  get_cheek_regions := fun _ _ => cheeks;
  get_forehead_region := fun _ _ => forehead;
  get_face_measurements := fun _ => measurements
|}.

End WithDetector.
End Analyzer.

(* ================================================================= *)
(** ** app/api/v1/analysis.py: the endpoint [analyze_face] *)

Module AnalysisAPI.

Section WithFloat.
Context {T : Type} `{PyFloat T}.

Inductive Response : Type :=
  | HTTPException (status_code : Z) (detail : string)
  | JSONResponse (content : gmap string (Json T)).

(** What the endpoint calls outside the package: reading the upload and
    decoding it ([file.read], [np.frombuffer], [cv2.imdecode]), the
    analyzer of [get_analyzer] with its detector and its OpenCV, the
    serialisation that [JSONResponse] performs when it is built, and
    [str] on an exception. *)
Record Services := {
  decode : list Byte.byte -> Outcome (option Image);
  get_analyzer : Outcome (Detector.Libraries T * OpenCV T);
  render : gmap string (Json T) -> Outcome unit;
  str : Exception -> string
}.

Record UploadFile := {
  content_type : option string;
  contents : list Byte.byte
}.

(** The body of the [try] block: an [HTTPException] it raises passes
    through, any other exception is caught below. *)
Definition analyze_face_try (services : Services) (file : UploadFile)
    : Outcome Response :=
  (* Read image file *)
  image ← decode services (contents file);
  match image with
  | None => mret (HTTPException 400 "Could not decode image")
  | Some image =>
      (* Validate minimum resolution *)
      let height := Z.of_nat (shape0 image) in
      let width := Z.of_nat (shape1 image) in
      if (height <? 480) || (width <? 480) then
        mret (HTTPException 400
                ("Image resolution too low (" +:+ pretty width +:+ "x"
                 +:+ pretty height +:+ "). Minimum 480x480 required."))
      else
        (* Run analysis *)
        analyzer ← get_analyzer services;
        result ← Analyzer.analyze (fst analyzer) (snd analyzer) image;
        if negb (FaceAnalyzer.detected result) then
          mret (HTTPException 400 "No face detected in image")
        else
          let content : gmap string (Json T) :=
            list_to_map [ ("success", JBool true);
                          ("analysis", JDict (Analyzer.to_dict result)) ] in
          _ ← render services content;
          mret (JSONResponse content)
  end.

Definition analyze_face (services : Services) (file : UploadFile) : Response :=
  (* Validate file type *)
  if match content_type file with
     | None => true
     | Some t => String.eqb t "" || negb (String.prefix "image/" t)
     end
  then HTTPException 400 "File must be an image"
  else
    match analyze_face_try services file with
    | Returns response => response
    | Raises e => HTTPException 500 ("Analysis failed: " +:+ str services e)
    end.

End WithFloat.
Arguments Response T : clear implicits.
Arguments Services T : clear implicits.

End AnalysisAPI.

(* ================================================================= *)
(** * The vocabulary of the further properties *)

Section SamplingWords.
Local Open Scope Z_scope.

(** The number of entries of the centre sample [lab[h//4:3*h//4, w//4:3*w//4]]
    of an h by w region. *)
Definition centre_count (region : Image) : Z :=
  let h := Z.of_nat (shape0 region) in
  let w := Z.of_nat (shape1 region) in
  (3 * h / 4 - h / 4) * (3 * w / 4 - w / 4).

(** The skin mask of a region: the union of the two HSV ranges, opened
    and then closed with the 3 by 3 ellipse. *)
Definition skin_mask {T} (cv : OpenCV T) (region : Image) : ndarray Z :=
  let hsv := cvtColor_BGR2HSV cv region in
  let kernel := getStructuringElement_ELLIPSE cv (3, 3) in
  morphologyEx cv
    (morphologyEx cv
       (zip_array Z.lor (inRange cv hsv (0, 20, 70) (20, 255, 255))
                        (inRange cv hsv (0, 10, 60) (25, 255, 255)))
       MORPH_OPEN kernel)
    MORPH_CLOSE kernel.

(** The LAB pixels at which a mask is set, row by row. *)
Definition masked_pixels (lab : ndarray (Z * Z * Z)) (mask : ndarray Z)
    : list (Z * Z * Z) :=
  map (fun p => entry lab (fst p) (snd p))
      (List.filter (fun p => 0 <? entry mask (fst p) (snd p)) (pixels lab)).

(** The centre sample of an h by w region: the LAB pixels of the rows
    from h//4 up to 3h//4 and the columns from w//4 up to 3w//4, row by
    row. *)
Definition centre_pixels (lab : ndarray (Z * Z * Z)) (region : Image)
    : list (Z * Z * Z) :=
  let h := Z.of_nat (shape0 region) in
  let w := Z.of_nat (shape1 region) in
  flat_map (fun i => map (fun j => entry lab i j)
                         (seq (Z.to_nat (w / 4))
                              (Z.to_nat (3 * w / 4 - w / 4))))
           (seq (Z.to_nat (h / 4)) (Z.to_nat (3 * h / 4 - h / 4))).

End SamplingWords.

Section ResultWords.
Import FaceAnalyzer.

(** The season of a result is the season of its skin tone, and is absent
    with it. *)
Definition season_follows_tone {T} (r : FaceAnalysisResult T) : Prop :=
  color_season r
  = option_map (fun st => SkinToneDetector.get_season
                            (SkinToneDetector.fitzpatrick_type st)
                            (SkinToneDetector.undertone st))
               (skin_tone r).

Definition season_names : list string := ["spring"; "summer"; "autumn"; "winter"].

(** The confidences of the sub-results a result carries. *)
Definition sub_confidences {T} (r : FaceAnalysisResult T) : list T :=
  match skin_tone r with
  | Some st => [SkinToneDetector.confidence st]
  | None => []
  end
  ++ match face_shape r with
     | Some fs => [FaceShapeClassifier.confidence fs]
     | None => []
     end
  ++ match hair_coverage r with
     | Some hc => [BaldnessDetector.confidence hc]
     | None => []
     end.

End ResultWords.

Section TableWords.

(** Every entry of a table lists something. *)
Definition all_nonempty (items : list (string * list string)) : bool :=
  forallb (fun kv => negb (Nat.eqb (length (snd kv)) 0)) items.

End TableWords.

Section PaletteWords.
Import SeasonalPalettes.

(** No colour to avoid is among the colours recommended. *)
Definition avoids_apart (p : ColorPalette) : bool :=
  forallb (fun c => negb (contains (best_colors p ++ accent_colors p
                                    ++ neutral_colors p) c))
          (avoid_colors p).

End PaletteWords.

Section OccasionWords.
Import ColorTheoryEngine OccasionStylingEngine.
Context `{PyStr}.

(** The key an occasion is looked up under: lower case, underscores for
    spaces, and "casual" for an occasion without a template. *)
Definition normalise (occasion : string) : string :=
  replace " " "_" (lower occasion).

Definition template_key (occasion : string) : string :=
  match assoc OCCASION_TEMPLATES (normalise occasion) with
  | None => "casual"
  | Some _ => normalise occasion
  end.

(** The colours an outfit is built from. *)
Definition primary_colors (color_palette : list string) : list string :=
  match color_palette with
  | [] => ["#000000"; "#FFFFFF"]
  | _ => take 3 color_palette
  end.

Definition default_note : string :=
  "Maintain a clean, well-groomed appearance.".

(** A template lists its four kinds, the three garments with an entry
    at least. *)
Definition garments_listed (t : gmap string (list string)) : bool :=
  match t !! "tops", t !! "bottoms", t !! "footwear", t !! "accessories" with
  | Some (_ :: _), Some (_ :: _), Some (_ :: _), Some _ => true
  | _, _, _, _ => false
  end.

(** An occasion has templates for "male" and "female" and no other, and
    a grooming note of its own. *)
Definition occasion_listed
    (kv : string * gmap string (gmap string (list string))) : bool :=
  bool_decide (dom (snd kv) = ({["male"; "female"]} : gset string))
  && match snd kv !! "male", snd kv !! "female" with
     | Some m, Some f => garments_listed m && garments_listed f
     | _, _ => false
     end
  && negb (String.eqb (_get_grooming_notes (fst kv) "male") default_note).

(** The garment dict of an outfit. *)
Definition garment (type : string) (alternatives : list string)
    (color : string) : gmap string Leaf :=
  list_to_map [ ("type", Text type);
                ("alternatives", Items alternatives);
                ("color_suggestion", Text color) ].

End OccasionWords.

Section DetectorWords.
Import FaceAnalyzer Detector.

(** [int(x)] of an exact value: truncation toward zero. *)
Definition truncate (q : Q) : Z := Z.quot (Qnum q) (Zpos (Qden q)).

(** The box holds the pixel of every landmark. *)
Definition box_holds (bbox : Z * Z * Z * Z) (landmarks : Landmarks Q) : Prop :=
  let '(x, y, w, h) := bbox in
  0 <= w /\ 0 <= h
  /\ forall p, In p landmarks ->
       x <= truncate (fst (fst p)) <= x + w
       /\ y <= truncate (snd (fst p)) <= y + h.

(** The integer points [extract_roi] hands to [cv2.boundingRect]. *)
Definition roi_points {T} `{PyFloat T} (lib : Libraries T)
    (landmarks : Landmarks T) (landmark_indices : list nat) : list (Z * Z) :=
  match rows landmarks landmark_indices with
  | Returns selected =>
      map (fun p : T * T => (astype_int32 lib (fst p), astype_int32 lib (snd p)))
          selected
  | Raises _ => []
  end.

(** The greatest of the indices a region reads. *)
Definition max_index (indices : list nat) : nat :=
  fold_right Nat.max 0%nat indices.

Definition measurement_keys : gset string :=
  {[ "face_length"; "face_width"; "forehead_width"; "jaw_width";
     "cheekbone_width"; "jawline_angle"; "length_width_ratio";
     "forehead_jaw_ratio" ]}.

(** Stand-ins for the libraries, enough to run the detector: the
    bounding rectangle of integer points as OpenCV computes it, and one
    face of three landmarks. *)
Definition sample_libraries : Libraries Q := {|
  cvtColor_BGR2RGB := fun image => image;
  face_mesh_process := fun _ =>
    [[ (1 # 4, 1 # 2, 0); (3 # 4, 1 # 4, 0); (1 # 2, 3 # 4, 0) ]]%Q;
  boundingRect := fun points =>
    match points with
    | [] => (0, 0, 0, 0)
    | (x, y) :: rest =>
        let x0 := fold_left Z.min (map fst rest) x in
        let x1 := fold_left Z.max (map fst rest) x in
        let y0 := fold_left Z.min (map snd rest) y in
        let y1 := fold_left Z.max (map snd rest) y in
        (x0, y0, x1 - x0 + 1, y1 - y0 + 1)
    end;
  astype_int32 := truncate;
  linalg_norm := fun v => (Qabs (fst v) + Qabs (snd v))%Q;
  dot := fun u v => (fst u * fst v + snd u * snd v)%Q;
  clip := fun x lo hi => Qmax lo (Qmin hi x);
  arccos := fun x => (1 - x)%Q;
  degrees := fun x => (x * 90)%Q
|}.

End DetectorWords.

Section ResponseWords.
Import FaceAnalyzer.

(** A property of what a call returns, when it returns. *)
Definition on_return {A} (P : A -> Prop) (m : Outcome A) : Prop :=
  match m with
  | Returns a => P a
  | Raises _ => True
  end.

(** The keys [to_dict] may write, and those of its nested dicts. *)
Definition result_keys {T} (r : FaceAnalysisResult T) : gset string :=
  {[ "detected"; "overall_confidence" ]}
  ∪ (match skin_tone r with Some _ => {[ "skin_tone" ]} | None => ∅ end)
  ∪ (match face_shape r with Some _ => {[ "face_shape" ]} | None => ∅ end)
  ∪ (match hair_coverage r with Some _ => {[ "hair_coverage" ]} | None => ∅ end)
  ∪ (match color_season r with
     | Some s => if String.eqb s "" then ∅ else {[ "color_season" ]}
     | None => ∅
     end).

Definition skin_tone_keys : gset string :=
  {[ "fitzpatrick_type"; "fitzpatrick_value"; "undertone"; "confidence";
     "hex_color" ]}.

Definition face_shape_keys : gset string :=
  {[ "shape"; "confidence"; "reasoning" ]}.

Definition hair_coverage_keys : gset string :=
  {[ "level"; "percentage"; "confidence"; "requires_alternative_styling" ]}.

(** The keys of a nested dict of the response. *)
Definition nested_keys {T} (d : gmap string (Json T)) (key : string)
    : option (gset string) :=
  match d !! key with
  | Some (JDict sub) => Some (dom sub)
  | _ => None
  end.

End ResponseWords.

Section EndpointWords.
Import AnalysisAPI.

(** The upload declares an image. *)
Definition declares_image (file : UploadFile) : bool :=
  match content_type file with
  | Some t => String.prefix "image/" t
  | None => false
  end.

End EndpointWords.

(* ================================================================= *)
(** * Properties *)

(** ** Results of computations *)

Lemma on_result_bind {A B} (P : B -> Prop) (m : Res A) (k : A -> Res B) :
  (forall a, m = Ok a -> on_result P (k a)) -> on_result P (bind m k).
Proof. destruct m as [a|e]; cbn; intros Hk; [apply Hk; reflexivity | exact I]. Qed.

(** ** Deciding rational comparisons *)

Section ExactComparisons.
Local Open Scope Q_scope.

Lemma Qle_bool_true (a b : Q) : (a <= b)%Q -> Qle_bool a b = true.
Proof. intros Hab. apply Qle_bool_iff. exact Hab. Qed.

Lemma Qle_bool_false (a b : Q) : (b < a)%Q -> Qle_bool a b = false.
Proof.
  intros Hab. destruct (Qle_bool a b) eqn:E; [|reflexivity].
  apply Qle_bool_iff in E. lra.
Qed.

Lemma Qlt_bool_true (a b : Q) : (a < b)%Q -> Qlt_bool a b = true.
Proof. intros Hab. unfold Qlt_bool. rewrite Qle_bool_false; auto. Qed.

Lemma Qlt_bool_false (a b : Q) : (b <= a)%Q -> Qlt_bool a b = false.
Proof. intros Hab. unfold Qlt_bool. rewrite Qle_bool_true; auto. Qed.

Lemma Qlt_bool_iff (a b : Q) : Qlt_bool a b = true <-> (a < b)%Q.
Proof.
  split; [|apply Qlt_bool_true].
  destruct (Qlt_le_dec a b) as [Hlt|Hle]; [tauto|].
  rewrite Qlt_bool_false by exact Hle. discriminate.
Qed.

Lemma Qlt_bool_iff_false (a b : Q) : Qlt_bool a b = false <-> (b <= a)%Q.
Proof.
  split; [|apply Qlt_bool_false].
  destruct (Qlt_le_dec a b) as [Hlt|Hle]; [|tauto].
  rewrite Qlt_bool_true by exact Hlt. discriminate.
Qed.

Lemma Qeq_bool_false (a b : Q) : ~ (a == b)%Q -> Qeq_bool a b = false.
Proof.
  intros Hab. destruct (Qeq_bool a b) eqn:E; [|reflexivity].
  apply Qeq_bool_iff in E. contradiction.
Qed.

End ExactComparisons.

(** Settle every comparison in the goal that linear arithmetic decides. *)
Ltac qcompare :=
  repeat match goal with
  | |- context [Qle_bool ?a ?b] =>
      first [ rewrite (Qle_bool_true a b) by lra
            | rewrite (Qle_bool_false a b) by lra ]
  | |- context [Qlt_bool ?a ?b] =>
      first [ rewrite (Qlt_bool_true a b) by lra
            | rewrite (Qlt_bool_false a b) by lra ]
  | |- context [Qeq_bool ?a ?b] =>
      rewrite (Qeq_bool_false a b) by lra
  end.

(** Unfold the interface at the exact instance. *)
Ltac at_Q' :=
  unfold py_div, py_int, of_int, np_true_divide;
  cbn [lit fadd fsub fmul fdiv fabs flt fle feq ftrunc Q_PyFloat].

Ltac at_Q := unfold py_min, py_max; at_Q'.

Ltac qclosed :=
  repeat match goal with
  | |- context [Qeq_bool ?a ?b] =>
      let v := eval vm_compute in (Qeq_bool a b) in
      change (Qeq_bool a b) with v
  end.

Section ExactMinMax.
Local Open Scope Q_scope.

Lemma py_min_Qmin (a b : Q) : (py_min a b == Qmin a b)%Q.
Proof.
  at_Q. destruct (Qlt_le_dec b a) as [Hlt|Hle].
  - rewrite Qlt_bool_true by exact Hlt. rewrite Q.min_r; lra.
  - rewrite Qlt_bool_false by exact Hle. rewrite Q.min_l; lra.
Qed.

Lemma py_max_Qmax (a b : Q) : (py_max a b == Qmax a b)%Q.
Proof.
  at_Q. destruct (Qlt_le_dec a b) as [Hlt|Hle].
  - rewrite Qlt_bool_true by exact Hlt. rewrite Q.max_r; lra.
  - rewrite Qlt_bool_false by exact Hle. rewrite Q.max_l; lra.
Qed.

Lemma py_min_le_l (a b : Q) : py_min a b <= a.
Proof. rewrite py_min_Qmin. apply Q.le_min_l. Qed.

End ExactMinMax.

(** ** The order of binary64 values *)

Ltac rank_cases x y :=
  destruct x as [[]|[]| |[] ? ?], y as [[]|[]| |[] ? ?];
  cbn [SFcompare rank].

Ltac compare_cases :=
  repeat match goal with
  | |- context [Z.compare ?a ?b] => destruct (Z.compare_spec a b)
  | |- context [Pos.compare_cont Eq ?a ?b] =>
      change (Pos.compare_cont Eq a b) with (Pos.compare a b);
      destruct (Pos.compare_spec a b)
  end.

Lemma SFltb_rank (x y : spec_float) :
  SFltb x y = true
  <-> exists a b, rank x = Some a /\ rank y = Some b /\ lex_lt a b.
Proof.
  unfold SFltb. rank_cases x y; compare_cases; cbn [CompOpp];
    (split;
     [ intros Hsf; try discriminate Hsf;
       eexists _, _; (split; [reflexivity|]); (split; [reflexivity|]);
       cbn; lia
     | intros (ra & rb & Hra & Hrb & Hlex); try discriminate Hra;
       try discriminate Hrb; inversion Hra; inversion Hrb; subst ra rb;
       cbn in Hlex; try reflexivity; lia ]).
Qed.

Lemma SFleb_rank (x y : spec_float) :
  SFleb x y = true
  <-> exists a b, rank x = Some a /\ rank y = Some b /\ lex_le a b.
Proof.
  unfold SFleb. rank_cases x y; compare_cases; cbn [CompOpp];
    (split;
     [ intros Hsf; try discriminate Hsf;
       eexists _, _; (split; [reflexivity|]); (split; [reflexivity|]);
       cbn; lia
     | intros (ra & rb & Hra & Hrb & Hlex); try discriminate Hra;
       try discriminate Hrb; inversion Hra; inversion Hrb; subst ra rb;
       cbn in Hlex; try reflexivity; lia ]).
Qed.

Lemma ltb_rank (x y : float) :
  PrimFloat.ltb x y = true
  <-> exists a b, float_rank x = Some a /\ float_rank y = Some b /\ lex_lt a b.
Proof. rewrite FloatAxioms.ltb_spec. apply SFltb_rank. Qed.

Lemma leb_rank (x y : float) :
  PrimFloat.leb x y = true
  <-> exists a b, float_rank x = Some a /\ float_rank y = Some b /\ lex_le a b.
Proof. rewrite FloatAxioms.leb_spec. apply SFleb_rank. Qed.

(** Bring the order facts of the context to triples and decide. *)
Ltac rank_facts :=
  repeat match goal with
  | H : PrimFloat.ltb _ _ = true |- _ =>
      apply ltb_rank in H; destruct H as (? & ? & ? & ? & ?)
  | H : PrimFloat.leb _ _ = true |- _ =>
      apply leb_rank in H; destruct H as (? & ? & ? & ? & ?)
  end;
  repeat match goal with
  | H1 : float_rank ?x = Some ?a, H2 : float_rank ?x = Some ?b |- _ =>
      rewrite H1 in H2; inversion H2; subst b; clear H2
  end.

Ltac rank_lia :=
  repeat match goal with
  | a : (Z * Z * Z)%type |- _ => destruct a as [[? ?] ?]
  end;
  unfold lex_lt, lex_le in *; lia.

Lemma ltb_leb (x y : float) :
  PrimFloat.ltb x y = true -> PrimFloat.leb x y = true.
Proof.
  intros Hxy. rank_facts. apply leb_rank. eexists _, _.
  split; [eassumption|]. split; [eassumption|]. rank_lia.
Qed.

Lemma leb_trans (x y z : float) :
  PrimFloat.leb x y = true -> PrimFloat.leb y z = true ->
  PrimFloat.leb x z = true.
Proof.
  intros Hxy Hyz. rank_facts. apply leb_rank. eexists _, _.
  split; [eassumption|]. split; [eassumption|]. rank_lia.
Qed.

Lemma ltb_leb_false (x y z : float) :
  PrimFloat.ltb x y = true -> PrimFloat.leb y z = true ->
  PrimFloat.leb z x = false.
Proof.
  intros Hxy Hyz. destruct (PrimFloat.leb z x) eqn:Hzx; [|reflexivity].
  exfalso. rank_facts. rank_lia.
Qed.

Lemma leb_ltb_false (x y z : float) :
  PrimFloat.leb z y = true -> PrimFloat.leb y x = true ->
  PrimFloat.ltb x z = false.
Proof.
  intros Hzy Hyx. destruct (PrimFloat.ltb x z) eqn:Hxz; [|reflexivity].
  exfalso. rank_facts. rank_lia.
Qed.

Lemma ltb_trans (x y z : float) :
  PrimFloat.ltb x y = true -> PrimFloat.ltb y z = true ->
  PrimFloat.ltb x z = true.
Proof.
  intros Hxy Hyz. rank_facts. apply ltb_rank. eexists _, _.
  split; [eassumption|]. split; [eassumption|]. rank_lia.
Qed.

Lemma ltb_irrefl (x : float) : PrimFloat.ltb x x = false.
Proof.
  destruct (PrimFloat.ltb x x) eqn:Hxx; [|reflexivity].
  exfalso. rank_facts. rank_lia.
Qed.

Lemma ltb_asym (x y : float) :
  PrimFloat.ltb x y = true -> PrimFloat.ltb y x = false.
Proof.
  intros Hxy. destruct (PrimFloat.ltb y x) eqn:Hyx; [|reflexivity].
  exfalso. rank_facts. rank_lia.
Qed.

(** What does not exceed [y] does not exceed a value above [y]; this
    holds for NaN as well, which exceeds nothing and is exceeded by
    nothing. *)
Lemma ltb_above (x y z : float) :
  PrimFloat.ltb y x = true -> PrimFloat.ltb y z = false ->
  PrimFloat.ltb x z = false.
Proof.
  intros Hyx Hyz. destruct (PrimFloat.ltb x z) eqn:Hxz; [|reflexivity].
  rewrite (ltb_trans y x z Hyx Hxz) in Hyz. discriminate.
Qed.

(** Replace the closed literals of the goal by their binary64 values. *)
Ltac float_literals :=
  unfold of_int in *;
  cbn [lit fadd fsub fmul fdiv fabs flt fle feq float_PyFloat] in *;
  repeat match goal with
  | |- context [float_lit ?q] =>
      let v := eval vm_compute in (float_lit q) in
      change (float_lit q) with v
  | H : context [float_lit ?q] |- _ =>
      let v := eval vm_compute in (float_lit q) in
      change (float_lit q) with v in H
  end.

(** Decide the band tests of the loop from the position of [L]. *)
Ltac band_tests L :=
  repeat first
    [ match goal with
      | Hhi : PrimFloat.ltb L ?h = true
        |- context [PrimFloat.leb ?a L && PrimFloat.ltb L ?b] =>
          rewrite (ltb_leb_false L h a Hhi) by (vm_compute; reflexivity);
          cbn [andb]
      end
    | match goal with
      | Hge : PrimFloat.leb ?c L = true
        |- context [PrimFloat.leb ?a L && PrimFloat.ltb L ?b] =>
          rewrite (leb_ltb_false L c b) by (first [exact Hge | vm_compute; reflexivity]);
          rewrite andb_false_r
      end ].

(** ** The season rule *)

Section SeasonRule.
Import SkinToneDetector.

(** For warm and cool undertones [get_season] is the four-way table, and
    a neutral undertone on dark skin gives winter. *)
Lemma get_season_table (f : FitzpatrickType) :
  get_season f WARM = (if value f <=? 3 then "spring" else "autumn")
  /\ get_season f COOL = (if value f <=? 3 then "summer" else "winter")
  /\ get_season f NEUTRAL = (if value f <=? 3 then "summer" else "winter").
Proof. destruct f; repeat split; reflexivity. Qed.

(** C1.  On a light tone with a neutral undertone, [get_season] answers
    "summer", where the specification, and the rule of [determine_season],
    which leans warm for light skin, have "spring". *)
Theorem get_season_neutral_light `{PyStr} :
  get_season TYPE_II NEUTRAL = "summer"
  /\ get_season TYPE_II NEUTRAL <> "spring"
  /\ ColorTheoryEngine.value
       (ColorTheoryEngine.determine_season (value TYPE_II) (Undertone_value NEUTRAL))
     = "spring".
Proof.
  split; [reflexivity | split; [discriminate|]].
  unfold ColorTheoryEngine.determine_season.
  rewrite (lower_ascii_text (Undertone_value NEUTRAL)) by reflexivity.
  reflexivity.
Qed.

End SeasonRule.

(** ** Tone classification *)

Section ToneClassification.
Import SkinToneDetector.
Local Open Scope Q_scope.

Lemma clamp_Q (x y : Q) :
  x == y ->
  py_max (7 # 10) (py_min (98 # 100) x) == Qmax (7 # 10) (Qmin (98 # 100) y).
Proof.
  intros Hxy. rewrite py_max_Qmax, py_min_Qmin, Hxy. reflexivity.
Qed.

Lemma clamp_bounds (x : Q) :
  7 # 10 <= py_max (7 # 10) (py_min (98 # 100) x) <= 98 # 100.
Proof.
  rewrite py_max_Qmax, py_min_Qmin. split.
  - apply Q.le_max_l.
  - apply Q.max_lub; [lra | apply Q.le_min_l].
Qed.

Lemma band_hit (lvl lo hi : Z) (L : Q) :
  In (lvl, (lo, hi)) tone_bands ->
  inject_Z lo < L < inject_Z hi ->
  exists ft c,
    _classify_fitzpatrick L = Ok (ft, c)
    /\ value ft = lvl
    /\ c == band_confidence lo hi L
    /\ 7 # 10 <= c <= 98 # 100.
Proof.
  intros Hin HL. unfold tone_bands in Hin. cbn [In] in Hin.
  unfold _classify_fitzpatrick, FITZPATRICK_L_THRESHOLDS, band_confidence.
  repeat (destruct Hin as [Hin | Hin];
          [ inversion Hin; subst lvl lo hi; clear Hin;
            unfold inject_Z in HL;
            cbn [fitzpatrick_loop]; at_Q'; unfold inject_Z;
            qcompare; cbn [andb Z.add Z.sub]; qclosed; cbn [bind];
            eexists; eexists;
            split; [reflexivity|];
            split; [reflexivity|];
            split; [apply clamp_Q | apply clamp_bounds]
          | ]); [ .. | contradiction ].
  all: apply Qplus_comp; [reflexivity|]; apply Qopp_comp; apply Qmult_comp;
    [ apply Qabs_wd; apply Qplus_comp; [reflexivity|]; reflexivity
    | reflexivity ].
Qed.

Lemma above_all_bands (L : Q) :
  100 <= L -> _classify_fitzpatrick L = Ok (TYPE_I, 85 # 100).
Proof.
  intros HL. unfold _classify_fitzpatrick, FITZPATRICK_L_THRESHOLDS.
  cbn [fitzpatrick_loop]. at_Q'. unfold inject_Z. qcompare. reflexivity.
Qed.

Lemma below_all_bands (L : Q) :
  L < 0 -> _classify_fitzpatrick L = Ok (TYPE_VI, 85 # 100).
Proof.
  intros HL. unfold _classify_fitzpatrick, FITZPATRICK_L_THRESHOLDS.
  cbn [fitzpatrick_loop]. at_Q'. unfold inject_Z. qcompare. reflexivity.
Qed.

(** The same classification in binary64: luminance 60 is level 3 with
    the confidence clamped to 0.98, and the two outer cases. *)
Example classify_fitzpatrick_float :
  _classify_fitzpatrick (T := float) (lit 60) = Ok (TYPE_III, lit (98 # 100))
  /\ _classify_fitzpatrick (T := float) (lit 100) = Ok (TYPE_I, lit (85 # 100))
  /\ _classify_fitzpatrick (T := float) (lit (-1)) = Ok (TYPE_VI, lit (85 # 100)).
Proof. repeat split; vm_compute; reflexivity. Qed.

Lemma clamp_bounds_float (x : float) :
  let c := py_max (lit (7 # 10)) (py_min (lit (98 # 100)) x) in
  PrimFloat.leb (lit (7 # 10)) c = true /\ PrimFloat.leb c (lit (98 # 100)) = true.
Proof.
  unfold py_max, py_min. float_literals.
  destruct (PrimFloat.ltb x _) eqn:Hx.
  - destruct (PrimFloat.ltb _ x) eqn:Hx'.
    + split; apply ltb_leb; assumption.
    + split; vm_compute; reflexivity.
  - split; vm_compute; reflexivity.
Qed.

Lemma band_hit_float (lvl lo hi : Z) (L : float) :
  In (lvl, (lo, hi)) tone_bands ->
  PrimFloat.ltb (of_int lo) L = true ->
  PrimFloat.ltb L (of_int hi) = true ->
  exists ft c,
    _classify_fitzpatrick L = Ok (ft, c)
    /\ value ft = lvl
    /\ c = clamped_confidence lo hi L
    /\ PrimFloat.leb (lit (7 # 10)) c = true
    /\ PrimFloat.leb c (lit (98 # 100)) = true.
Proof.
  intros Hin Hlo Hhi. unfold tone_bands in Hin. cbn [In] in Hin.
  unfold clamped_confidence.
  repeat (destruct Hin as [Hin | Hin];
          [ inversion Hin; subst lvl lo hi; clear Hin;
            eexists _, _; split;
            [ unfold _classify_fitzpatrick, FITZPATRICK_L_THRESHOLDS;
              cbn [fitzpatrick_loop]; unfold py_div;
              cbn [Z.add Z.sub Z.pos_sub Pos.add Pos.succ Z.opp Pos.pred_double] in *;
              float_literals; band_tests L;
              rewrite (ltb_leb _ _ Hlo), Hhi; cbn [andb];
              match goal with
              | |- context [PrimFloat.eqb ?a ?b] =>
                  let v := eval vm_compute in (PrimFloat.eqb a b) in
                  change (PrimFloat.eqb a b) with v
              end;
              cbn [bind]; reflexivity
            | split; [reflexivity|]; split;
              [ cbn [Z.add Z.sub Z.pos_sub Pos.add Pos.succ Z.opp Pos.pred_double];
                float_literals; reflexivity
              | apply clamp_bounds_float ] ]
          | ]).
  contradiction.
Qed.

Lemma above_all_bands_float (L : float) :
  PrimFloat.leb (lit 100) L = true ->
  _classify_fitzpatrick L = Ok (TYPE_I, lit (85 # 100)).
Proof.
  intros Hge. unfold _classify_fitzpatrick, FITZPATRICK_L_THRESHOLDS.
  cbn [fitzpatrick_loop]. float_literals. band_tests L. cbn [bind].
  rewrite (leb_trans 75 100 L) by (first [exact Hge | vm_compute; reflexivity]).
  reflexivity.
Qed.

Lemma below_all_bands_float (L : float) :
  PrimFloat.ltb L (lit 0) = true ->
  _classify_fitzpatrick L = Ok (TYPE_VI, lit (85 # 100)).
Proof.
  intros Hlt. unfold _classify_fitzpatrick, FITZPATRICK_L_THRESHOLDS.
  cbn [fitzpatrick_loop]. float_literals. band_tests L. reflexivity.
Qed.

(** C2.  A luminance strictly inside one of the six bands gets that band's
    level and the clamped confidence, which lies in [0.7, 0.98]; luminance
    60 gets level 3 with confidence at least 0.7; a luminance of 100 or
    more gets level 1, and one below 0 gets level 6, at confidence 0.85.
    This holds in exact arithmetic and for every binary64 value. *)
Theorem classify_fitzpatrick_spec :
  (forall (lvl lo hi : Z) (L : Q),
      In (lvl, (lo, hi)) tone_bands ->
      inject_Z lo < L < inject_Z hi ->
      exists ft c,
        _classify_fitzpatrick L = Ok (ft, c)
        /\ value ft = lvl
        /\ c == band_confidence lo hi L
        /\ 7 # 10 <= c <= 98 # 100)
  /\ (exists c, _classify_fitzpatrick 60 = Ok (TYPE_III, c) /\ 7 # 10 <= c)
  /\ (forall L : Q,
        100 <= L ->
        exists ft, _classify_fitzpatrick L = Ok (ft, 85 # 100) /\ value ft = 1%Z)
  /\ (forall L : Q,
        L < 0 ->
        exists ft, _classify_fitzpatrick L = Ok (ft, 85 # 100) /\ value ft = 6%Z)
  /\ (forall (lvl lo hi : Z) (L : float),
        In (lvl, (lo, hi)) tone_bands ->
        PrimFloat.ltb (of_int lo) L = true ->
        PrimFloat.ltb L (of_int hi) = true ->
        exists ft c,
          _classify_fitzpatrick L = Ok (ft, c)
          /\ value ft = lvl
          /\ c = clamped_confidence lo hi L
          /\ PrimFloat.leb (lit (7 # 10)) c = true
          /\ PrimFloat.leb c (lit (98 # 100)) = true)
  /\ (forall L : float,
        PrimFloat.leb (lit 100) L = true ->
        exists ft,
          _classify_fitzpatrick L = Ok (ft, lit (85 # 100)) /\ value ft = 1%Z)
  /\ (forall L : float,
        PrimFloat.ltb L (lit 0) = true ->
        exists ft,
          _classify_fitzpatrick L = Ok (ft, lit (85 # 100)) /\ value ft = 6%Z).
Proof.
  split; [exact band_hit|]. split; [|split; [|split; [|split; [|split]]]].
  - destruct (band_hit 3 55 65 60) as (ft & c & Hrun & Hft & _ & Hc & _).
    + cbn. tauto.
    + split; reflexivity.
    + destruct ft; try discriminate Hft. exists c. split; assumption.
  - intros L HL. exists TYPE_I. split; [apply above_all_bands; exact HL | reflexivity].
  - intros L HL. exists TYPE_VI. split; [apply below_all_bands; exact HL | reflexivity].
  - exact band_hit_float.
  - intros L HL. exists TYPE_I.
    split; [apply above_all_bands_float; exact HL | reflexivity].
  - intros L HL. exists TYPE_VI.
    split; [apply below_all_bands_float; exact HL | reflexivity].
Qed.

Lemma classify_fitzpatrick_spec_witness :
  exists ft c,
    _classify_fitzpatrick (47 # 1) = Ok (ft, c)
    /\ value ft = 4%Z
    /\ c == band_confidence 45 55 (47 # 1)
    /\ 7 # 10 <= c <= 98 # 100.
Proof.
  apply (proj1 classify_fitzpatrick_spec 4%Z 45%Z 55%Z (47 # 1)).
  - cbn. tauto.
  - split; reflexivity.
Defined.

Lemma fitzpatrick_loop_returns (L : Q) (items : list (FitzpatrickType * (Z * Z))) :
  (forall ft lo hi, In (ft, (lo, hi)) items -> (lo < hi)%Z) ->
  returns (fitzpatrick_loop items L).
Proof.
  induction items as [|[ft [lo hi]] items IH]; intros Hitems; cbn [fitzpatrick_loop].
  - eexists. reflexivity.
  - destruct (_ && _).
    + at_Q'. rewrite Qeq_bool_false.
      * eexists. reflexivity.
      * assert (Hlt : (lo < hi)%Z) by (apply (Hitems ft); left; reflexivity).
        unfold inject_Z, Qeq, Qdiv, Qmult, Qinv. cbn. lia.
    + apply IH. intros ft' lo' hi' Hin. apply (Hitems ft'). right. exact Hin.
Qed.

Lemma classify_fitzpatrick_returns (L : Q) : returns (_classify_fitzpatrick L).
Proof.
  unfold _classify_fitzpatrick.
  destruct (fitzpatrick_loop_returns L FITZPATRICK_L_THRESHOLDS) as [found ->].
  - intros ft lo hi Hin. cbn in Hin.
    repeat (destruct Hin as [Hin|Hin]; [inversion Hin; lia|]). contradiction.
  - cbn [bind]. destruct found as [r|]; [eexists; reflexivity|].
    destruct (_ >=? _)%py; eexists; reflexivity.
Qed.

End ToneClassification.

(** ** Undertone classification *)

Section UndertoneClassification.
Import SkinToneDetector.
Local Open Scope Q_scope.

(** In exact arithmetic the three branches are as the specification has
    them, and no confidence exceeds 0.95. *)
Lemma classify_undertone_exact (a b : Q) :
  let r := undertone_ratio a b in
  exists u c,
    _classify_undertone a b = Ok (u, c)
    /\ (11 # 10 < r -> u = WARM)
    /\ (r < 9 # 10 -> u = COOL)
    /\ (9 # 10 <= r <= 11 # 10 -> u = NEUTRAL)
    /\ c <= 95 # 100.
Proof.
  unfold undertone_ratio, _classify_undertone. at_Q'.
  set (a' := if Qeq_bool (a + 128) 0 then 1 # 100 else a + 128).
  assert (Ha' : Qeq_bool a' 0 = false).
  { unfold a'. destruct (Qeq_bool (a + 128) 0) eqn:E; [reflexivity | exact E]. }
  rewrite Ha'. cbn [bind]. set (r := (b + 128) / a'). cbv zeta.
  destruct (Qlt_le_dec (11 # 10) r) as [Hw|Hw].
  - rewrite (Qlt_bool_true _ _ Hw).
    exists WARM. eexists. split; [reflexivity|].
    repeat split; try (intros; lra). apply py_min_le_l.
  - rewrite (Qlt_bool_false _ _ Hw).
    destruct (Qlt_le_dec r (9 # 10)) as [Hc|Hc].
    + rewrite (Qlt_bool_true _ _ Hc).
      exists COOL. eexists. split; [reflexivity|].
      repeat split; try (intros; lra). apply py_min_le_l.
    + rewrite (Qlt_bool_false _ _ Hc).
      exists NEUTRAL. eexists. split; [reflexivity|].
      repeat split; try (intros; lra).
      pose proof (Qabs_nonneg (r - 1)). lra.
Qed.

(** In binary64 the branches are selected as in exact arithmetic, no
    division raises, and the warm and the cool confidence are at most
    0.95; the neutral confidence is not clamped. *)
Lemma classify_undertone_float (a b : float) :
  let r := undertone_ratio_float a b in
  exists u c,
    _classify_undertone a b = Ok (u, c)
    /\ (PrimFloat.ltb (lit (11 # 10)) r = true ->
        u = WARM /\ PrimFloat.leb c (lit (95 # 100)) = true)
    /\ (PrimFloat.ltb (lit (11 # 10)) r = false ->
        PrimFloat.ltb r (lit (9 # 10)) = true ->
        u = COOL /\ PrimFloat.leb c (lit (95 # 100)) = true)
    /\ (PrimFloat.ltb (lit (11 # 10)) r = false ->
        PrimFloat.ltb r (lit (9 # 10)) = false ->
        u = NEUTRAL
        /\ c = (lit (8 # 10) + (lit 1 - fabs (r - lit 1)) * lit (15 # 100))%py).
Proof.
  assert (Hmin : forall x : float,
             PrimFloat.leb (py_min (lit (95 # 100)) x) (lit (95 # 100)) = true).
  { intros x. unfold py_min. float_literals.
    destruct (PrimFloat.ltb x _) eqn:Hx; [apply ltb_leb; exact Hx|].
    vm_compute. reflexivity. }
  unfold undertone_ratio_float, _classify_undertone, py_div.
  cbn [flt fle feq fadd fsub fmul fdiv fabs float_PyFloat].
  set (a' := if PrimFloat.eqb (PrimFloat.add a (lit 128)) (lit 0)
             then lit (1 # 100) else PrimFloat.add a (lit 128)).
  assert (Ha' : PrimFloat.eqb a' (lit 0) = false).
  { unfold a'. destruct (PrimFloat.eqb (PrimFloat.add a (lit 128)) (lit 0)) eqn:E;
      [vm_compute; reflexivity | exact E]. }
  rewrite Ha'. cbn [bind]. cbv zeta.
  destruct (PrimFloat.ltb (lit (11 # 10)) _) eqn:Hwarm.
  - eexists _, _. split; [reflexivity|].
    split; [intros _; split; [reflexivity | apply Hmin]|].
    split; intros; discriminate.
  - destruct (PrimFloat.ltb _ (lit (9 # 10))) eqn:Hcool.
    + eexists _, _. split; [reflexivity|].
      split; [intros; discriminate|].
      split; [intros _ _; split; [reflexivity | apply Hmin]|].
      intros; discriminate.
    + eexists _, _. split; [reflexivity|].
      split; [intros; discriminate|].
      split; [intros; discriminate|].
      intros _ _. split; reflexivity.
Qed.

(** The three ratios the specification names, in binary64: 230/200,
    170/200 and 200/200. *)
Example classify_undertone_ratios :
  (exists c, _classify_undertone (T := float) (lit 72) (lit 102) = Ok (WARM, c))
  /\ (exists c, _classify_undertone (T := float) (lit 72) (lit 42) = Ok (COOL, c))
  /\ (exists c, _classify_undertone (T := float) (lit 72) (lit 72) = Ok (NEUTRAL, c)).
Proof. repeat split; eexists; vm_compute; reflexivity. Qed.

(** C3.  In binary64, at a* = b* = 0 the ratio is 128/128 = 1.0, the
    branch is the neutral one, and its confidence 0.8 + 1.0 * 0.15 rounds
    to 0.9500000000000001, above the 0.95 the warm and cool branches are
    clamped to. *)
Theorem classify_undertone_neutral_exceeds :
  _classify_undertone (T := float) (lit 0) (lit 0)
    = Ok (NEUTRAL, PrimFloat.add (lit (8 # 10)) (lit (15 # 100)))
  /\ PrimFloat.ltb (lit (95 # 100))
                   (PrimFloat.add (lit (8 # 10)) (lit (15 # 100))) = true.
Proof. split; vm_compute; reflexivity. Qed.

End UndertoneClassification.

(** ** Face-shape classification *)

Section FaceShapeClassification.
Import FaceShapeClassifier.
Local Open Scope Q_scope.

Lemma scores_keys {T} `{PyFloat T} (lw fj ja cfr cjr : T) :
  map fst (scores lw fj ja cfr cjr) = all_shapes.
Proof. reflexivity. Qed.

Section MaxAndSort.
Context {K : Type}.

Lemma max_from_spec (l : list (K * Q)) : forall best : K * Q,
  In (max_from best l) (best :: l)
  /\ forall kv, In kv (best :: l) -> snd kv <= snd (max_from best l).
Proof.
  induction l as [|kv l IH]; intros best; cbn [max_from].
  - split; [left; reflexivity|].
    intros kv [<-|[]]. lra.
  - at_Q'.
    destruct (IH (if Qlt_bool (snd best) (snd kv) then kv else best))
      as [Hin Hmax].
    split.
    + destruct Hin as [Heq|Hin]; [|right; right; exact Hin].
      rewrite <- Heq.
      destruct (Qlt_bool (snd best) (snd kv)); [right; left|left]; reflexivity.
    + intros kv' Hkv'.
      assert (Hstep : snd kv' <=
                      snd (if Qlt_bool (snd best) (snd kv) then kv else best)
                      \/ In kv' l).
      { destruct Hkv' as [<-|[<-|Hl]]; [| |right; exact Hl]; left.
        - destruct (Qlt_bool (snd best) (snd kv)) eqn:E; [|lra].
          apply Qlt_bool_iff in E. cbn. lra.
        - destruct (Qlt_bool (snd best) (snd kv)) eqn:E; [lra|].
          apply Qlt_bool_iff_false in E. cbn. lra. }
      destruct Hstep as [Hle|Hl].
      * eapply Qle_trans; [exact Hle|]. apply Hmax. left. reflexivity.
      * apply Hmax. right. exact Hl.
Qed.
End MaxAndSort.

Lemma insert_desc_perm (x : Q) (l : list Q) :
  Permutation (insert_desc x l) (x :: l).
Proof.
  induction l as [|y l IH]; cbn [insert_desc]; [reflexivity|].
  at_Q'. destruct (Qlt_bool y x); [reflexivity|].
  rewrite IH. apply perm_swap.
Qed.

Lemma sorted_reverse_perm (l : list Q) : Permutation (sorted_reverse l) l.
Proof.
  induction l as [|x l IH]; cbn; [reflexivity|].
  rewrite insert_desc_perm, IH. reflexivity.
Qed.

Lemma insert_desc_descending (x : Q) (l : list Q) :
  descending l -> descending (insert_desc x l).
Proof.
  unfold descending.
  induction l as [|y l IH]; intros Hl; cbn [insert_desc].
  - constructor; constructor.
  - at_Q'. destruct (Qlt_bool y x) eqn:E.
    + apply Qlt_bool_iff in E. inversion Hl as [|? ? Hl' Hall]; subst.
      constructor; [exact Hl|]. constructor; [lra|].
      eapply Forall_impl; [exact Hall|]. cbn. intros z Hz. lra.
    + apply Qlt_bool_iff_false in E. inversion Hl as [|? ? Hl' Hall]; subst.
      constructor; [apply IH; exact Hl'|].
      eapply Permutation_Forall; [symmetry; apply insert_desc_perm|].
      constructor; [exact E | exact Hall].
  Qed.

Lemma sorted_reverse_descending (l : list Q) : descending (sorted_reverse l).
Proof.
  induction l as [|x l IH]; cbn.
  - constructor.
  - apply insert_desc_descending. exact IH.
Qed.

Lemma apply_classification_rules_winner (lw fj ja cfr cjr : Q) :
  exists shape conf reason,
    _apply_classification_rules lw fj ja cfr cjr = Ok (shape, conf, reason)
    /\ winner (scores lw fj ja cfr cjr) shape conf.
Proof.
  unfold _apply_classification_rules.
  pose proof (scores_keys lw fj ja cfr cjr) as Hkeys.
  destruct (scores lw fj ja cfr cjr) as [|kv rest] eqn:Hsc; [discriminate Hkeys|].
  cbn [max_by_value bind].
  destruct (max_from_spec rest kv) as [Hin Hmax].
  destruct (max_from kv rest) as [bs bv] eqn:Hbest. cbn [snd] in Hmax.
  pose proof (sorted_reverse_perm (map snd (kv :: rest))) as Hperm.
  pose proof (sorted_reverse_descending (map snd (kv :: rest))) as Hdesc.
  assert (Hlen : length (sorted_reverse (map snd (kv :: rest))) = 7%nat).
  { rewrite (Permutation_length Hperm), length_map.
    rewrite <- (length_map fst), Hkeys. reflexivity. }
  destruct (sorted_reverse (map snd (kv :: rest))) as [|s0 [|s1 tl]];
    [discriminate Hlen | discriminate Hlen |].
  inversion Hdesc as [|? ? Hdesc' Hall0]; subst.
  inversion Hdesc' as [|? ? _ Hall1]; subst.
  inversion Hall0 as [|? ? Hs1 Hall0']; subst.
  assert (Htop : s0 == bv).
  { apply Qle_antisym.
    - assert (Hs0 : In s0 (map snd (kv :: rest))).
      { eapply Permutation_in; [exact Hperm | left; reflexivity]. }
      apply in_map_iff in Hs0. destruct Hs0 as (kv' & <- & Hkv').
      apply Hmax. exact Hkv'.
    - assert (Hbv : In bv (s0 :: s1 :: tl)).
      { eapply Permutation_in; [symmetry; exact Hperm|].
        apply in_map_iff. exists (bs, bv). split; [reflexivity | exact Hin]. }
      destruct Hbv as [<-|Hbv]; [lra|].
      rewrite List.Forall_forall in Hall0. apply Hall0. exact Hbv. }
  assert (Hwin : forall shape conf,
             (bv < 3 # 10 -> shape = OVAL /\ conf == 6 # 10) ->
             (3 # 10 <= bv ->
              In (shape, bv) (kv :: rest)
              /\ conf == Qmin (98 # 100) ((7 # 10) + (5 # 10) * (s0 - s1))) ->
             winner (kv :: rest) shape conf).
  { intros shape conf Hlow Hhigh. exists bv, s0, s1, tl.
    split; [exists bs; exact Hin|].
    split; [intros s v Hv; apply (Hmax (s, v)); exact Hv|].
    split; [exact Hperm|].
    split; [exact Htop|].
    split; [exact Hs1|].
    split; [exact Hall1|].
    split; assumption. }
  at_Q'. destruct (Qlt_bool bv (3 # 10)) eqn:Hfloor.
  - apply Qlt_bool_iff in Hfloor.
    eexists _, _, _. split; [reflexivity|]. apply Hwin.
    + intros _. split; reflexivity.
    + intros Hge. lra.
  - apply Qlt_bool_iff_false in Hfloor.
    eexists _, _, _. split; [reflexivity|]. apply Hwin.
    + intros Hlt. lra.
    + intros _. split; [exact Hin|].
      rewrite py_min_Qmin.
      assert (Hgap : (7 # 10) + (s0 - s1) * (5 # 10)
                     == (7 # 10) + (5 # 10) * (s0 - s1)) by ring.
      rewrite Hgap. reflexivity.
Qed.

Lemma classify_winner_exact (m : gmap string Q) :
  exists r,
    classify m = Ok r
    /\ let '(lw, fj, ja, cfr, cjr) := quantities m in
       winner (scores lw fj ja cfr cjr) (shape r) (confidence r).
Proof.
  unfold classify, quantities. cbn [lit Q_PyFloat].
  set (fw := default 1 (m !! "forehead_width")).
  set (jw := default 1 (m !! "jaw_width")).
  set (cw := default 1 (m !! "cheekbone_width")).
  set (lw := default 1 (m !! "length_width_ratio")).
  set (fj := default 1 (m !! "forehead_jaw_ratio")).
  set (ja := default 140 (m !! "jawline_angle")).
  assert (Hratio : forall d : Q,
             (if (d >? 0)%py then py_div cw d else Ok 1)
             = Ok (if Qlt_le_dec 0 d then cw / d else 1)).
  { intros d. at_Q'. destruct (Qlt_le_dec 0 d) as [Hd|Hd].
    - rewrite (Qlt_bool_true _ _ Hd). rewrite Qeq_bool_false by lra. reflexivity.
    - rewrite (Qlt_bool_false _ _ Hd). reflexivity. }
  rewrite (Hratio fw), (Hratio jw). cbn [bind].
  destruct (apply_classification_rules_winner lw fj ja
              (if Qlt_le_dec 0 fw then cw / fw else 1)
              (if Qlt_le_dec 0 jw then cw / jw else 1))
    as (shape & conf & reason & Hrun & Hwin).
  rewrite Hrun. cbn [bind]. eexists. split; [reflexivity|]. exact Hwin.
Qed.

(** In binary64 a value above zero is not zero, so the guarded divisions
    of [classify] cannot raise. *)
Lemma float_positive_nonzero (x : float) :
  PrimFloat.ltb 0%float x = true -> PrimFloat.eqb x 0%float = false.
Proof.
  rewrite FloatAxioms.ltb_spec, FloatAxioms.eqb_spec.
  change (Prim2SF 0%float) with (S754_zero false).
  destruct (Prim2SF x) as [s|s| |s mx e]; try destruct s; cbn; congruence.
Qed.

Section MaxFloat.
Context {K : Type}.

Lemma max_from_keeps (l : list (K * float)) : forall (best : K * float) (v : float),
  not_below (snd best) v -> not_below (snd (max_from best l)) v.
Proof.
  unfold not_below.
  induction l as [|kv l IH]; intros best v Hv; cbn [max_from]; [exact Hv|].
  apply IH. cbn [flt float_PyFloat].
  destruct (PrimFloat.ltb (snd best) (snd kv)) eqn:Hstep; [|exact Hv].
  apply (ltb_above _ (snd best)); assumption.
Qed.

Lemma max_from_spec_float (l : list (K * float)) : forall best : K * float,
  In (max_from best l) (best :: l)
  /\ forall kv, In kv (best :: l) -> not_below (snd (max_from best l)) (snd kv).
Proof.
  induction l as [|kv l IH]; intros best; cbn [max_from].
  - split; [left; reflexivity|].
    intros kv [<-|[]]. apply ltb_irrefl.
  - cbn [flt float_PyFloat].
    destruct (IH (if PrimFloat.ltb (snd best) (snd kv) then kv else best))
      as [Hin Hmax].
    split.
    + destruct Hin as [Heq|Hin]; [|right; right; exact Hin].
      rewrite <- Heq.
      destruct (PrimFloat.ltb (snd best) (snd kv)); [right; left|left]; reflexivity.
    + intros kv' [<-|[<-|Hl]].
      * apply max_from_keeps.
        destruct (PrimFloat.ltb (snd best) (snd kv)) eqn:Hstep.
        -- apply ltb_asym. exact Hstep.
        -- apply ltb_irrefl.
      * apply max_from_keeps.
        destruct (PrimFloat.ltb (snd best) (snd kv)) eqn:Hstep.
        -- apply ltb_irrefl.
        -- exact Hstep.
      * apply Hmax. right. exact Hl.
Qed.
End MaxFloat.

Lemma insert_desc_perm_float (x : float) (l : list float) :
  Permutation (insert_desc x l) (x :: l).
Proof.
  induction l as [|y l IH]; cbn [insert_desc]; [reflexivity|].
  destruct (y <? x)%py; [reflexivity|].
  rewrite IH. apply perm_swap.
Qed.

Lemma sorted_reverse_perm_float (l : list float) :
  Permutation (sorted_reverse l) l.
Proof.
  induction l as [|x l IH]; cbn; [reflexivity|].
  rewrite insert_desc_perm_float, IH. reflexivity.
Qed.

Lemma insert_desc_descending_float (x : float) (l : list float) :
  descending_float l -> descending_float (insert_desc x l).
Proof.
  unfold descending_float.
  induction l as [|y l IH]; intros Hl; cbn [insert_desc].
  - constructor; constructor.
  - cbn [flt float_PyFloat]. destruct (PrimFloat.ltb y x) eqn:E.
    + inversion Hl as [|? ? Hl' Hall]; subst.
      constructor; [exact Hl|]. constructor; [apply ltb_asym; exact E|].
      eapply Forall_impl; [exact Hall|]. cbn. intros z Hz.
      apply (ltb_above x y z); assumption.
    + inversion Hl as [|? ? Hl' Hall]; subst.
      constructor; [apply IH; exact Hl'|].
      eapply Permutation_Forall; [symmetry; apply insert_desc_perm_float|].
      constructor; [exact E | exact Hall].
Qed.

Lemma sorted_reverse_descending_float (l : list float) :
  descending_float (sorted_reverse l).
Proof.
  induction l as [|x l IH]; cbn.
  - constructor.
  - apply insert_desc_descending_float. exact IH.
Qed.

Lemma apply_classification_rules_winner_float (lw fj ja cfr cjr : float) :
  exists shape conf reason,
    _apply_classification_rules lw fj ja cfr cjr = Ok (shape, conf, reason)
    /\ winner_float (scores lw fj ja cfr cjr) shape conf.
Proof.
  unfold _apply_classification_rules.
  pose proof (scores_keys lw fj ja cfr cjr) as Hkeys.
  destruct (scores lw fj ja cfr cjr) as [|kv rest] eqn:Hsc; [discriminate Hkeys|].
  cbn [max_by_value bind].
  destruct (max_from_spec_float rest kv) as [Hin Hmax].
  destruct (max_from kv rest) as [bs bv] eqn:Hbest. cbn [snd] in Hmax.
  pose proof (sorted_reverse_perm_float (map snd (kv :: rest))) as Hperm.
  pose proof (sorted_reverse_descending_float (map snd (kv :: rest))) as Hdesc.
  assert (Hlen : length (sorted_reverse (map snd (kv :: rest))) = 7%nat).
  { rewrite (Permutation_length Hperm), length_map.
    rewrite <- (length_map fst), Hkeys. reflexivity. }
  destruct (sorted_reverse (map snd (kv :: rest))) as [|s0 [|s1 tl]];
    [discriminate Hlen | discriminate Hlen |].
  inversion Hdesc as [|? ? Hdesc' Hall0]; subst.
  inversion Hdesc' as [|? ? _ Hall1]; subst.
  inversion Hall0 as [|? ? Hs1 Hall0']; subst.
  assert (Htop : not_below s0 bv).
  { assert (Hbv : In bv (s0 :: s1 :: tl)).
    { eapply Permutation_in; [symmetry; exact Hperm|].
      apply in_map_iff. exists (bs, bv). split; [reflexivity | exact Hin]. }
    destruct Hbv as [<-|Hbv]; [apply ltb_irrefl|].
    rewrite List.Forall_forall in Hall0. apply Hall0. exact Hbv. }
  assert (Hbest' : not_below bv s0).
  { assert (Hs0 : In s0 (map snd (kv :: rest))).
    { eapply Permutation_in; [exact Hperm | left; reflexivity]. }
    apply in_map_iff in Hs0. destruct Hs0 as (kv' & <- & Hkv').
    apply Hmax. exact Hkv'. }
  assert (Hwin : forall shape conf,
             (PrimFloat.ltb bv (lit (3 # 10)) = true ->
              shape = OVAL /\ conf = lit (6 # 10)) ->
             (PrimFloat.ltb bv (lit (3 # 10)) = false ->
              In (shape, bv) (kv :: rest)
              /\ conf = py_min (lit (98 # 100))
                          (lit (7 # 10) + (s0 - s1) * lit (5 # 10))%py) ->
             winner_float (kv :: rest) shape conf).
  { intros shape conf Hlow Hhigh. exists bv, s0, s1, tl.
    split; [exists bs; exact Hin|].
    split; [intros s v Hv; apply (Hmax (s, v)); exact Hv|].
    split; [exact Hperm|].
    split; [exact Htop|].
    split; [exact Hbest'|].
    split; [exact Hs1|].
    split; [exact Hall1|].
    split; assumption. }
  cbn [flt float_PyFloat].
  destruct (PrimFloat.ltb bv (lit (3 # 10))) eqn:Hfloor.
  - eexists _, _, _. split; [reflexivity|]. apply Hwin.
    + intros _. split; reflexivity.
    + discriminate.
  - eexists _, _, _. split; [reflexivity|]. apply Hwin.
    + discriminate.
    + intros _. split; [exact Hin | reflexivity].
Qed.

Lemma classify_winner_float (m : gmap string float) :
  exists r,
    classify m = Ok r
    /\ let '(lw, fj, ja, cfr, cjr) := quantities_float m in
       winner_float (scores lw fj ja cfr cjr) (shape r) (confidence r).
Proof.
  unfold classify, quantities_float.
  set (fw := default (lit 1) (m !! "forehead_width")).
  set (jw := default (lit 1) (m !! "jaw_width")).
  set (cw := default (lit 1) (m !! "cheekbone_width")).
  set (lw := default (lit 1) (m !! "length_width_ratio")).
  set (fj := default (lit 1) (m !! "forehead_jaw_ratio")).
  set (ja := default (lit 140) (m !! "jawline_angle")).
  assert (Hzero : lit (T := float) 0 = 0%float) by (vm_compute; reflexivity).
  assert (Hratio : forall d : float,
             (if (d >? lit 0)%py then py_div cw d else Ok (lit 1))
             = Ok (if PrimFloat.ltb (lit 0) d then PrimFloat.div cw d else lit 1)).
  { intros d. unfold py_div. cbn [flt feq fdiv float_PyFloat].
    destruct (PrimFloat.ltb (lit 0) d) eqn:Hd; [|reflexivity].
    rewrite Hzero in *. rewrite (float_positive_nonzero d Hd). reflexivity. }
  rewrite (Hratio fw), (Hratio jw). cbn [bind].
  destruct (apply_classification_rules_winner_float lw fj ja
              (if PrimFloat.ltb (lit 0) fw then PrimFloat.div cw fw else lit 1)
              (if PrimFloat.ltb (lit 0) jw then PrimFloat.div cw jw else lit 1))
    as (shape & conf & reason & Hrun & Hwin).
  rewrite Hrun. cbn [bind]. eexists. split; [reflexivity|]. exact Hwin.
Qed.

(** C4.  Ratios 1.2 and 1.0 with a jawline angle of 140 degrees classify
    as "oval", ratios 1.4 and 1.0 with the same angle as "oblong", in
    binary64 as in exact arithmetic. *)
Theorem classify_oval_oblong :
  classified (T := float) (three_ratios (12 # 10) 1 140) = Ok "oval"
  /\ classified (T := float) (three_ratios (14 # 10) 1 140) = Ok "oblong"
  /\ classified (T := Q) (three_ratios (12 # 10) 1 140) = Ok "oval"
  /\ classified (T := Q) (three_ratios (14 # 10) 1 140) = Ok "oblong".
Proof. repeat split; vm_compute; reflexivity. Qed.

(** The fallback is reached: with ratios 1.3 and 1.1 and an angle of 150
    degrees the best score is 0.2, of heart, and the answer is oval at
    confidence 0.6. *)
Example classify_fallback :
  (let* r := classify (T := float) (three_ratios (13 # 10) (11 # 10) 150) in
   Ok (shape r, confidence r))
  = Ok (OVAL, lit (6 # 10))
  /\ max_by_value (scores (T := float) (lit (13 # 10)) (lit (11 # 10)) (lit 150)
                          (lit 1) (lit 1))
     = Ok (HEART, lit (2 # 10)).
Proof. split; vm_compute; reflexivity. Qed.

(** C5.  On every measurement mapping [classify] returns; the category
    it returns has the maximum of the seven scores and the confidence is
    min(0.98, 0.7 + 0.5 * (top - second)), unless that maximum is below
    0.3, when the category is oval and the confidence 0.6.  This holds in
    exact arithmetic and for every mapping of binary64 values. *)
Theorem classify_picks_maximum :
  (forall m : gmap string Q,
      exists r,
        classify m = Ok r
        /\ let '(lw, fj, ja, cfr, cjr) := quantities m in
           map fst (scores lw fj ja cfr cjr) = all_shapes
           /\ winner (scores lw fj ja cfr cjr) (shape r) (confidence r))
  /\ (forall m : gmap string float,
        exists r,
          classify m = Ok r
          /\ let '(lw, fj, ja, cfr, cjr) := quantities_float m in
             map fst (scores lw fj ja cfr cjr) = all_shapes
             /\ winner_float (scores lw fj ja cfr cjr) (shape r) (confidence r)).
Proof.
  split.
  - intros m. destruct (classify_winner_exact m) as (r & Hrun & Hwin).
    exists r. split; [exact Hrun|].
    destruct (quantities m) as [[[[lw fj] ja] cfr] cjr].
    split; [apply scores_keys | exact Hwin].
  - intros m. destruct (classify_winner_float m) as (r & Hrun & Hwin).
    exists r. split; [exact Hrun|].
    destruct (quantities_float m) as [[[[lw fj] ja] cfr] cjr].
    split; [apply scores_keys | exact Hwin].
Qed.

End FaceShapeClassification.

(** ** Hair coverage *)

Section HairCoverage.
Import BaldnessDetector.
Local Open Scope Z_scope.

Lemma half_quot (h : Z) : Z.quot (h * 5) 10 = Z.quot h 2.
Proof.
  rewrite (Z.mul_comm h 5). change 10 with (5 * 2).
  apply Z.quot_mul_cancel_l; discriminate.
Qed.

Lemma extract_scalp_region_exact (image : Image) (x y w h : Z) :
  _extract_scalp_region (T := Q) image (x, y, w, h)
  = Ok (if (scalp_h (x, y, w, h) <? 10) || (scalp_w image (x, y, w, h) <? 10)
        then None
        else
          let scalp_y := Z.max 0 (y - Z.quot h 2) in
          let scalp_x := Z.max 0 (x - Z.quot w 10) in
          Some (slice2 image scalp_y (scalp_y + scalp_h (x, y, w, h))
                       scalp_x (scalp_x + scalp_w image (x, y, w, h)))).
Proof.
  unfold _extract_scalp_region, scalp_h, scalp_w. at_Q'.
  cbn [bind Qnum Qden Qmult inject_Z].
  change (Z.pos (1 * 10)) with 10.
  rewrite half_quot, Z.mul_1_r, (Z.mul_comm w 12).
  destruct ((y - Z.max 0 (y - Z.quot h 2) <? 10)
            || (Z.min (Z.of_nat (shape1 image) - Z.max 0 (x - Z.quot w 10))
                      (Z.quot (12 * w) 10) <? 10)); reflexivity.
Qed.

Lemma length_to_list {A} (a : ndarray A) :
  length (to_list a) = (shape0 a * shape1 a)%nat.
Proof.
  assert (Hrows : forall rows : list nat,
             length (flat_map (fun i => map (fun j => entry a i j)
                                            (seq 0 (shape1 a))) rows)
             = (length rows * shape1 a)%nat).
  { induction rows as [|i rows IH]; cbn [flat_map]; [reflexivity|].
    rewrite length_app, length_map, length_seq, IH. cbn [length]. lia. }
  unfold to_list. rewrite Hrows, length_seq. reflexivity.
Qed.

Lemma count_true_bounds (mask : ndarray bool) :
  0 <= count_true mask <= Z.of_nat (shape0 mask) * Z.of_nat (shape1 mask).
Proof.
  unfold count_true. split; [lia|].
  rewrite <- Nat2Z.inj_mul, <- length_to_list.
  apply Nat2Z.inj_le. apply List.filter_length_le.
Qed.

Lemma same_shape_trans {A B C} (a : ndarray A) (b : ndarray B) (c : ndarray C) :
  same_shape a b -> same_shape b c -> same_shape a c.
Proof. intros [H0 H1] [H0' H1']. split; congruence. Qed.

Lemma to_list_pixels {A} (a : ndarray A) (region : Image) :
  same_shape a region ->
  to_list a = map (fun p => entry a (fst p) (snd p)) (pixels region).
Proof.
  intros [H0 H1]. unfold to_list, pixels. rewrite H0, H1.
  induction (seq 0 (shape0 region)) as [|i rows IH]; cbn [flat_map map];
    [reflexivity|].
  rewrite map_app, List.map_map, IH. reflexivity.
Qed.

Lemma filter_map_length {A} (f : A -> bool) (l : list A) :
  length (List.filter (fun b : bool => b) (map f l))
  = length (List.filter f l).
Proof.
  induction l as [|a l IH]; cbn [map List.filter]; [reflexivity|].
  destruct (f a); cbn [length]; rewrite IH; reflexivity.
Qed.

(** [np.sum(hair_mask > 0)] counts the hair pixels of the region. *)
Lemma count_hair_pixels (mask : ndarray Z) (region : Image) :
  same_shape mask region ->
  count_true (map_array (fun m => 0 <? m) mask) = hair_pixel_count region mask.
Proof.
  intros Hshape. unfold count_true, hair_pixel_count.
  rewrite (to_list_pixels (map_array (fun m => 0 <? m) mask) region)
    by exact Hshape.
  rewrite filter_map_length. reflexivity.
Qed.

Lemma hair_pixel_count_bounds (mask : ndarray Z) (region : Image) :
  0 <= hair_pixel_count region mask <= total_pixels region.
Proof.
  unfold hair_pixel_count, total_pixels. split; [lia|].
  rewrite <- Nat2Z.inj_mul. apply Nat2Z.inj_le.
  etransitivity; [apply List.filter_length_le|].
  unfold pixels.
  assert (Hrows : forall rows : list nat,
             length (flat_map (fun i => map (fun j => (i, j))
                                            (seq 0 (shape1 region))) rows)
             = (length rows * shape1 region)%nat).
  { induction rows as [|i rows IH]; cbn [flat_map]; [reflexivity|].
    rewrite length_app, length_map, length_seq, IH. cbn [length]. lia. }
  rewrite Hrows, length_seq. reflexivity.
Qed.

(** The mask follows the outcome of [cv2.dilate], and has the shape of
    the region. *)
Lemma hair_mask_outcome {T} `{PyFloat T} (cv : OpenCV T) (region : Image) :
  match dilate_call cv region with
  | Ok _ =>
      exists mask,
        hair_mask cv region = Ok mask
        /\ (shape_preserving cv -> same_shape mask region)
  | Raise e => hair_mask cv region = Raise e
  end.
Proof.
  unfold hair_mask, dilate_call. cbv zeta.
  destruct (dilate cv _ _ _) as [dilated|e]; cbn [bind]; [|reflexivity].
  eexists. split; [reflexivity|]. intros [Hgray Hmorph].
  eapply same_shape_trans; [apply Hmorph|].
  eapply same_shape_trans; [apply Hmorph|].
  exact (Hgray region).
Qed.

Lemma fraction_bounds (n d : Z) :
  (0 <= n <= d)%Z -> (0 < d)%Z ->
  (0 <= inject_Z n / inject_Z d * 100 <= 100)%Q.
Proof.
  intros [Hn Hnd] Hd.
  assert (Hd' : (0 < inject_Z d)%Q).
  { change (inject_Z 0 < inject_Z d)%Q. rewrite <- Zlt_Qlt. exact Hd. }
  assert (Hn' : (0 <= inject_Z n)%Q).
  { change (inject_Z 0 <= inject_Z n)%Q. rewrite <- Zle_Qle. exact Hn. }
  assert (Hnd' : (inject_Z n <= inject_Z d)%Q) by (rewrite <- Zle_Qle; exact Hnd).
  assert (H0 : (0 <= inject_Z n / inject_Z d)%Q).
  { apply Qle_shift_div_l; [exact Hd'|]. lra. }
  assert (H1 : (inject_Z n / inject_Z d <= 1)%Q).
  { apply Qle_shift_div_r; [exact Hd'|]. lra. }
  split; lra.
Qed.

Lemma size_total_pixels (region : Image) :
  size region <> 0 -> 0 < total_pixels region.
Proof. unfold size, total_pixels. nia. Qed.

(** What [_calculate_hair_coverage] does in every arithmetic: the pair of
    the empty region; else it raises what [cv2.dilate] raised, or returns
    the quotient of the two counts, times 100. *)
Lemma calculate_hair_coverage_outcome {T} `{PyFloat T} (cv : OpenCV T)
    (region : Image) :
  if size region =? 0
  then _calculate_hair_coverage cv region = Ok (lit 100, lit (5 # 10))
  else
    match dilate_call cv region with
    | Ok _ =>
        exists mask conf,
          hair_mask cv region = Ok mask
          /\ (shape_preserving cv -> same_shape mask region)
          /\ _calculate_hair_coverage cv region
             = Ok (fmul (np_true_divide
                           (of_int (count_true
                                      (map_array (fun m => 0 <? m) mask)))
                           (of_int (total_pixels region)))
                        (lit 100),
                   conf)
    | Raise e => _calculate_hair_coverage cv region = Raise e
    end.
Proof.
  unfold _calculate_hair_coverage.
  destruct (size region =? 0) eqn:Hsize; [reflexivity|].
  apply Z.eqb_neq in Hsize. pose proof (size_total_pixels region Hsize) as Htot.
  pose proof (hair_mask_outcome cv region) as Hmask.
  destruct (dilate_call cv region) as [dilated|e].
  - destruct Hmask as (mask & -> & Hshape). cbn [bind].
    fold (total_pixels region).
    rewrite (proj2 (Z.ltb_lt 0 (total_pixels region)) Htot).
    eexists _, _. split; [reflexivity|]. split; [exact Hshape | reflexivity].
  - rewrite Hmask. reflexivity.
Qed.

Lemma calculate_hair_coverage_exact (cv : OpenCV Q) (region : Image) :
  shape_preserving cv ->
  if size region =? 0
  then _calculate_hair_coverage cv region = Ok (100%Q, (5 # 10)%Q)
  else
    match dilate_call cv region with
    | Ok _ =>
        exists mask pct conf,
          hair_mask cv region = Ok mask
          /\ _calculate_hair_coverage cv region = Ok (pct, conf)
          /\ (0 <= pct <= 100)%Q
          /\ (pct == inject_Z (hair_pixel_count region mask)
                     / inject_Z (total_pixels region) * 100)%Q
    | Raise e => _calculate_hair_coverage cv region = Raise e
    end.
Proof.
  intros Hcv. pose proof (calculate_hair_coverage_outcome cv region) as Hrun.
  destruct (size region =? 0) eqn:Hsize; [exact Hrun|].
  apply Z.eqb_neq in Hsize. pose proof (size_total_pixels region Hsize) as Htot.
  destruct (dilate_call cv region) as [dilated|e]; [|exact Hrun].
  destruct Hrun as (mask & conf & Hmask & Hshape & Hrun).
  rewrite (count_hair_pixels mask region (Hshape Hcv)) in Hrun.
  eexists mask, _, conf. split; [exact Hmask|]. split; [exact Hrun|].
  at_Q'. split; [|reflexivity].
  apply fraction_bounds; [apply hair_pixel_count_bounds | exact Htot].
Qed.

(** The percentage of a returned pair is in [0, 100]. *)
Lemma calculate_hair_coverage_bounds (cv : OpenCV Q) (region : Image) :
  shape_preserving cv ->
  on_result (fun pc => (0 <= fst pc <= 100)%Q)
            (_calculate_hair_coverage cv region).
Proof.
  intros Hcv. pose proof (calculate_hair_coverage_exact cv region Hcv) as Hrun.
  destruct (size region =? 0).
  - rewrite Hrun. cbn. lra.
  - destruct (dilate_call cv region) as [dilated|e].
    + destruct Hrun as (mask & pct & conf & _ & -> & Hpct & _). exact Hpct.
    + rewrite Hrun. exact I.
Qed.

(** The level [analyze] gives to a percentage. *)
Lemma level_by_thresholds (pct : Q) :
  let level :=
    if fle (FULL_COVERAGE_THRESHOLD * lit 100)%py pct then FULL
    else if fle (THINNING_THRESHOLD * lit 100)%py pct then THINNING
         else BALD in
  (level = FULL <-> (80 <= pct)%Q)
  /\ (level = THINNING <-> (40 <= pct < 80)%Q)
  /\ (level = BALD <-> (pct < 40)%Q).
Proof.
  unfold FULL_COVERAGE_THRESHOLD, THINNING_THRESHOLD. at_Q'.
  destruct (Qlt_le_dec pct 80) as [H80|H80].
  - rewrite (Qle_bool_false ((80 # 100) * 100) pct) by lra.
    destruct (Qlt_le_dec pct 40) as [H40|H40].
    + rewrite (Qle_bool_false ((40 # 100) * 100) pct) by lra.
      repeat split; try discriminate; intros; try lra; reflexivity.
    + rewrite (Qle_bool_true ((40 # 100) * 100) pct) by lra.
      repeat split; try discriminate; intros; try lra; reflexivity.
  - rewrite (Qle_bool_true ((80 # 100) * 100) pct) by lra.
    repeat split; try discriminate; intros; try lra; reflexivity.
Qed.

(** On a scalp region that is not empty, [analyze] reports the pair of
    [_calculate_hair_coverage] and the level of its percentage, or raises
    what it raised. *)
Lemma analyze_reports_coverage {T} `{PyFloat T} (cv : OpenCV T)
    (image : Image) (face_bbox : Z * Z * Z * Z) (region : Image) :
  _extract_scalp_region image face_bbox = Ok (Some region) ->
  size region <> 0 ->
  match _calculate_hair_coverage cv region with
  | Ok (pct, conf) =>
      let level :=
        if fle (FULL_COVERAGE_THRESHOLD * lit 100)%py pct then FULL
        else if fle (THINNING_THRESHOLD * lit 100)%py pct then THINNING
             else BALD in
      analyze cv image face_bbox
      = Ok (Some {| coverage_level := level;
                    coverage_percentage := pct;
                    confidence := conf;
                    requires_alternative_styling := level_neqb level FULL |})
  | Raise e => analyze cv image face_bbox = Raise e
  end.
Proof.
  intros Hregion Hsize. unfold analyze. rewrite Hregion. cbn [bind].
  rewrite (proj2 (Z.eqb_neq _ _) Hsize).
  destruct (_calculate_hair_coverage cv region) as [[pct conf]|e];
    reflexivity.
Qed.

(** In exact arithmetic [analyze] never returns [None], and raises only
    what [cv2.dilate] raised on a scalp region that is not empty. *)
Lemma baldness_analyze_outcome (cv : OpenCV Q) (image : Image)
    (face_bbox : Z * Z * Z * Z) :
  match analyze cv image face_bbox with
  | Ok o => o <> None
  | Raise e =>
      exists region,
        _extract_scalp_region (T := Q) image face_bbox = Ok (Some region)
        /\ size region <> 0
        /\ dilate_call cv region = Raise e
  end.
Proof.
  destruct face_bbox as [[[x y] w] h].
  pose proof (extract_scalp_region_exact image x y w h) as Hregion.
  destruct (_ || _) in Hregion.
  - unfold analyze. rewrite Hregion. cbn [bind]. discriminate.
  - cbv zeta in Hregion.
    match type of Hregion with
    | _ = Ok (Some ?r) => set (region := r) in *
    end.
    destruct (size region =? 0) eqn:Hsize.
    + unfold analyze. rewrite Hregion. cbn [bind]. rewrite Hsize. discriminate.
    + apply Z.eqb_neq in Hsize.
      pose proof (analyze_reports_coverage cv image (x, y, w, h) region
                    Hregion Hsize) as Hrun.
      pose proof (calculate_hair_coverage_outcome cv region) as Hcalc.
      rewrite (proj2 (Z.eqb_neq _ _) Hsize) in Hcalc.
      destruct (dilate_call cv region) as [dilated|e] eqn:Hdilate.
      * destruct Hcalc as (mask & conf & _ & _ & Hcalc).
        rewrite Hcalc in Hrun. rewrite Hrun. discriminate.
      * rewrite Hcalc in Hrun. rewrite Hrun.
        exists region. split; [exact Hregion|]. split; assumption.
Qed.

(** In exact arithmetic the percentage of every result is in [0, 100]
    and its level follows it. *)
Lemma baldness_analyze_levels (cv : OpenCV Q) (image : Image)
    (face_bbox : Z * Z * Z * Z) :
  shape_preserving cv ->
  on_result (fun o => exists r,
                 o = Some r
                 /\ let pct := coverage_percentage r in
                    let level := coverage_level r in
                    (0 <= pct <= 100)%Q
                    /\ (level = FULL <-> (80 <= pct)%Q)
                    /\ (level = THINNING <-> (40 <= pct < 80)%Q)
                    /\ (level = BALD <-> (pct < 40)%Q))
            (analyze cv image face_bbox).
Proof.
  intros Hcv.
  assert (Hdefault :
            let pct := coverage_percentage (T := Q) default_result in
            let level := coverage_level (T := Q) default_result in
            (0 <= pct <= 100)%Q
            /\ (level = FULL <-> (80 <= pct)%Q)
            /\ (level = THINNING <-> (40 <= pct < 80)%Q)
            /\ (level = BALD <-> (pct < 40)%Q)).
  { cbn. repeat split; try discriminate; try lra; intros; try lra; reflexivity. }
  unfold analyze. apply on_result_bind. intros scalp_region _.
  destruct scalp_region as [region|];
    [|exists default_result; split; [reflexivity | exact Hdefault]].
  destruct (size region =? 0);
    [exists default_result; split; [reflexivity | exact Hdefault]|].
  apply on_result_bind. intros [pct conf] Hcalc.
  pose proof (calculate_hair_coverage_bounds cv region Hcv) as Hpct.
  rewrite Hcalc in Hpct. cbn [on_result fst] in Hpct.
  cbn [on_result]. eexists. split; [reflexivity|].
  cbn [coverage_percentage coverage_level].
  split; [exact Hpct | apply level_by_thresholds].
Qed.



(** Whatever the arithmetic, a result of [analyze] is present and asks
    for alternative styling exactly when its level is not full. *)
Lemma analyze_styling_flag {T} `{PyFloat T} (cv : OpenCV T) (image : Image)
    (face_bbox : Z * Z * Z * Z) :
  on_result (fun o => exists r,
                 o = Some r
                 /\ (requires_alternative_styling r = true
                     <-> coverage_level r <> FULL))
            (analyze cv image face_bbox).
Proof.
  unfold analyze. apply on_result_bind. intros scalp_region _.
  assert (Hdefault :
            requires_alternative_styling default_result = true
            <-> coverage_level default_result <> FULL).
  { cbn. split; [discriminate | congruence]. }
  destruct scalp_region as [region|];
    [|cbn; exists default_result; split; [reflexivity | exact Hdefault]].
  destruct (size region =? 0);
    [cbn; exists default_result; split; [reflexivity | exact Hdefault]|].
  apply on_result_bind. intros [pct conf] _. cbn -[level_neqb].
  eexists. split; [reflexivity|].
  cbn [requires_alternative_styling coverage_level].
  match goal with
  | |- level_neqb ?l _ = true <-> _ => destruct l; cbn; split; congruence
  end.
Qed.

(** C6.  When the scalp rectangle is lower than 10 pixels or narrower
    than 10 pixels, [analyze] returns the result with level full,
    percentage 100, confidence 0.5 and no alternative styling; on every
    image and box [analyze] never returns [None], and raises only what
    [cv2.dilate] raised on the texture mask of a scalp region that is
    not empty.  In every arithmetic, [analyze] returns the default result
    whenever [_extract_scalp_region] returns no region, and every result
    of [analyze] asks for alternative styling exactly when its level is
    not full. *)
Theorem analyze_without_scalp_region :
  (forall (cv : OpenCV Q) (image : Image) (face_bbox : Z * Z * Z * Z),
      scalp_h face_bbox < 10 \/ scalp_w image face_bbox < 10 ->
      exists r,
        analyze cv image face_bbox = Ok (Some r)
        /\ coverage_level r = FULL
        /\ coverage_percentage r = 100%Q
        /\ confidence r = (5 # 10)%Q
        /\ requires_alternative_styling r = false)
  /\ (forall (cv : OpenCV Q) (image : Image) (face_bbox : Z * Z * Z * Z),
        match analyze cv image face_bbox with
        | Ok o => o <> None
        | Raise e =>
            exists region,
              _extract_scalp_region (T := Q) image face_bbox
              = Ok (Some region)
              /\ size region <> 0
              /\ dilate_call cv region = Raise e
        end)
  /\ (forall (T : Type) (H : PyFloat T) (cv : OpenCV T) (image : Image)
             (face_bbox : Z * Z * Z * Z),
        _extract_scalp_region image face_bbox = Ok None ->
        analyze cv image face_bbox = Ok (Some default_result))
  /\ (forall (T : Type) (H : PyFloat T) (cv : OpenCV T) (image : Image)
             (face_bbox : Z * Z * Z * Z),
        on_result (fun o => exists r,
                       o = Some r
                       /\ (requires_alternative_styling r = true
                           <-> coverage_level r <> FULL))
                  (analyze cv image face_bbox)).
Proof.
  split; [|split; [|split]].
  - intros cv image [[[x y] w] h] Hsmall.
    unfold analyze. rewrite extract_scalp_region_exact. cbn [bind].
    assert (Hcond : (scalp_h (x, y, w, h) <? 10)
                    || (scalp_w image (x, y, w, h) <? 10) = true).
    { apply orb_true_iff. destruct Hsmall as [Hh|Hw]; [left|right];
        apply Z.ltb_lt; assumption. }
    rewrite Hcond. exists default_result. repeat split.
  - exact baldness_analyze_outcome.
  - intros T H cv image face_bbox Hnone. unfold analyze. rewrite Hnone.
    reflexivity.
  - intros T H cv image face_bbox. apply analyze_styling_flag.
Qed.

Lemma analyze_without_scalp_region_witness :
  exists r,
    analyze (T := Q) pointwise_cv test_image (100, 5, 150, 151)
    = Ok (Some r)
    /\ coverage_level r = FULL
    /\ coverage_percentage r = 100%Q
    /\ confidence r = (5 # 10)%Q
    /\ requires_alternative_styling r = false.
Proof.
  apply (proj1 analyze_without_scalp_region pointwise_cv test_image
               (100, 5, 150, 151)).
  left. reflexivity.
Defined.

Example analyze_half_dark :
  analyze (T := float) pointwise_cv half_dark_image (5, 30, 20, 40)
  = Ok (Some {| coverage_level := THINNING;
                coverage_percentage := lit 50;
                confidence := lit (7 # 10);
                requires_alternative_styling := true |})
  /\ analyze (T := float) pointwise_cv half_dark_image (5, 3, 20, 40)
     = Ok (Some default_result).
Proof. split; vm_compute; reflexivity. Qed.

End HairCoverage.

(** ** The skin-tone detector *)

Section SkinToneAnalysis.
Import SkinToneDetector.
Local Open Scope Z_scope.

(** C8.  On an empty list of regions, and on a list whose regions all have
    size zero, [analyze] returns [None] and does not raise; this holds in
    every arithmetic. *)
Theorem skin_tone_analyze_empty {T} `{PyFloat T} (cv : OpenCV T)
    (skin_regions : list Image) :
  skin_regions = [] \/ (forall r, In r skin_regions -> size r = 0) ->
  analyze cv skin_regions = Ok None.
Proof.
  intros [->|Hall]; [reflexivity|].
  unfold analyze.
  assert (Hforall : forallb (fun r => size r =? 0) skin_regions = true).
  { apply forallb_forall. intros r Hr. apply Z.eqb_eq. apply Hall. exact Hr. }
  rewrite Hforall, orb_true_r. reflexivity.
Qed.

Lemma skin_tone_analyze_empty_witness :
  analyze (T := float) pointwise_cv
    [mk_ndarray 0 5 (fun _ _ => (0, 0, 0)); mk_ndarray 3 0 (fun _ _ => (0, 0, 0))]
  = Ok None.
Proof.
  apply skin_tone_analyze_empty. right.
  intros r [<-|[<-|[]]]; reflexivity.
Defined.

Lemma skin_tone_analyze_returns (cv : OpenCV Q) (skin_regions : list Image) :
  returns (analyze cv skin_regions).
Proof.
  unfold analyze.
  destruct (_ || _); [eexists; reflexivity|].
  destruct (flat_map _ skin_regions) as [|p all]; [eexists; reflexivity|].
  destruct (classify_fitzpatrick_returns
              (np_mean (map (fun p => fst (fst p)) (p :: all)))) as [[ft fc] ->].
  destruct (classify_undertone_exact
              (np_mean (map (fun p => snd (fst p)) (p :: all)))
              (np_mean (map (fun p => snd p) (p :: all))))
    as (u & uc & -> & _).
  cbn [bind]. eexists. reflexivity.
Qed.

End SkinToneAnalysis.

(** ** The orchestrator *)

Section Orchestrator.
Import FaceAnalyzer.
Local Open Scope Z_scope.

(** C9.  When the landmark provider reports no face, the result has
    [detected = false], overall confidence 0.0 and no sub-result; this
    holds in every arithmetic. *)
Theorem analyze_no_face {T} `{PyFloat T} (face_detector : FaceDetector T)
    (cv : OpenCV T) (image : Image) :
  detect face_detector image = None ->
  exists r,
    analyze face_detector cv image = Ok r
    /\ detected r = false
    /\ overall_confidence r = lit 0
    /\ skin_tone r = None
    /\ face_shape r = None
    /\ hair_coverage r = None
    /\ color_season r = None.
Proof.
  intros Hnone. unfold analyze. rewrite Hnone.
  eexists. split; [reflexivity|]. repeat split.
Qed.

Lemma analyze_no_face_witness :
  exists r,
    analyze (T := float) no_face pointwise_cv test_image = Ok r
    /\ detected r = false
    /\ overall_confidence r = lit 0
    /\ skin_tone r = None
    /\ face_shape r = None
    /\ hair_coverage r = None
    /\ color_season r = None.
Proof. apply analyze_no_face. reflexivity. Defined.

(** Whatever the arithmetic, a result of [analyze] with [detected = true]
    carries a face-shape and a hair-coverage sub-result. *)
Lemma analyze_result_present {T} `{PyFloat T} (face_detector : FaceDetector T)
    (cv : OpenCV T) (image : Image) :
  on_result shape_and_hair_present (analyze face_detector cv image).
Proof.
  unfold analyze, shape_and_hair_present.
  destruct (detect face_detector image) as [detection|]; [|cbn; discriminate].
  destruct (get_cheek_regions face_detector image (landmarks detection))
    as [left_cheek right_cheek].
  apply on_result_bind. intros st _.
  apply on_result_bind. intros fs _.
  apply on_result_bind. intros o Ho.
  pose proof (analyze_styling_flag cv image (bbox detection)) as Hflag.
  rewrite Ho in Hflag. cbn in Hflag. destruct Hflag as (hc & -> & _).
  apply on_result_bind. intros overall _. cbn.
  intros _. exists fs, hc. split; reflexivity.
Qed.

(** In exact arithmetic only the hair-coverage step can raise. *)
Lemma analyze_outcome_exact (face_detector : FaceDetector Q) (cv : OpenCV Q)
    (image : Image) :
  match analyze face_detector cv image with
  | Ok r => shape_and_hair_present r
  | Raise e =>
      exists detection,
        detect face_detector image = Some detection
        /\ BaldnessDetector.analyze cv image (bbox detection) = Raise e
  end.
Proof.
  pose proof (analyze_result_present face_detector cv image) as Hpresent.
  destruct (analyze face_detector cv image) as [r|e] eqn:Hrun;
    [exact Hpresent|]. clear Hpresent.
  unfold analyze in Hrun.
  destruct (detect face_detector image) as [detection|]; [|discriminate Hrun].
  exists detection. split; [reflexivity|].
  destruct (get_cheek_regions face_detector image (landmarks detection))
    as [left_cheek right_cheek].
  revert Hrun.
  match goal with
  | |- context [SkinToneDetector.analyze cv ?rs] =>
      destruct (skin_tone_analyze_returns cv rs) as [st ->]
  end.
  cbn [bind].
  match goal with
  | |- context [FaceShapeClassifier.classify ?m] =>
      destruct (classify_winner_exact m) as (fs & -> & _)
  end.
  cbn [bind].
  pose proof (baldness_analyze_outcome cv image (bbox detection)) as Hhair.
  destruct (BaldnessDetector.analyze cv image (bbox detection))
    as [[hc|]|e']; cbn [bind].
  - destruct st as [st|]; cbn [app]; at_Q'; cbn [length Z.of_nat];
      (rewrite Qeq_bool_false by (unfold inject_Z, Qeq; cbn; lia));
      cbn [bind]; discriminate.
  - contradiction.
  - intros Hrun. inversion Hrun. reflexivity.
Qed.

(** C10.  In every arithmetic, a result of [analyze] with
    [detected = true] carries a face-shape and a hair-coverage sub-result;
    and in exact arithmetic [analyze] returns such a result or raises
    what the hair-coverage step raised on the box of the detected face. *)
Theorem analyze_detected_has_shape_and_hair :
  (forall (T : Type) (H : PyFloat T) (face_detector : FaceDetector T)
          (cv : OpenCV T) (image : Image),
      on_result shape_and_hair_present (analyze face_detector cv image))
  /\ (forall (face_detector : FaceDetector Q) (cv : OpenCV Q) (image : Image),
        match analyze face_detector cv image with
        | Ok r => shape_and_hair_present r
        | Raise e =>
            exists detection,
              detect face_detector image = Some detection
              /\ BaldnessDetector.analyze cv image (bbox detection) = Raise e
        end).
Proof.
  split.
  - intros T H face_detector cv image. apply analyze_result_present.
  - exact analyze_outcome_exact.
Qed.

Example analyze_face_without_skin :
  exists r,
    analyze (T := float) face_without_skin pointwise_cv half_dark_image
    = Ok r
    /\ detected r = true
    /\ skin_tone r = None
    /\ color_season r = None
    /\ option_map FaceShapeClassifier.shape (face_shape r)
       = Some FaceShapeClassifier.OVAL
    /\ option_map BaldnessDetector.coverage_level (hair_coverage r)
       = Some BaldnessDetector.THINNING.
Proof.
  eexists. split; [vm_compute; reflexivity|]. repeat split.
Qed.

End Orchestrator.

(* ================================================================= *)
(** * Further properties *)

(** Running the binds of [Outcome]. *)
Ltac run_binds := cbn [mbind Outcome_bind mret Outcome_ret].

Section ToneThresholds.
Import SkinToneDetector.
Local Open Scope Q_scope.

Lemma ltb_of_not_leb (a L c : float) :
  PrimFloat.leb c L = true -> PrimFloat.leb a a = true ->
  PrimFloat.leb a L = false -> PrimFloat.ltb L a = true.
Proof.
  intros HcL Haa HaL. rank_facts.
  match goal with
  | Hl : float_rank L = Some ?rl, Ha : float_rank a = Some ?ra |- _ =>
      assert (Hnot : ~ lex_le ra rl)
        by (intros Hle; rewrite (proj2 (leb_rank a L)) in HaL;
            [discriminate | eexists _, _; split; [exact Ha|]; split; [exact Hl | exact Hle]]);
      apply ltb_rank; exists rl, ra; split; [exact Hl|]; split; [exact Ha|]
  end.
  rank_lia.
Qed.

Ltac tone_region :=
  unfold _classify_fitzpatrick, FITZPATRICK_L_THRESHOLDS;
  cbn [fitzpatrick_loop]; at_Q'; unfold inject_Z;
  qcompare; cbn [andb Z.add Z.sub]; qclosed; cbn [bind];
  eexists _, _; split; [reflexivity|];
  cbn [SkinToneDetector.value];
  repeat split; intros; try lra; try discriminate; try reflexivity;
  try apply clamp_bounds.

Lemma classify_fitzpatrick_by_threshold (L : Q) :
  exists ft c,
    _classify_fitzpatrick L = Ok (ft, c)
    /\ (value ft = 1%Z <-> 75 <= L)
    /\ (value ft = 2%Z <-> 65 <= L < 75)
    /\ (value ft = 3%Z <-> 55 <= L < 65)
    /\ (value ft = 4%Z <-> 45 <= L < 55)
    /\ (value ft = 5%Z <-> 35 <= L < 45)
    /\ (value ft = 6%Z <-> L < 35)
    /\ 7 # 10 <= c <= 98 # 100.
Proof.
  destruct (Qlt_le_dec L 0); [tone_region|].
  destruct (Qlt_le_dec L 35); [tone_region|].
  destruct (Qlt_le_dec L 45); [tone_region|].
  destruct (Qlt_le_dec L 55); [tone_region|].
  destruct (Qlt_le_dec L 65); [tone_region|].
  destruct (Qlt_le_dec L 75); [tone_region|].
  destruct (Qlt_le_dec L 100); tone_region.
Qed.

Lemma ltb_negb_leb (L t : float) :
  PrimFloat.leb L L = true -> PrimFloat.leb t t = true ->
  PrimFloat.ltb L t = negb (PrimFloat.leb t L).
Proof.
  intros HL Ht. destruct (PrimFloat.leb t L) eqn:HtL; cbn [negb].
  - apply (leb_ltb_false L t t); assumption.
  - apply (ltb_of_not_leb t L L); assumption.
Qed.

Lemma unordered_leb (L t : float) :
  PrimFloat.leb L L = false -> PrimFloat.leb t L = false.
Proof.
  intros HL. destruct (PrimFloat.leb t L) eqn:HtL; [|reflexivity].
  rank_facts.
  match goal with
  | Hl : float_rank L = Some ?rl |- _ =>
      rewrite (proj2 (leb_rank L L)) in HL;
        [discriminate | exists rl, rl; split; [exact Hl|]; split; [exact Hl|]]
  end.
  rank_lia.
Qed.

Lemma unordered_ltb (L t : float) :
  PrimFloat.leb L L = false -> PrimFloat.ltb L t = false.
Proof.
  intros HL. destruct (PrimFloat.ltb L t) eqn:HtL; [|reflexivity].
  rank_facts.
  match goal with
  | Hl : float_rank L = Some ?rl |- _ =>
      rewrite (proj2 (leb_rank L L)) in HL;
        [discriminate | exists rl, rl; split; [exact Hl|]; split; [exact Hl|]]
  end.
  rank_lia.
Qed.

Ltac tone_settle :=
  cbn [andb negb bind];
  eexists _, _; split; [reflexivity|];
  cbn [SkinToneDetector.value];
  repeat split; intros;
  repeat match goal with H : _ /\ _ |- _ => destruct H end;
  try reflexivity; try discriminate; try assumption;
  try (vm_compute; reflexivity).

Lemma classify_fitzpatrick_by_threshold_float (L : float) :
  exists ft c,
    _classify_fitzpatrick L = Ok (ft, c)
    /\ (value ft = 1%Z <-> PrimFloat.leb (lit 75) L = true)
    /\ (value ft = 2%Z
        <-> PrimFloat.leb (lit 65) L = true /\ PrimFloat.ltb L (lit 75) = true)
    /\ (value ft = 3%Z
        <-> PrimFloat.leb (lit 55) L = true /\ PrimFloat.ltb L (lit 65) = true)
    /\ (value ft = 4%Z
        <-> PrimFloat.leb (lit 45) L = true /\ PrimFloat.ltb L (lit 55) = true)
    /\ (value ft = 5%Z
        <-> PrimFloat.leb (lit 35) L = true /\ PrimFloat.ltb L (lit 45) = true)
    /\ (value ft = 6%Z <-> PrimFloat.leb (lit 35) L = false)
    /\ PrimFloat.leb (lit (7 # 10)) c = true
    /\ PrimFloat.leb c (lit (98 # 100)) = true.
Proof.
  pose proof clamp_bounds_float as Hclamp. cbv zeta in Hclamp.
  unfold _classify_fitzpatrick, FITZPATRICK_L_THRESHOLDS.
  cbn [fitzpatrick_loop]. unfold py_div.
  cbn [Z.add Z.sub Z.pos_sub Pos.add Pos.succ Z.opp Pos.pred_double] in *.
  float_literals.
  repeat match goal with
  | |- context [PrimFloat.eqb ?a ?b] =>
      let v := eval vm_compute in (PrimFloat.eqb a b) in
      change (PrimFloat.eqb a b) with v
  end.
  cbn [bind].
  destruct (PrimFloat.leb L L) eqn:HL.
  - rewrite !(ltb_negb_leb L _ HL) by (vm_compute; reflexivity).
    destruct (PrimFloat.leb 75 L) eqn:H75.
    { rewrite (leb_trans 65 75 L), (leb_trans 55 75 L), (leb_trans 45 75 L),
        (leb_trans 35 75 L), (leb_trans 0 75 L)
        by (first [exact H75 | vm_compute; reflexivity]).
      destruct (PrimFloat.leb 100 L); tone_settle; apply Hclamp. }
    destruct (PrimFloat.leb 65 L) eqn:H65.
    { rewrite (leb_trans 55 65 L), (leb_trans 45 65 L),
        (leb_trans 35 65 L), (leb_trans 0 65 L)
        by (first [exact H65 | vm_compute; reflexivity]).
      tone_settle; apply Hclamp. }
    destruct (PrimFloat.leb 55 L) eqn:H55.
    { rewrite (leb_trans 45 55 L), (leb_trans 35 55 L), (leb_trans 0 55 L)
        by (first [exact H55 | vm_compute; reflexivity]).
      tone_settle; apply Hclamp. }
    destruct (PrimFloat.leb 45 L) eqn:H45.
    { rewrite (leb_trans 35 45 L), (leb_trans 0 45 L)
        by (first [exact H45 | vm_compute; reflexivity]).
      tone_settle; apply Hclamp. }
    destruct (PrimFloat.leb 35 L) eqn:H35.
    { rewrite (leb_trans 0 35 L)
        by (first [exact H35 | vm_compute; reflexivity]).
      tone_settle; apply Hclamp. }
    destruct (PrimFloat.leb 0 L) eqn:H0; tone_settle; apply Hclamp.
  - rewrite !(unordered_leb L _ HL), !(unordered_ltb L _ HL).
    tone_settle.
Qed.

(** The band of luminances of a level. *)
Lemma classify_fitzpatrick_band (L : Q) (ft : FitzpatrickType) (c : Q) :
  _classify_fitzpatrick L = Ok (ft, c) ->
  match ft with
  | TYPE_I => 75 <= L
  | TYPE_II => 65 <= L < 75
  | TYPE_III => 55 <= L < 65
  | TYPE_IV => 45 <= L < 55
  | TYPE_V => 35 <= L < 45
  | TYPE_VI => L < 35
  end.
Proof.
  intros Hrun.
  destruct (classify_fitzpatrick_by_threshold L)
    as (ft' & c' & Hrun' & H1 & H2 & H3 & H4 & H5 & H6 & _).
  rewrite Hrun in Hrun'. inversion Hrun'; subst ft' c'.
  destruct ft; [apply H1 | apply H2 | apply H3 | apply H4 | apply H5 | apply H6];
    reflexivity.
Qed.

Lemma classify_fitzpatrick_antitone (L1 L2 : Q) ft1 c1 ft2 c2 :
  L1 <= L2 ->
  _classify_fitzpatrick L1 = Ok (ft1, c1) ->
  _classify_fitzpatrick L2 = Ok (ft2, c2) ->
  (value ft2 <= value ft1)%Z.
Proof.
  intros Hle H1 H2.
  apply classify_fitzpatrick_band in H1, H2.
  destruct ft1, ft2; cbn [value]; try lia; exfalso; lra.
Qed.

Lemma classify_fitzpatrick_band_float (L : float) (ft : FitzpatrickType) (c : float) :
  _classify_fitzpatrick L = Ok (ft, c) ->
  match ft with
  | TYPE_I => PrimFloat.leb (lit 75) L = true
  | TYPE_II => PrimFloat.leb (lit 65) L = true /\ PrimFloat.ltb L (lit 75) = true
  | TYPE_III => PrimFloat.leb (lit 55) L = true /\ PrimFloat.ltb L (lit 65) = true
  | TYPE_IV => PrimFloat.leb (lit 45) L = true /\ PrimFloat.ltb L (lit 55) = true
  | TYPE_V => PrimFloat.leb (lit 35) L = true /\ PrimFloat.ltb L (lit 45) = true
  | TYPE_VI => PrimFloat.leb (lit 35) L = false
  end.
Proof.
  intros Hrun.
  destruct (classify_fitzpatrick_by_threshold_float L)
    as (ft' & c' & Hrun' & H1 & H2 & H3 & H4 & H5 & H6 & _).
  rewrite Hrun in Hrun'. inversion Hrun'; subst ft' c'.
  destruct ft; [apply H1 | apply H2 | apply H3 | apply H4 | apply H5 | apply H6];
    reflexivity.
Qed.

(** In binary64 the level is at most k exactly when the luminance is not
    below the k-th threshold. *)
Lemma classify_fitzpatrick_profile_float (L : float) (ft : FitzpatrickType)
    (c : float) :
  _classify_fitzpatrick L = Ok (ft, c) ->
  PrimFloat.leb (lit 75) L = (value ft <=? 1)%Z
  /\ PrimFloat.leb (lit 65) L = (value ft <=? 2)%Z
  /\ PrimFloat.leb (lit 55) L = (value ft <=? 3)%Z
  /\ PrimFloat.leb (lit 45) L = (value ft <=? 4)%Z
  /\ PrimFloat.leb (lit 35) L = (value ft <=? 5)%Z.
Proof.
  intros Hrun. apply classify_fitzpatrick_band_float in Hrun.
  float_literals.
  assert (Hdown : forall t u : float,
             PrimFloat.leb t u = true -> PrimFloat.leb u L = true ->
             PrimFloat.leb t L = true)
    by (intros t u; apply leb_trans).
  assert (Hupper : forall t u : float,
             PrimFloat.ltb L t = true -> PrimFloat.leb t u = true ->
             PrimFloat.leb u L = false)
    by (intros t u; apply ltb_leb_false).
  assert (Hbelow : forall t u : float,
             PrimFloat.leb t u = true -> PrimFloat.leb t L = false ->
             PrimFloat.leb u L = false).
  { intros t u Htu HtL. destruct (PrimFloat.leb u L) eqn:HuL; [|reflexivity].
    rewrite (leb_trans t u L Htu HuL) in HtL. discriminate. }
  destruct ft; cbn [value Z.leb Z.compare Pos.compare Pos.compare_cont];
    repeat match goal with H : _ /\ _ |- _ => destruct H end;
    repeat split;
    first [ assumption
          | eapply Hdown; [|eassumption]; vm_compute; reflexivity
          | eapply Hupper; [eassumption|]; vm_compute; reflexivity
          | eapply Hbelow; [|eassumption]; vm_compute; reflexivity ].
Qed.

Lemma classify_fitzpatrick_antitone_float (L1 L2 : float) ft1 c1 ft2 c2 :
  PrimFloat.leb L1 L2 = true ->
  _classify_fitzpatrick L1 = Ok (ft1, c1) ->
  _classify_fitzpatrick L2 = Ok (ft2, c2) ->
  (value ft2 <= value ft1)%Z.
Proof.
  intros Hle H1 H2.
  apply classify_fitzpatrick_profile_float in H1, H2.
  destruct H1 as (A1 & A2 & A3 & A4 & A5), H2 as (B1 & B2 & B3 & B4 & B5).
  assert (Hup : forall (t : float) (p q : bool),
             PrimFloat.leb t L1 = p -> PrimFloat.leb t L2 = q ->
             p = true -> q = true).
  { intros t p q Hp Hq Htrue. subst p. rewrite <- Hq.
    apply (leb_trans t L1 L2); assumption. }
  pose proof (Hup _ _ _ A1 B1) as U1. pose proof (Hup _ _ _ A2 B2) as U2.
  pose proof (Hup _ _ _ A3 B3) as U3. pose proof (Hup _ _ _ A4 B4) as U4.
  pose proof (Hup _ _ _ A5 B5) as U5.
  destruct ft1, ft2; cbn [value] in *; try lia; exfalso;
    first [ specialize (U1 eq_refl); discriminate U1
          | specialize (U2 eq_refl); discriminate U2
          | specialize (U3 eq_refl); discriminate U3
          | specialize (U4 eq_refl); discriminate U4
          | specialize (U5 eq_refl); discriminate U5 ].
Qed.

End ToneThresholds.

Section UndertoneRange.
Import SkinToneDetector.
Local Open Scope Q_scope.

Lemma py_min_glb (a b c : Q) : c <= a -> c <= b -> c <= py_min a b.
Proof. intros Ha Hb. rewrite py_min_Qmin. apply Q.min_glb; assumption. Qed.

Lemma classify_undertone_range (a b : Q) :
  exists u c,
    _classify_undertone a b = Ok (u, c)
    /\ 7 # 10 <= c <= 95 # 100
    /\ (u = NEUTRAL -> 935 # 1000 <= c).
Proof.
  unfold _classify_undertone. at_Q'.
  set (a' := if Qeq_bool (a + 128) 0 then 1 # 100 else a + 128).
  assert (Ha' : Qeq_bool a' 0 = false).
  { unfold a'. destruct (Qeq_bool (a + 128) 0) eqn:E; [reflexivity | exact E]. }
  rewrite Ha'. cbn [bind]. set (r := (b + 128) / a'). cbv zeta.
  destruct (Qlt_le_dec (11 # 10) r) as [Hw|Hw].
  - rewrite (Qlt_bool_true _ _ Hw).
    exists WARM. eexists. split; [reflexivity|].
    split; [split; [apply py_min_glb; lra | apply py_min_le_l] | discriminate].
  - rewrite (Qlt_bool_false _ _ Hw).
    destruct (Qlt_le_dec r (9 # 10)) as [Hc|Hc].
    + rewrite (Qlt_bool_true _ _ Hc).
      exists COOL. eexists. split; [reflexivity|].
      split; [split; [apply py_min_glb; lra | apply py_min_le_l] | discriminate].
    + rewrite (Qlt_bool_false _ _ Hc).
      exists NEUTRAL. eexists. split; [reflexivity|].
      pose proof (Qabs_nonneg (r - 1)) as Hnn.
      assert (Habs : Qabs (r - 1) <= 1 # 10) by (apply Qabs_Qle_condition; lra).
      split; [split; lra | intros _; lra].
Qed.

End UndertoneRange.

Section Slices.
Local Open Scope Z_scope.

Lemma slice_bounds_within (n : nat) (start stop : Z) :
  0 <= start -> 0 <= stop ->
  slice_bounds n start stop
  = (Z.to_nat (Z.min start (Z.of_nat n)),
     Z.to_nat (Z.max 0 (Z.min stop (Z.of_nat n) - Z.min start (Z.of_nat n)))).
Proof.
  intros Hstart Hstop. unfold slice_bounds, slice_index.
  rewrite (proj2 (Z.ltb_ge start 0) Hstart), (proj2 (Z.ltb_ge stop 0) Hstop).
  reflexivity.
Qed.

Lemma slice2_shape {A} (a : ndarray A) (r0 r1 c0 c1 : Z) :
  0 <= r0 -> 0 <= r1 -> 0 <= c0 -> 0 <= c1 ->
  Z.of_nat (shape0 (slice2 a r0 r1 c0 c1))
  = Z.max 0 (Z.min r1 (Z.of_nat (shape0 a)) - Z.min r0 (Z.of_nat (shape0 a)))
  /\ Z.of_nat (shape1 (slice2 a r0 r1 c0 c1))
     = Z.max 0 (Z.min c1 (Z.of_nat (shape1 a)) - Z.min c0 (Z.of_nat (shape1 a)))
  /\ forall i j,
       entry (slice2 a r0 r1 c0 c1) i j
       = entry a (Z.to_nat (Z.min r0 (Z.of_nat (shape0 a))) + i)%nat
                 (Z.to_nat (Z.min c0 (Z.of_nat (shape1 a))) + j)%nat.
Proof.
  intros Hr0 Hr1 Hc0 Hc1. unfold slice2.
  rewrite (slice_bounds_within (shape0 a) r0 r1 Hr0 Hr1).
  rewrite (slice_bounds_within (shape1 a) c0 c1 Hc0 Hc1).
  cbn [shape0 shape1 entry].
  repeat split; lia.
Qed.

End Slices.

Section SkinSampling.
Import SkinToneDetector.
Local Open Scope Z_scope.

Lemma extract_skin_lab_values_nonempty {T} `{PyFloat T} (cv : OpenCV T)
    (region : Image) (l : list (Z * Z * Z)) :
  _extract_skin_lab_values cv region = Some l -> l <> [].
Proof.
  unfold _extract_skin_lab_values.
  destruct (size region =? 0); [discriminate|]. cbv zeta.
  match goal with
  | |- (if 0 <? Z.of_nat (length ?s) then _ else _) = _ -> _ =>
      destruct s as [|p s']
  end; cbn [length]; [discriminate|].
  intros Hsome Hnil. rewrite Hnil in Hsome.
  destruct (0 <? Z.of_nat (S (length s'))); discriminate.
Qed.

Lemma centre_count_positive (region : Image) :
  (2 <= shape0 region)%nat -> (2 <= shape1 region)%nat ->
  0 < centre_count region.
Proof.
  intros Hh Hw. unfold centre_count.
  assert (Hquarter : forall n, 2 <= n -> 0 < 3 * n / 4 - n / 4).
  { intros n Hn.
    pose proof (Z.div_mod (3 * n) 4 ltac:(lia)) as D3.
    pose proof (Z.mod_pos_bound (3 * n) 4 ltac:(lia)) as B3.
    pose proof (Z.div_mod n 4 ltac:(lia)) as D1.
    pose proof (Z.mod_pos_bound n 4 ltac:(lia)) as B1.
    lia. }
  apply Z.mul_pos_pos; apply Hquarter; lia.
Qed.

Lemma extract_skin_lab_values_sampled {T} `{PyFloat T} (cv : OpenCV T)
    (region : Image) :
  same_shape (cvtColor_BGR2LAB cv region) region ->
  (2 <= shape0 region)%nat -> (2 <= shape1 region)%nat ->
  exists l,
    _extract_skin_lab_values cv region = Some l
    /\ (10 <= Z.of_nat (length l) \/ Z.of_nat (length l) = centre_count region).
Proof.
  intros [Hs0 Hs1] Hh Hw.
  pose proof (centre_count_positive region Hh Hw) as Hpos.
  unfold _extract_skin_lab_values.
  assert (Hsize : (size region =? 0) = false).
  { apply Z.eqb_neq. unfold size. nia. }
  rewrite Hsize. cbv zeta.
  match goal with
  | |- context [Z.of_nat (length ?s) <? 10] =>
      destruct (Z.of_nat (length s) <? 10) eqn:Hfew
  end.
  - match goal with
    | |- context [to_list ?c] =>
        assert (Hlen : Z.of_nat (length (to_list c)) = centre_count region)
    end.
    { rewrite length_to_list, Nat2Z.inj_mul.
      set (h := Z.of_nat (shape0 region)) in *.
      set (w := Z.of_nat (shape1 region)) in *.
      assert (Hh' : 2 <= h) by (unfold h; lia).
      assert (Hw' : 2 <= w) by (unfold w; lia).
      pose proof (Z.div_pos h 4 ltac:(lia) ltac:(lia)).
      pose proof (Z.div_pos w 4 ltac:(lia) ltac:(lia)).
      pose proof (Z.div_pos (3 * h) 4 ltac:(lia) ltac:(lia)).
      pose proof (Z.div_pos (3 * w) 4 ltac:(lia) ltac:(lia)).
      destruct (slice2_shape (cvtColor_BGR2LAB cv region)
                  (h / 4) (3 * h / 4) (w / 4) (3 * w / 4))
        as (E0 & E1 & _); try assumption.
      rewrite E0, E1, Hs0, Hs1. fold h w. unfold centre_count. fold h w.
      pose proof (Z.div_le_upper_bound (3 * h) 4 h ltac:(lia) ltac:(lia)).
      pose proof (Z.div_le_upper_bound (3 * w) 4 w ltac:(lia) ltac:(lia)).
      pose proof (Z.div_le_mono h (3 * h) 4 ltac:(lia) ltac:(lia)).
      pose proof (Z.div_le_mono w (3 * w) 4 ltac:(lia) ltac:(lia)).
      pose proof (Z.div_le_upper_bound h 4 h ltac:(lia) ltac:(lia)).
      pose proof (Z.div_le_upper_bound w 4 w ltac:(lia) ltac:(lia)).
      rewrite !Z.min_l by lia. rewrite !Z.max_r by lia. reflexivity. }
    rewrite Hlen, (proj2 (Z.ltb_lt 0 (centre_count region)) Hpos).
    eexists. split; [reflexivity|]. right. exact Hlen.
  - apply Z.ltb_ge in Hfew.
    match goal with
    | |- context [0 <? ?n] => rewrite (proj2 (Z.ltb_lt 0 n)) by lia
    end.
    eexists. split; [reflexivity|]. left. exact Hfew.
Qed.

Lemma flat_map_seq_shift {B} (f : nat -> list B) (s n : nat) :
  flat_map f (seq s n) = flat_map (fun i => f (s + i)%nat) (seq 0 n).
Proof.
  revert s f. induction n as [|n IH]; intros s f; [reflexivity|].
  cbn [seq flat_map]. rewrite Nat.add_0_r. f_equal.
  rewrite (IH (S s) f), (IH 1%nat (fun i => f (s + i)%nat)).
  apply flat_map_ext. intros i. f_equal. lia.
Qed.

Lemma map_seq_shift {B} (f : nat -> B) (s n : nat) :
  map f (seq s n) = map (fun i => f (s + i)%nat) (seq 0 n).
Proof.
  revert s f. induction n as [|n IH]; intros s f; [reflexivity|].
  cbn [seq map]. rewrite Nat.add_0_r. f_equal.
  rewrite (IH (S s) f), (IH 1%nat (fun i => f (s + i)%nat)).
  apply map_ext. intros i. f_equal. lia.
Qed.

(** A slice inside the array lists the entries of its rows and columns. *)
Lemma slice2_to_list {A} (a : ndarray A) (r0 r1 c0 c1 : Z) :
  0 <= r0 <= r1 -> r1 <= Z.of_nat (shape0 a) ->
  0 <= c0 <= c1 -> c1 <= Z.of_nat (shape1 a) ->
  to_list (slice2 a r0 r1 c0 c1)
  = flat_map (fun i => map (fun j => entry a i j)
                           (seq (Z.to_nat c0) (Z.to_nat (c1 - c0))))
             (seq (Z.to_nat r0) (Z.to_nat (r1 - r0))).
Proof.
  intros Hr Hr1 Hc Hc1. unfold slice2.
  rewrite (slice_bounds_within (shape0 a) r0 r1) by lia.
  rewrite (slice_bounds_within (shape1 a) c0 c1) by lia.
  rewrite !Z.min_l by lia. rewrite !Z.max_r by lia.
  unfold to_list. cbn [shape0 shape1 entry].
  rewrite (flat_map_seq_shift _ (Z.to_nat r0)).
  apply flat_map_ext. intros i.
  rewrite (map_seq_shift _ (Z.to_nat c0)). reflexivity.
Qed.

(** [lab[mask > 0]] lists the pixels at which the mask is set. *)
Lemma select_masked_pixels (lab : ndarray (Z * Z * Z)) (mask : ndarray Z) :
  select lab (map_array (fun m => 0 <? m) mask) = masked_pixels lab mask.
Proof.
  unfold select, masked_pixels, pixels, Pixel.
  cbn [map_array entry shape0 shape1].
  assert (Hrow : forall (i : nat) (cols : list nat),
             flat_map (fun j => if 0 <? entry mask i j then [entry lab i j]
                                else []) cols
             = map (fun p => entry lab (fst p) (snd p))
                   (List.filter (fun p => 0 <? entry mask (fst p) (snd p))
                                (map (fun j => (i, j)) cols))).
  { intros i cols. induction cols as [|j cols IH];
      cbn [flat_map map List.filter]; [reflexivity|].
    cbn [fst snd]. destruct (0 <? entry mask i j); cbn [app map];
      rewrite IH; reflexivity. }
  induction (seq 0 (shape0 lab)) as [|i rows IH]; cbn [flat_map];
    [reflexivity|].
  rewrite List.filter_app, map_app, IH, Hrow. reflexivity.
Qed.

Lemma quarter_bounds (n : Z) :
  0 <= n -> 0 <= n / 4 <= 3 * n / 4 /\ 3 * n / 4 <= n.
Proof.
  intros Hn.
  pose proof (Z.div_mod (3 * n) 4 ltac:(lia)) as D3.
  pose proof (Z.mod_pos_bound (3 * n) 4 ltac:(lia)) as B3.
  pose proof (Z.div_mod n 4 ltac:(lia)) as D1.
  pose proof (Z.mod_pos_bound n 4 ltac:(lia)) as B1.
  lia.
Qed.

(** What [_extract_skin_lab_values] samples: the pixels of the skin mask
    when they are ten or more, the centre sample otherwise. *)
Lemma extract_skin_lab_values_samples {T} `{PyFloat T} (cv : OpenCV T)
    (region : Image) :
  same_shape (cvtColor_BGR2LAB cv region) region ->
  (2 <= shape0 region)%nat -> (2 <= shape1 region)%nat ->
  let lab := cvtColor_BGR2LAB cv region in
  let skin := masked_pixels lab (skin_mask cv region) in
  _extract_skin_lab_values cv region
  = Some (if Z.of_nat (length skin) <? 10 then centre_pixels lab region
          else skin)
  /\ Z.of_nat (length (centre_pixels lab region)) = centre_count region.
Proof.
  intros [Hs0 Hs1] Hh Hw lab skin.
  pose proof (centre_count_positive region Hh Hw) as Hpos.
  destruct (quarter_bounds (Z.of_nat (shape0 region)) ltac:(lia)) as [Hq0 Hq0'].
  destruct (quarter_bounds (Z.of_nat (shape1 region)) ltac:(lia)) as [Hq1 Hq1'].
  assert (Hcentre :
            to_list (slice2 lab (Z.of_nat (shape0 region) / 4)
                            (3 * Z.of_nat (shape0 region) / 4)
                            (Z.of_nat (shape1 region) / 4)
                            (3 * Z.of_nat (shape1 region) / 4))
            = centre_pixels lab region).
  { apply slice2_to_list; unfold lab; rewrite ?Hs0, ?Hs1; lia. }
  assert (Hlen : Z.of_nat (length (centre_pixels lab region))
                 = centre_count region).
  { unfold centre_pixels, centre_count. cbv zeta.
    assert (Hrows : forall (f : nat -> list (Z * Z * Z)) (n : nat) rows,
               (forall i, length (f i) = n) ->
               length (flat_map f rows) = (length rows * n)%nat).
    { intros f n rows Hf. induction rows as [|i rows IH]; [reflexivity|].
      cbn [flat_map length]. rewrite length_app, Hf, IH. lia. }
    rewrite (Hrows _ (Z.to_nat (3 * Z.of_nat (shape1 region) / 4
                                - Z.of_nat (shape1 region) / 4)))
      by (intros i; rewrite length_map, length_seq; reflexivity).
    rewrite length_seq, Nat2Z.inj_mul, !Z2Nat.id by lia. reflexivity. }
  split; [|exact Hlen].
  unfold _extract_skin_lab_values.
  assert (Hsize : (size region =? 0) = false).
  { apply Z.eqb_neq. unfold size. nia. }
  rewrite Hsize. cbv zeta.
  fold (skin_mask cv region). fold lab.
  rewrite (select_masked_pixels lab (skin_mask cv region)). fold skin.
  rewrite Hcentre.
  destruct (Z.of_nat (length skin) <? 10) eqn:Hfew.
  - rewrite Hlen, (proj2 (Z.ltb_lt 0 (centre_count region)) Hpos). reflexivity.
  - apply Z.ltb_ge in Hfew.
    rewrite (proj2 (Z.ltb_lt 0 (Z.of_nat (length skin)))) by lia. reflexivity.
Qed.

End SkinSampling.

Section SkinToneResults.
Import SkinToneDetector.
Local Open Scope Q_scope.

Lemma skin_tone_analyze_result (cv : OpenCV Q) (skin_regions : list Image)
    (r : SkinToneResult Q) :
  analyze cv skin_regions = Ok (Some r) ->
  exists cf cu,
    _classify_fitzpatrick (fst (fst (lab_values r))) = Ok (fitzpatrick_type r, cf)
    /\ _classify_undertone (snd (fst (lab_values r))) (snd (lab_values r))
       = Ok (undertone r, cu)
    /\ confidence r == (cf + cu) / 2
    /\ 7 # 10 <= confidence r <= 965 # 1000.
Proof.
  unfold analyze.
  destruct (_ || _); [discriminate|].
  destruct (flat_map _ skin_regions) as [|p all]; [discriminate|].
  set (avg_l := np_mean (map (fun p => fst (fst p)) (p :: all))).
  set (avg_a := np_mean (map (fun p => snd (fst p)) (p :: all))).
  set (avg_b := np_mean (map (fun p => snd p) (p :: all))).
  destruct (classify_fitzpatrick_by_threshold avg_l)
    as (ft & cf & Hf & _ & _ & _ & _ & _ & _ & Hcf).
  destruct (classify_undertone_range avg_a avg_b) as (u & cu & Hu & Hcu & _).
  rewrite Hf, Hu. cbn [bind]. intros Hr. inversion Hr; subst r; clear Hr.
  cbn [lab_values fitzpatrick_type undertone confidence fst snd].
  exists cf, cu. split; [exact Hf|]. split; [exact Hu|].
  at_Q'. split; [reflexivity|].
  split.
  - apply Qle_shift_div_l; lra.
  - apply Qle_shift_div_r; lra.
Qed.

(** Whatever the arithmetic, a result is what the two classifiers give
    on the means it stores. *)
Lemma skin_tone_analyze_consistency {T} `{PyFloat T} (cv : OpenCV T)
    (skin_regions : list Image) :
  on_result
    (fun o => forall r, o = Some r ->
       exists cf cu,
         _classify_fitzpatrick (fst (fst (lab_values r)))
         = Ok (fitzpatrick_type r, cf)
         /\ _classify_undertone (snd (fst (lab_values r))) (snd (lab_values r))
            = Ok (undertone r, cu)
         /\ confidence r = fdiv (fadd cf cu) (lit 2)
         /\ hex_color r
            = _lab_to_hex cv (fst (fst (lab_values r)))
                          (snd (fst (lab_values r))) (snd (lab_values r)))
    (analyze cv skin_regions).
Proof.
  unfold analyze.
  destruct (_ || _); [cbn; discriminate|].
  destruct (flat_map _ skin_regions) as [|p all]; [cbn; discriminate|].
  cbv zeta. apply on_result_bind. intros [ft cf] Hf.
  apply on_result_bind. intros [u cu] Hu.
  cbn [on_result]. intros r Hr. inversion Hr; subst r; clear Hr.
  cbn [lab_values fitzpatrick_type undertone confidence hex_color fst snd].
  exists cf, cu. split; [exact Hf|]. split; [exact Hu|].
  split; reflexivity.
Qed.

Lemma flat_map_nonempty {A B} (f : A -> list B) (l : list A) (x : A) :
  In x l -> f x <> [] -> flat_map f l <> [].
Proof.
  intros Hin Hfx Hnil. destruct (f x) as [|y ys] eqn:E; [contradiction|].
  assert (Hy : In y (flat_map f l)).
  { apply in_flat_map. exists x. split; [exact Hin|]. rewrite E. left. reflexivity. }
  rewrite Hnil in Hy. contradiction.
Qed.

(** X5.  The absent result is kept for degenerate input: as soon as one
    region of the list has at least two rows and two columns (and
    [cvtColor] keeps its shape), [SkinToneDetector.analyze] does not
    return None. *)
Theorem skin_tone_analyze_present {T} `{PyFloat T} (cv : OpenCV T)
    (skin_regions : list Image) (region : Image) :
  In region skin_regions ->
  (2 <= shape0 region)%nat -> (2 <= shape1 region)%nat ->
  same_shape (cvtColor_BGR2LAB cv region) region ->
  analyze cv skin_regions <> Ok None.
Proof.
  intros Hin Hh Hw Hlab.
  assert (Hsize : (size region =? 0)%Z = false).
  { apply Z.eqb_neq. unfold size. nia. }
  unfold analyze.
  assert (Hall : forallb (fun r => (size r =? 0)%Z) skin_regions = false).
  { destruct (forallb _ skin_regions) eqn:E; [|reflexivity].
    rewrite forallb_forall in E. rewrite (E region Hin) in Hsize. discriminate. }
  rewrite Hall, orb_false_r.
  destruct skin_regions as [|r0 rs]; [contradiction|].
  match goal with
  | |- context [flat_map ?f (r0 :: rs)] =>
      pose proof (flat_map_nonempty f (r0 :: rs) region Hin) as Hne
  end.
  cbv beta in Hne. rewrite Hsize in Hne.
  destruct (extract_skin_lab_values_sampled cv region Hlab Hh Hw) as (l & Hl & _).
  rewrite Hl in Hne.
  specialize (Hne (extract_skin_lab_values_nonempty cv region l Hl)).
  destruct (flat_map _ (r0 :: rs)) as [|p all]; [contradiction|].
  destruct (_classify_fitzpatrick _) as [[ft cf]|e]; [|discriminate].
  destruct (_classify_undertone _ _) as [[u cu]|e]; discriminate.
Qed.

Lemma skin_tone_analyze_present_witness :
  analyze (T := Q) pointwise_cv [half_dark_image] <> Ok None.
Proof.
  apply (skin_tone_analyze_present (T := Q) pointwise_cv [half_dark_image]
           half_dark_image).
  - left. reflexivity.
  - cbn. lia.
  - cbn. lia.
  - split; reflexivity.
Defined.

End SkinToneResults.

Section FaceShapeResults.
Import FaceShapeClassifier.
Local Open Scope Q_scope.

Lemma winner_confidence (sc : list (FaceShape * Q)) (shape : FaceShape) (conf : Q) :
  winner sc shape conf ->
  ((forall s v, In (s, v) sc -> v < 3 # 10) -> shape = OVAL /\ conf == 6 # 10)
  /\ ((exists s v, In (s, v) sc /\ 3 # 10 <= v) -> 7 # 10 <= conf <= 98 # 100)
  /\ 6 # 10 <= conf <= 98 # 100.
Proof.
  intros (best & top & second & rest & [s Hs] & Hmax & _ & Htop & Hsecond & _
          & Hlow & Hhigh).
  assert (Hrange : 3 # 10 <= best -> 7 # 10 <= conf <= 98 # 100).
  { intros Hbest. destruct (Hhigh Hbest) as [_ Hconf]. rewrite Hconf. split.
    - apply Q.min_glb; lra.
    - apply Q.le_min_l. }
  split; [|split].
  - intros Hall. apply Hlow. apply (Hall s). exact Hs.
  - intros (s' & v & Hv & Hge). apply Hrange.
    specialize (Hmax s' v Hv). lra.
  - destruct (Qlt_le_dec best (3 # 10)) as [Hlt|Hge].
    + destruct (Hlow Hlt) as [_ Hconf]. rewrite Hconf. split; lra.
    + specialize (Hrange Hge). split; lra.
Qed.

Section FirstMaximum.
Context {K : Type}.

(** [max(d, key=d.get)] returns the first key of the maximum value: the
    values before it are below it, the values after it do not exceed
    it. *)
Lemma max_from_first (l : list (K * Q)) : forall best : K * Q,
  exists pre post,
    best :: l = pre ++ max_from best l :: post
    /\ Forall (fun kv => snd kv < snd (max_from best l)) pre
    /\ Forall (fun kv => snd kv <= snd (max_from best l)) post.
Proof.
  induction l as [|kv l IH]; intros best; cbn [max_from].
  - exists [], []. repeat split; constructor.
  - at_Q'.
    destruct (Qlt_bool (snd best) (snd kv)) eqn:E.
    + apply Qlt_bool_iff in E.
      destruct (IH kv) as (pre & post & Hsplit & Hpre & Hpost).
      exists (best :: pre), post. split; [cbn; rewrite Hsplit; reflexivity|].
      split; [|exact Hpost]. constructor; [|exact Hpre].
      destruct (max_from_spec l kv) as [_ Hmax].
      specialize (Hmax kv (or_introl eq_refl)). lra.
    + apply Qlt_bool_iff_false in E.
      destruct (IH best) as (pre & post & Hsplit & Hpre & Hpost).
      destruct pre as [|b pre'].
      * cbn [app] in Hsplit.
        assert (Hbest : max_from best l = best) by congruence.
        assert (Hl : post = l) by congruence.
        rewrite Hbest in *. subst post.
        exists [], (kv :: l).
        split; [reflexivity|]. split; [constructor|].
        constructor; [exact E | exact Hpost].
      * cbn [app] in Hsplit.
        assert (Hb : b = best) by congruence.
        assert (Hl : l = pre' ++ max_from best l :: post) by congruence.
        subst b.
        exists (best :: kv :: pre'), post.
        split; [cbn [app]; rewrite <- Hl; reflexivity|].
        split; [|exact Hpost].
        inversion Hpre as [|? ? Hbest Hpre']; subst.
        constructor; [exact Hbest|]. constructor; [lra | exact Hpre'].
Qed.
End FirstMaximum.

Lemma apply_classification_rules_first (lw fj ja cfr cjr : Q) :
  exists shape conf reason pre s best post,
    _apply_classification_rules lw fj ja cfr cjr = Ok (shape, conf, reason)
    /\ scores lw fj ja cfr cjr = pre ++ (s, best) :: post
    /\ Forall (fun kv => snd kv < best) pre
    /\ Forall (fun kv => snd kv <= best) post
    /\ (3 # 10 <= best -> shape = s)
    /\ (best < 3 # 10 -> shape = OVAL).
Proof.
  unfold _apply_classification_rules.
  pose proof (scores_keys lw fj ja cfr cjr) as Hkeys.
  destruct (scores lw fj ja cfr cjr) as [|kv rest] eqn:Hsc; [discriminate Hkeys|].
  cbn [max_by_value bind].
  destruct (max_from_first rest kv) as (pre & post & Hsplit & Hpre & Hpost).
  destruct (max_from kv rest) as [bs bv] eqn:Hbest. cbn [snd] in Hpre, Hpost.
  at_Q'. destruct (Qlt_bool bv (3 # 10)) eqn:Hfloor.
  - apply Qlt_bool_iff in Hfloor.
    eexists _, _, _, pre, bs, bv, post. split; [reflexivity|].
    split; [exact Hsplit|]. split; [exact Hpre|]. split; [exact Hpost|].
    split; [intros Hge; lra | intros _; reflexivity].
  - apply Qlt_bool_iff_false in Hfloor.
    eexists _, _, _, pre, bs, bv, post. split; [reflexivity|].
    split; [exact Hsplit|]. split; [exact Hpre|]. split; [exact Hpost|].
    split; [intros _; reflexivity | intros Hlt; lra].
Qed.

Lemma classify_first_exact (m : gmap string Q) :
  exists r pre s best post,
    classify m = Ok r
    /\ (let '(lw, fj, ja, cfr, cjr) := quantities m in
        scores lw fj ja cfr cjr) = pre ++ (s, best) :: post
    /\ Forall (fun kv => snd kv < best) pre
    /\ Forall (fun kv => snd kv <= best) post
    /\ (3 # 10 <= best -> shape r = s)
    /\ (best < 3 # 10 -> shape r = OVAL).
Proof.
  unfold classify, quantities. cbn [lit Q_PyFloat].
  set (fw := default 1 (m !! "forehead_width")).
  set (jw := default 1 (m !! "jaw_width")).
  set (cw := default 1 (m !! "cheekbone_width")).
  set (lw := default 1 (m !! "length_width_ratio")).
  set (fj := default 1 (m !! "forehead_jaw_ratio")).
  set (ja := default 140 (m !! "jawline_angle")).
  assert (Hratio : forall d : Q,
             (if (d >? 0)%py then py_div cw d else Ok 1)
             = Ok (if Qlt_le_dec 0 d then cw / d else 1)).
  { intros d. at_Q'. destruct (Qlt_le_dec 0 d) as [Hd|Hd].
    - rewrite (Qlt_bool_true _ _ Hd). rewrite Qeq_bool_false by lra. reflexivity.
    - rewrite (Qlt_bool_false _ _ Hd). reflexivity. }
  rewrite (Hratio fw), (Hratio jw). cbn [bind].
  destruct (apply_classification_rules_first lw fj ja
              (if Qlt_le_dec 0 fw then cw / fw else 1)
              (if Qlt_le_dec 0 jw then cw / jw else 1))
    as (shape & conf & reason & pre & s & best & post & Hrun & Hrest).
  rewrite Hrun. cbn [bind]. eexists _, pre, s, best, post.
  split; [reflexivity|]. exact Hrest.
Qed.

(** Every score is non-negative and bounded by the sum of its
    increments. *)
Lemma scores_bounds (lw fj ja cfr cjr : Q) :
  Forall2 (fun kv cap => 0 <= snd kv <= cap)
          (scores lw fj ja cfr cjr)
          [1; 12 # 10; 1; 8 # 10; 1; 1; 1].
Proof.
  assert (Hmin : forall a x : Q, 0 <= a -> 0 <= x -> 0 <= py_min a x <= a).
  { intros a x Ha Hx. split; [apply py_min_glb; assumption | apply py_min_le_l]. }
  unfold scores, add_if, ROUND_LENGTH_WIDTH_THRESHOLD,
    OBLONG_LENGTH_WIDTH_THRESHOLD, HEART_FOREHEAD_JAW_THRESHOLD,
    TRIANGLE_FOREHEAD_JAW_THRESHOLD, SQUARE_JAWLINE_ANGLE_THRESHOLD,
    DIAMOND_CHEEKBONE_THRESHOLD.
  cbv zeta. at_Q'.
  repeat (constructor; cbn [snd]);
    repeat match goal with
    | |- context [Qlt_bool ?a ?b] =>
        let E := fresh "E" in
        destruct (Qlt_bool a b) eqn:E;
        [apply Qlt_bool_iff in E | apply Qlt_bool_iff_false in E]
    end;
    cbn [andb];
    try match goal with
    | |- context [py_min ?a ?x] =>
        let Hm := fresh "Hm" in
        assert (Hm : 0 <= py_min a x <= a) by (apply Hmin; lra);
        revert Hm; generalize (py_min a x); intros ? ?
    end;
    lra.
Qed.

End FaceShapeResults.

Section ScalpGeometry.
Import BaldnessDetector.
Local Open Scope Z_scope.

(** X8.  When [_extract_scalp_region] returns a region for a box whose
    top [y] lies in the image, the region is the rectangle of the image
    that ends at row [y]: at least 10 by 10, as high as half the face
    height allows above [y], starting a tenth of the face width left of
    the box, and inside the image. *)
Theorem scalp_region_rectangle (image : Image) (x y w h : Z)
    (region : Image) :
  _extract_scalp_region (T := Q) image (x, y, w, h) = Ok (Some region) ->
  y <= Z.of_nat (shape0 image) ->
  let scalp_y := Z.max 0 (y - Z.quot h 2) in
  let scalp_x := Z.max 0 (x - Z.quot w 10) in
  10 <= scalp_h (x, y, w, h)
  /\ 10 <= scalp_w image (x, y, w, h)
  /\ Z.of_nat (shape0 region) = scalp_h (x, y, w, h)
  /\ Z.of_nat (shape1 region) = scalp_w image (x, y, w, h)
  /\ scalp_y + scalp_h (x, y, w, h) = y
  /\ scalp_x + scalp_w image (x, y, w, h) <= Z.of_nat (shape1 image)
  /\ forall i j,
       entry region i j
       = entry image (Z.to_nat scalp_y + i)%nat (Z.to_nat scalp_x + j)%nat.
Proof.
  rewrite extract_scalp_region_exact. intros Hrun Hy. cbv zeta.
  destruct (_ || _) eqn:Hsmall; [discriminate|].
  apply orb_false_iff in Hsmall. destruct Hsmall as [Hh Hw].
  apply Z.ltb_ge in Hh, Hw.
  inversion Hrun as [Hregion]. clear Hrun. subst region.
  set (sy := Z.max 0 (y - Z.quot h 2)) in *.
  set (sx := Z.max 0 (x - Z.quot w 10)) in *.
  set (sh := scalp_h (x, y, w, h)) in *.
  set (sw := scalp_w image (x, y, w, h)) in *.
  assert (Hsh : sh = y - sy) by reflexivity.
  assert (Hsw : sw = Z.min (Z.of_nat (shape1 image) - sx) (Z.quot (12 * w) 10))
    by reflexivity.
  assert (Hsy : 0 <= sy) by (unfold sy; lia).
  assert (Hsx : 0 <= sx) by (unfold sx; lia).
  destruct (slice2_shape image sy (sy + sh) sx (sx + sw))
    as (E0 & E1 & Eentry); try lia.
  rewrite <- Hsh, <- Hsw.
  split; [exact Hh|]. split; [exact Hw|].
  split; [rewrite E0; lia|]. split; [rewrite E1; lia|].
  split; [lia|]. split; [lia|].
  intros i j. rewrite Eentry.
  rewrite (Z.min_l sy) by lia. rewrite (Z.min_l sx) by lia. reflexivity.
Qed.

Lemma scalp_region_rectangle_witness :
  exists region,
    _extract_scalp_region (T := Q) half_dark_image (5, 30, 20, 40)
    = Ok (Some region)
    /\ Z.of_nat (shape0 region) = 20
    /\ Z.of_nat (shape1 region) = 24.
Proof.
  eexists. split; [vm_compute; reflexivity|].
  destruct (scalp_region_rectangle half_dark_image 5 30 20 40 _ eq_refl)
    as (_ & _ & Hrows & Hcols & _); [cbn; lia|].
  split; [exact Hrows | exact Hcols].
Defined.

Lemma calculate_hair_coverage_confidence (cv : OpenCV Q) (region : Image) :
  size region <> 0 ->
  on_result (fun pc => (7 # 10 <= snd pc <= 95 # 100)%Q)
            (_calculate_hair_coverage cv region).
Proof.
  intros Hsize. unfold _calculate_hair_coverage.
  rewrite (proj2 (Z.eqb_neq _ _) Hsize).
  apply on_result_bind. intros mask _. cbn [on_result snd].
  pose proof (size_total_pixels region Hsize) as Htot. unfold total_pixels in Htot.
  pose proof (count_true_bounds (texture_mask cv region)) as [Hcount _].
  at_Q'.
  set (n := count_true (texture_mask cv region)) in *.
  set (d := Z.of_nat (shape0 region) * Z.of_nat (shape1 region)) in *.
  assert (Hd : (0 < inject_Z d)%Q).
  { change (inject_Z 0 < inject_Z d)%Q. rewrite <- Zlt_Qlt. exact Htot. }
  assert (Hn : (0 <= inject_Z n)%Q).
  { change (inject_Z 0 <= inject_Z n)%Q. rewrite <- Zle_Qle. exact Hcount. }
  assert (Hratio : (0 <= inject_Z n / inject_Z d)%Q).
  { apply Qle_shift_div_l; [exact Hd|]. lra. }
  split; [apply py_min_glb; lra | apply py_min_le_l].
Qed.

Lemma baldness_analyze_confidence (cv : OpenCV Q) (image : Image)
    (face_bbox : Z * Z * Z * Z) :
  on_result (fun o => exists r,
                 o = Some r
                 /\ (r = default_result
                     \/ (7 # 10 <= confidence r <= 95 # 100)%Q))
            (analyze cv image face_bbox).
Proof.
  unfold analyze. apply on_result_bind. intros scalp_region _.
  destruct scalp_region as [region|];
    [|eexists; split; [reflexivity | left; reflexivity]].
  destruct (size region =? 0) eqn:Hsize;
    [eexists; split; [reflexivity | left; reflexivity]|].
  apply Z.eqb_neq in Hsize.
  apply on_result_bind. intros [pct conf] Hcalc.
  pose proof (calculate_hair_coverage_confidence cv region Hsize) as Hconf.
  rewrite Hcalc in Hconf. cbn [on_result snd] in Hconf.
  cbn [on_result]. eexists. split; [reflexivity|]. right. exact Hconf.
Qed.

End ScalpGeometry.

Section OrchestratorResults.
Import FaceAnalyzer.
Local Open Scope Z_scope.

Lemma get_season_names (f : SkinToneDetector.FitzpatrickType)
    (u : SkinToneDetector.Undertone) :
  In (SkinToneDetector.get_season f u) season_names.
Proof. destruct f, u; cbn; tauto. Qed.

Lemma analyze_season_present {T} `{PyFloat T} (face_detector : FaceDetector T)
    (cv : OpenCV T) (image : Image) :
  on_result
    (fun r =>
       (detected r = true <-> detect face_detector image <> None)
       /\ season_follows_tone r
       /\ (forall s, color_season r = Some s -> In s season_names)
       /\ (detected r = false -> sub_confidences r = []))
    (analyze face_detector cv image).
Proof.
  unfold analyze, season_follows_tone.
  destruct (detect face_detector image) as [detection|].
  - destruct (get_cheek_regions face_detector image (landmarks detection))
      as [left_cheek right_cheek].
    apply on_result_bind. intros st _.
    apply on_result_bind. intros fs _.
    apply on_result_bind. intros hc _.
    apply on_result_bind. intros overall _.
    cbn [on_result detected color_season skin_tone].
    split; [split; [discriminate | reflexivity]|].
    split; [destruct st; reflexivity|].
    split; [|discriminate].
    intros s Hs. destruct st as [st|]; [|discriminate].
    inversion Hs. apply get_season_names.
  - cbn. split; [split; [discriminate | intros Hnone; contradiction]|].
    split; [reflexivity|]. split; [discriminate | reflexivity].
Qed.

(** Whatever the arithmetic, the overall confidence of a result with a
    face is the quotient [analyze] forms of the sum and the number of
    the confidences of its two or three sub-results. *)
Lemma analyze_overall_mean {T} `{PyFloat T} (face_detector : FaceDetector T)
    (cv : OpenCV T) (image : Image) :
  on_result
    (fun r =>
       (detected r = false -> overall_confidence r = lit 0)
       /\ (detected r = true ->
           (2 <= length (sub_confidences r) <= 3)%nat
           /\ py_div (py_sum (sub_confidences r))
                     (of_int (Z.of_nat (length (sub_confidences r))))
              = Ok (overall_confidence r)))
    (analyze face_detector cv image).
Proof.
  unfold analyze.
  destruct (detect face_detector image) as [detection|];
    [|cbn; split; [reflexivity | discriminate]].
  destruct (get_cheek_regions face_detector image (landmarks detection))
    as [left_cheek right_cheek].
  apply on_result_bind. intros st _.
  apply on_result_bind. intros fs _.
  apply on_result_bind. intros o Ho.
  pose proof (analyze_styling_flag cv image (bbox detection)) as Hflag.
  rewrite Ho in Hflag. cbn [on_result] in Hflag.
  destruct Hflag as (hc & -> & _).
  apply on_result_bind. intros overall Hoverall.
  cbn [on_result]. split; [discriminate|]. intros _.
  unfold sub_confidences.
  cbn [skin_tone face_shape hair_coverage overall_confidence].
  destruct st as [st|]; cbn [app length] in *;
    (split; [lia | exact Hoverall]).
Qed.

Local Open Scope Q_scope.

Lemma analyze_overall_confidence (face_detector : FaceDetector Q) (cv : OpenCV Q)
    (image : Image) :
  on_result
    (fun r =>
       (detected r = false -> overall_confidence r = 0)
       /\ (detected r = true ->
           overall_confidence r
           == py_sum (sub_confidences r)
              / inject_Z (Z.of_nat (length (sub_confidences r)))
           /\ (2 <= length (sub_confidences r) <= 3)%nat
           /\ 55 # 100 <= overall_confidence r <= 965 # 1000))
    (analyze face_detector cv image).
Proof.
  unfold analyze.
  destruct (detect face_detector image) as [detection|];
    [|cbn; split; [reflexivity | discriminate]].
  destruct (get_cheek_regions face_detector image (landmarks detection))
    as [left_cheek right_cheek].
  match goal with
  | |- context [SkinToneDetector.analyze cv ?rs] =>
      pose proof (skin_tone_analyze_result cv rs) as Hskin
  end.
  apply on_result_bind. intros st Hst. rewrite Hst in Hskin.
  match goal with
  | |- context [FaceShapeClassifier.classify ?m] =>
      destruct (classify_winner_exact m) as (fs & -> & Hfs)
  end.
  cbn [bind].
  destruct (quantities _) as [[[[lw fj] ja] cfr] cjr].
  apply winner_confidence in Hfs. destruct Hfs as (_ & _ & Hfs).
  apply on_result_bind. intros o Ho.
  pose proof (baldness_analyze_confidence cv image (bbox detection)) as Hhc.
  rewrite Ho in Hhc. cbn [on_result] in Hhc. destruct Hhc as (hc & -> & Hhc).
  assert (Hhc' : 5 # 10 <= BaldnessDetector.confidence hc <= 95 # 100).
  { destruct Hhc as [->|Hhc]; [cbn; split; lra | split; lra]. }
  destruct st as [st|]; cbn [app]; at_Q'; cbn [length Z.of_nat];
    (rewrite Qeq_bool_false by (unfold inject_Z, Qeq; cbn; lia));
    cbn [bind on_result];
    (split; [discriminate|]); intros _;
    unfold sub_confidences;
    cbn [skin_tone face_shape hair_coverage overall_confidence app length];
    (split; [reflexivity|]); (split; [lia|]);
    unfold py_sum; cbn [fold_left]; at_Q'.
  - destruct (Hskin st eq_refl) as (cf & cu & _ & _ & _ & Hst').
    split; [apply Qle_shift_div_l | apply Qle_shift_div_r];
      try reflexivity; unfold inject_Z;
      change (Z.of_nat 3) with 3%Z; change (Z.of_nat 2) with 2%Z; lra.
  - split; [apply Qle_shift_div_l | apply Qle_shift_div_r];
      try reflexivity; unfold inject_Z;
      change (Z.of_nat 3) with 3%Z; change (Z.of_nat 2) with 2%Z; lra.
Qed.

End OrchestratorResults.

(** ** Strings *)

(** Lower and upper case of the ASCII literals in the goal. *)
Ltac case_of_literals :=
  repeat match goal with
  | |- context [lower ?s] =>
      let t := eval vm_compute in (map_text ascii_lower s) in
      replace (lower s) with t
        by (symmetry; apply (lower_ascii_text s); reflexivity)
  | |- context [upper ?s] =>
      let t := eval vm_compute in (map_text ascii_upper s) in
      replace (upper s) with t
        by (symmetry; apply (upper_ascii_text s); reflexivity)
  end.

(** ** The season rule of the recommendation engine *)

Section SeasonRuleOfTheEngine.
Import ColorTheoryEngine.
Context `{PyStr}.

Lemma determine_season_cases (fitzpatrick_type : Z) (undertone : string) :
  let u := lower undertone in
  (determine_season fitzpatrick_type undertone = SPRING
   <-> fitzpatrick_type <= 3 /\ (u = "warm" \/ u = "neutral"))
  /\ (determine_season fitzpatrick_type undertone = SUMMER
      <-> fitzpatrick_type <= 3 /\ u <> "warm" /\ u <> "neutral")
  /\ (determine_season fitzpatrick_type undertone = AUTUMN
      <-> 3 < fitzpatrick_type /\ u = "warm")
  /\ (determine_season fitzpatrick_type undertone = WINTER
      <-> 3 < fitzpatrick_type /\ u <> "warm").
Proof.
  cbv zeta. unfold determine_season.
  destruct (Z.leb_spec fitzpatrick_type 3) as [Hlight|Hdark];
    destruct (String.eqb_spec (lower undertone) "neutral") as [Hn|Hn];
    destruct (String.eqb_spec (lower undertone) "warm") as [Hw|Hw];
    cbn [andb negb];
    try (rewrite Hn in Hw; discriminate Hw);
    repeat split; intros; try discriminate; try lia; try tauto;
    repeat match goal with
    | H : _ /\ _ |- _ => destruct H
    | H : _ \/ _ |- _ => destruct H
    end;
    try lia; try contradiction; try congruence.
Qed.

Lemma determine_season_ignores_case (fitzpatrick_type : Z) (undertone : string) :
  determine_season fitzpatrick_type (lower undertone)
  = determine_season fitzpatrick_type undertone.
Proof. unfold determine_season. rewrite lower_lower. reflexivity. Qed.

Lemma season_rules_agree (f : SkinToneDetector.FitzpatrickType)
    (u : SkinToneDetector.Undertone) :
  value (determine_season (SkinToneDetector.value f)
                          (SkinToneDetector.Undertone_value u))
  = SkinToneDetector.get_season f u
  <-> ~ (u = SkinToneDetector.NEUTRAL /\ SkinToneDetector.value f <= 3).
Proof.
  unfold determine_season.
  destruct f, u; cbn [SkinToneDetector.Undertone_value];
    case_of_literals; cbn; split; intros; try reflexivity; try discriminate;
    try (intros [? ?]; first [discriminate | lia]);
    exfalso; match goal with H : ~ _ |- _ => apply H end; split;
    first [reflexivity | lia].
Qed.

End SeasonRuleOfTheEngine.

(** ** The lookup tables of the recommendation engines *)

Section LookupTables.
Import ColorTheoryEngine.
Context `{PyStr}.

(** A table built from a literal holds what the literal lists. *)
Lemma table_lookup_listed {A} (items : list (string * A)) (k : string) (v : A) :
  (list_to_map items : gmap string A) !! k = Some v -> In (k, v) items.
Proof.
  intros Hk. apply elem_of_list_to_map_2 in Hk.
  apply list_elem_of_In. exact Hk.
Qed.

Lemma listed_nonempty (items : list (string * list string)) (k : string)
    (l : list string) :
  all_nonempty items = true ->
  (list_to_map items : gmap string (list string)) !! k = Some l -> l <> [].
Proof.
  intros Hall Hk. apply table_lookup_listed in Hk.
  unfold all_nonempty in Hall.
  rewrite forallb_forall in Hall. specialize (Hall _ Hk). cbn [snd] in Hall.
  intros ->. discriminate Hall.
Qed.

Lemma get_with_fallback (items : list (string * list string)) (key fallback : string)
    (dflt : list string) :
  all_nonempty items = true ->
  (list_to_map items : gmap string (list string)) !! fallback = Some dflt ->
  exists l,
    (dflt' ← getitem (list_to_map items : gmap string (list string)) fallback;
     mret (default dflt' ((list_to_map items : gmap string (list string)) !! key)))
    = Returns l
    /\ l <> []
    /\ l = default dflt ((list_to_map items : gmap string (list string)) !! key).
Proof.
  intros Hall Hdflt. unfold getitem. rewrite Hdflt.
  cbn [mbind Outcome_bind mret Outcome_ret].
  eexists. split; [reflexivity|]. split; [|reflexivity].
  destruct (_ !! key) as [l|] eqn:Hkey; cbn [default].
  - exact (listed_nonempty items key l Hall Hkey).
  - exact (listed_nonempty items fallback dflt Hall Hdflt).
Qed.

Lemma get_neckline_recommendations_returns (face_shape : string) :
  exists l,
    StyleMatchingEngine.get_neckline_recommendations face_shape = Returns l
    /\ l <> []
    /\ l = default ["v-neck"; "crew"; "scoop"; "boat"; "turtleneck"]
                   (StyleMatchingEngine.NECKLINE_BY_FACE_SHAPE !! lower face_shape).
Proof. apply get_with_fallback; vm_compute; reflexivity. Qed.

Lemma get_eyewear_recommendations_returns (face_shape : string) :
  exists l,
    StyleMatchingEngine.get_eyewear_recommendations face_shape = Returns l
    /\ l <> []
    /\ l = default ["aviator"; "wayfarer"; "round"; "cat-eye"]
                   (StyleMatchingEngine.EYEWEAR_BY_FACE_SHAPE !! lower face_shape).
Proof. apply get_with_fallback; vm_compute; reflexivity. Qed.

Lemma get_pattern_recommendations_returns (body_type : string) :
  exists l,
    StyleMatchingEngine.get_pattern_recommendations body_type = Returns l
    /\ l <> []
    /\ l = default ["solid colors"; "medium patterns"; "subtle prints"]
                   (StyleMatchingEngine.PATTERN_BY_BODY_TYPE !! lower body_type).
Proof. apply get_with_fallback; vm_compute; reflexivity. Qed.

Lemma get_fit_recommendations_returns (body_type : string) :
  exists l,
    StyleMatchingEngine.get_fit_recommendations body_type = Returns l
    /\ l <> []
    /\ l = default ["slim"; "regular"; "tailored"]
                   (StyleMatchingEngine.FIT_BY_BODY_TYPE !! lower body_type).
Proof. apply get_with_fallback; vm_compute; reflexivity. Qed.

(** The two values of [hair_coverage] that switch to the advice for bald
    and thinning users. *)
Lemma contains_bald_thinning (hair_coverage : string) :
  contains ["bald"; "thinning"] (lower hair_coverage) = true
  <-> lower hair_coverage = "bald" \/ lower hair_coverage = "thinning".
Proof.
  unfold contains. cbn [existsb]. rewrite orb_false_r, orb_true_iff.
  rewrite !String.eqb_eq. reflexivity.
Qed.

Lemma get_hairstyle_recommendations_returns (face_shape hair_coverage : string) :
  exists l,
    GroomingRecommendationEngine.get_hairstyle_recommendations
      face_shape hair_coverage = Returns l
    /\ l <> []
    /\ l = if contains ["bald"; "thinning"] (lower hair_coverage)
           then ["buzz cut"; "clean shave"; "very short crop"]
           else default ["side part"; "pompadour"; "textured crop";
                         "slick back"; "quiff"]
                  (GroomingRecommendationEngine.HAIRSTYLES_BY_FACE_SHAPE
                     !! lower face_shape).
Proof.
  unfold GroomingRecommendationEngine.get_hairstyle_recommendations.
  destruct (contains _ _).
  - eexists. split; [reflexivity|]. split; [discriminate | reflexivity].
  - apply get_with_fallback; vm_compute; reflexivity.
Qed.

Lemma get_beard_recommendations_returns (face_shape hair_coverage : string) :
  exists l,
    GroomingRecommendationEngine.get_beard_recommendations
      face_shape hair_coverage = Returns l
    /\ l <> []
    /\ l = if contains ["bald"; "thinning"] (lower hair_coverage)
           then ["full beard"; "sculpted beard"; "goatee"; "stubble"]
           else default ["stubble"; "short beard"; "full beard"; "goatee"]
                  (GroomingRecommendationEngine.BEARD_STYLES_BY_FACE_SHAPE
                     !! lower face_shape).
Proof.
  unfold GroomingRecommendationEngine.get_beard_recommendations.
  destruct (contains _ _).
  - eexists. split; [vm_compute; reflexivity|].
    split; [discriminate | reflexivity].
  - apply get_with_fallback; vm_compute; reflexivity.
Qed.

End LookupTables.

(** ** Recommendations *)

Section Recommendations.
Import ColorTheoryEngine SeasonalPalettes RecommendationEngine.
Context `{PyStr}.

Lemma get_palette_returns (season : ColorSeason) :
  exists p,
    get_palette season = Returns p
    /\ In (season, p) SEASONAL_PALETTES
    /\ avoids_apart p = true
    /\ metal_preference p
       = match season with
         | SPRING | AUTUMN => "gold"
         | SUMMER | WINTER => "silver"
         end.
Proof.
  destruct season; eexists; (split; [reflexivity|]);
    (split; [cbn; tauto|]); split; vm_compute; reflexivity.
Qed.

Lemma contains_spec (xs : list string) (x : string) :
  contains xs x = true <-> In x xs.
Proof.
  unfold contains. rewrite existsb_exists. split.
  - intros (y & Hy & Heq). apply String.eqb_eq in Heq. subst y. exact Hy.
  - intros Hx. exists x. split; [exact Hx | apply String.eqb_refl].
Qed.

Lemma avoids_apart_spec (p : ColorPalette) (c : string) :
  avoids_apart p = true ->
  In c (avoid_colors p) ->
  ~ In c (best_colors p ++ accent_colors p ++ neutral_colors p).
Proof.
  unfold avoids_apart. rewrite forallb_forall. intros Hall Hc Hin.
  specialize (Hall c Hc). apply contains_spec in Hin.
  rewrite Hin in Hall. discriminate Hall.
Qed.

Lemma generate_recommendations_returns (fitzpatrick_type : Z)
    (undertone face_shape body_type hair_coverage gender : string) :
  exists rec,
    generate_recommendations fitzpatrick_type undertone face_shape body_type
                             hair_coverage gender = Returns rec
    /\ rec !! "color_analysis" ≫= (.!! "season")
       = Some (Text (value (determine_season fitzpatrick_type undertone)))
    /\ (is_Some (rec !! "alternative_styling")
        <-> lower hair_coverage = "bald" \/ lower hair_coverage = "thinning")
    /\ (is_Some (rec !! "reasoning" ≫= (.!! "hair"))
        <-> lower hair_coverage = "bald" \/ lower hair_coverage = "thinning")
    /\ (lower hair_coverage = "bald" \/ lower hair_coverage = "thinning" ->
        rec !! "grooming" ≫= (.!! "hairstyles")
        = Some (Items ["buzz cut"; "clean shave"; "very short crop"]))
    /\ (lower gender <> "male" ->
        rec !! "grooming" ≫= (.!! "beard_styles") = Some (Items []))
    /\ (lower gender = "male" ->
        exists l, rec !! "grooming" ≫= (.!! "beard_styles") = Some (Items l)
                  /\ l <> [])
    /\ rec !! "style" ≫= (.!! "recommended_necklines")
       = Some (Items (default ["v-neck"; "crew"; "scoop"; "boat"; "turtleneck"]
                        (StyleMatchingEngine.NECKLINE_BY_FACE_SHAPE
                           !! lower face_shape)))
    /\ rec !! "style" ≫= (.!! "eyewear")
       = Some (Items (default ["aviator"; "wayfarer"; "round"; "cat-eye"]
                        (StyleMatchingEngine.EYEWEAR_BY_FACE_SHAPE
                           !! lower face_shape)))
    /\ (~ (lower hair_coverage = "bald" \/ lower hair_coverage = "thinning") ->
        rec !! "grooming" ≫= (.!! "hairstyles")
        = Some (Items (default ["side part"; "pompadour"; "textured crop";
                                "slick back"; "quiff"]
                         (GroomingRecommendationEngine.HAIRSTYLES_BY_FACE_SHAPE
                            !! lower face_shape)))).
Proof.
  unfold generate_recommendations, get_color_recommendations.
  destruct (get_palette_returns (determine_season fitzpatrick_type undertone))
    as (palette & -> & _).
  run_binds.
  destruct (get_neckline_recommendations_returns face_shape)
    as (necklines & -> & _ & Hnecklines).
  destruct (get_pattern_recommendations_returns body_type)
    as (patterns & -> & _).
  destruct (get_fit_recommendations_returns body_type) as (fits & -> & _).
  destruct (get_eyewear_recommendations_returns face_shape)
    as (eyewear & -> & _ & Heyewear).
  destruct (get_hairstyle_recommendations_returns face_shape hair_coverage)
    as (hairstyles & -> & _ & Hhair).
  destruct (get_beard_recommendations_returns face_shape hair_coverage)
    as (beard & Hbeard & Hbeard_ne & _).
  run_binds.
  assert (Hb : exists beard_styles,
             (if String.eqb (lower gender) "male"
              then GroomingRecommendationEngine.get_beard_recommendations
                     face_shape hair_coverage
              else mret [])
             = Returns beard_styles
             /\ (lower gender <> "male" -> beard_styles = [])
             /\ (lower gender = "male" -> beard_styles <> [])).
  { destruct (String.eqb_spec (lower gender) "male") as [Hm|Hm].
    - exists beard. split; [exact Hbeard|]. split; [contradiction | auto].
    - exists []. split; [reflexivity|]. split; [reflexivity | contradiction]. }
  destruct Hb as (beard_styles & -> & Hother & Hmale). run_binds.
  pose proof (contains_bald_thinning hair_coverage) as Hbald.
  destruct (contains ["bald"; "thinning"] (lower hair_coverage)) eqn:Hc.
  - assert (Hyes : lower hair_coverage = "bald" \/ lower hair_coverage = "thinning")
      by (apply Hbald; reflexivity).
    unfold getitem. cbn [list_to_map foldr fst snd].
    rewrite lookup_insert_ne by discriminate.
    rewrite !lookup_insert_ne by discriminate.
    rewrite lookup_insert. run_binds.
    eexists. split; [reflexivity|].
    repeat split; intros; simplify_map_eq; cbn;
      rewrite ?Hhair; eauto;
      try (rewrite Hother by assumption; reflexivity);
      try congruence; try contradiction.
  - assert (Hno : ~ (lower hair_coverage = "bald" \/ lower hair_coverage = "thinning"))
      by (intros Hyes; apply Hbald in Hyes; discriminate).
    eexists. split; [reflexivity|].
    cbn [list_to_map foldr fst snd].
    repeat split; intros; simplify_map_eq; cbn; eauto; try tauto;
      try (exfalso; eapply is_Some_None; eassumption);
      try (rewrite Hother by assumption; reflexivity);
      try congruence.
Qed.

End Recommendations.

(** ** Outfits for an occasion *)

Section Occasions.
Import ColorTheoryEngine OccasionStylingEngine.
Context `{PyStr}.

Lemma assoc_listed {A} (d : list (string * A)) (key : string) (v : A) :
  assoc d key = Some v -> In (key, v) d.
Proof.
  unfold assoc. destruct (find _ d) as [[k v']|] eqn:Hfind; [|discriminate].
  cbn. intros Hv. inversion Hv; subst v'.
  apply find_some in Hfind. destruct Hfind as [Hin Hk].
  cbn in Hk. apply String.eqb_eq in Hk. subst k. exact Hin.
Qed.

Lemma occasions_listed : forallb occasion_listed OCCASION_TEMPLATES = true.
Proof. vm_compute. reflexivity. Qed.

Lemma template_key_listed (occasion : string) :
  exists by_gender,
    assoc OCCASION_TEMPLATES (template_key occasion) = Some by_gender
    /\ occasion_listed (template_key occasion, by_gender) = true.
Proof.
  assert (Hkey : exists by_gender,
             assoc OCCASION_TEMPLATES (template_key occasion) = Some by_gender).
  { unfold template_key.
    destruct (assoc OCCASION_TEMPLATES (normalise occasion)) as [bg|] eqn:E.
    - exists bg. exact E.
    - eexists. unfold assoc, OCCASION_TEMPLATES. cbn [find fst].
      rewrite String.eqb_refl. reflexivity. }
  destruct Hkey as [bg Hbg]. exists bg. split; [exact Hbg|].
  pose proof occasions_listed as Hall. rewrite forallb_forall in Hall.
  apply Hall. apply assoc_listed. exact Hbg.
Qed.

Lemma garments_listed_spec (t : gmap string (list string)) :
  garments_listed t = true ->
  exists a aa b bb f ff acc,
    t !! "tops" = Some (a :: aa)
    /\ t !! "bottoms" = Some (b :: bb)
    /\ t !! "footwear" = Some (f :: ff)
    /\ t !! "accessories" = Some acc.
Proof.
  unfold garments_listed.
  destruct (t !! "tops") as [[|a aa]|]; try discriminate.
  destruct (t !! "bottoms") as [[|b bb]|]; try discriminate.
  destruct (t !! "footwear") as [[|f ff]|]; try discriminate.
  destruct (t !! "accessories") as [acc|]; try discriminate.
  intros _. exists a, aa, b, bb, f, ff, acc. repeat split.
Qed.

(** What [get_occasion_outfit] computes, by the gender key. *)
Lemma get_occasion_outfit_spec (occasion gender : string)
    (color_palette : list string) (face_shape : string) :
  exists by_gender,
    assoc OCCASION_TEMPLATES (template_key occasion) = Some by_gender
    /\ (forall g, is_Some (by_gender !! g) <-> g = "male" \/ g = "female")
    /\ _get_grooming_notes (template_key occasion) "male" <> default_note
    /\ match by_gender !! lower gender with
       | None =>
           get_occasion_outfit occasion gender color_palette face_shape
           = Raises (KeyError (lower gender))
       | Some template =>
           exists a aa b bb f ff acc,
             template !! "tops" = Some (a :: aa)
             /\ template !! "bottoms" = Some (b :: bb)
             /\ template !! "footwear" = Some (f :: ff)
             /\ template !! "accessories" = Some acc
             /\ get_occasion_outfit occasion gender color_palette face_shape
                = Returns
                    {| occasion := occasion;
                       top :=
                         garment a aa
                           (match primary_colors color_palette with
                            | c :: _ => c
                            | [] => "#FFFFFF"
                            end);
                       bottom :=
                         garment b bb
                           (match primary_colors color_palette with
                            | _ :: c :: _ => c
                            | _ => "#000000"
                            end);
                       footwear := garment f ff "neutral";
                       accessories := acc;
                       grooming_notes :=
                         _get_grooming_notes (template_key occasion)
                                             (lower gender);
                       color_suggestions := primary_colors color_palette |}
       end.
Proof.
  destruct (template_key_listed occasion) as (bg & Hbg & Hlisted).
  exists bg. split; [exact Hbg|].
  unfold occasion_listed in Hlisted. cbn [fst snd] in Hlisted.
  apply andb_true_iff in Hlisted. destruct Hlisted as [Hlisted Hnote].
  apply andb_true_iff in Hlisted. destruct Hlisted as [Hdom Hgarments].
  rewrite bool_decide_eq_true in Hdom.
  assert (Hgender : forall g, is_Some (bg !! g) <-> g = "male" \/ g = "female").
  { intros g. rewrite <- elem_of_dom, Hdom.
    rewrite elem_of_union, !elem_of_singleton. reflexivity. }
  split; [exact Hgender|].
  split.
  { intros Heq. rewrite Heq, String.eqb_refl in Hnote. discriminate Hnote. }
  unfold get_occasion_outfit. fold (normalise occasion).
  fold (template_key occasion). unfold getitem_assoc. rewrite Hbg. run_binds.
  unfold getitem.
  destruct (bg !! lower gender) as [template|] eqn:Htemplate; [|reflexivity].
  run_binds.
  assert (Hok : garments_listed template = true).
  { destruct (proj1 (Hgender (lower gender))) as [Hg|Hg];
      [rewrite Htemplate; eauto | |];
      rewrite Hg in Htemplate;
      destruct (bg !! "male") as [m|]; try discriminate;
      destruct (bg !! "female") as [f|]; try discriminate;
      apply andb_true_iff in Hgarments; destruct Hgarments as [Hm Hf];
      inversion Htemplate; subst; assumption. }
  destruct (garments_listed_spec template Hok)
    as (a & aa & b & bb & f & ff & acc & Ha & Hb & Hf & Hacc).
  exists a, aa, b, bb, f, ff, acc.
  split; [exact Ha|]. split; [exact Hb|]. split; [exact Hf|].
  split; [exact Hacc|].
  rewrite Ha, Hb, Hf, Hacc. run_binds. reflexivity.
Qed.

End Occasions.

(** ** The detector *)

Section DetectorProperties.
Import FaceAnalyzer Detector.

Lemma truncate_mono (a b : Q) : (a <= b)%Q -> truncate a <= truncate b.
Proof.
  destruct a as [n1 d1], b as [n2 d2]. unfold Qle, truncate. cbn [Qnum Qden].
  intros Hle.
  rewrite <- (Z.quot_mul_cancel_r n1 (Zpos d1) (Zpos d2)) by discriminate.
  rewrite <- (Z.quot_mul_cancel_r n2 (Zpos d2) (Zpos d1)) by discriminate.
  rewrite (Z.mul_comm (Zpos d2) (Zpos d1)).
  apply Z.quot_le_mono; [reflexivity | exact Hle].
Qed.

Lemma minimum_exact (a b : Q) :
  (minimum a b <= a)%Q /\ (minimum a b <= b)%Q
  /\ (minimum a b = a \/ minimum a b = b).
Proof.
  unfold minimum, isnan. at_Q'. rewrite (proj2 (Qeq_bool_iff a a)) by reflexivity.
  rewrite (proj2 (Qeq_bool_iff b b)) by reflexivity. cbn [negb].
  destruct (Qlt_le_dec b a) as [Hlt|Hle].
  - rewrite (Qlt_bool_true _ _ Hlt). repeat split; try lra. right. reflexivity.
  - rewrite (Qlt_bool_false _ _ Hle). repeat split; try lra. left. reflexivity.
Qed.

Lemma maximum_exact (a b : Q) :
  (a <= maximum a b)%Q /\ (b <= maximum a b)%Q
  /\ (maximum a b = a \/ maximum a b = b).
Proof.
  unfold maximum, isnan. at_Q'. rewrite (proj2 (Qeq_bool_iff a a)) by reflexivity.
  rewrite (proj2 (Qeq_bool_iff b b)) by reflexivity. cbn [negb].
  destruct (Qlt_le_dec a b) as [Hlt|Hle].
  - rewrite (Qlt_bool_true _ _ Hlt). repeat split; try lra. right. reflexivity.
  - rewrite (Qlt_bool_false _ _ Hle). repeat split; try lra. left. reflexivity.
Qed.

Lemma fold_minimum_least (rest : list Q) : forall x : Q,
  (fold_left minimum rest x <= x)%Q
  /\ forall y, In y rest -> (fold_left minimum rest x <= y)%Q.
Proof.
  induction rest as [|z rest IH]; intros x; cbn [fold_left].
  - split; [lra | intros y []].
  - destruct (IH (minimum x z)) as [Hhead Htail].
    destruct (minimum_exact x z) as (Hx & Hz & _).
    split; [lra|]. intros y [<-|Hy]; [lra | apply Htail; exact Hy].
Qed.

Lemma fold_maximum_greatest (rest : list Q) : forall x : Q,
  (x <= fold_left maximum rest x)%Q
  /\ forall y, In y rest -> (y <= fold_left maximum rest x)%Q.
Proof.
  induction rest as [|z rest IH]; intros x; cbn [fold_left].
  - split; [lra | intros y []].
  - destruct (IH (maximum x z)) as [Hhead Htail].
    destruct (maximum_exact x z) as (Hx & Hz & _).
    split; [lra|]. intros y [<-|Hy]; [lra | apply Htail; exact Hy].
Qed.

(** The least and the greatest of a column that is not empty, as
    integers, bracket the integer of every entry. *)
Lemma reduce_brackets (x : Q) (rest : list Q) :
  exists lo hi,
    reduce minimum (x :: rest) = Returns lo
    /\ reduce maximum (x :: rest) = Returns hi
    /\ forall y, In y (x :: rest) ->
         truncate lo <= truncate y <= truncate hi.
Proof.
  eexists _, _. split; [reflexivity|]. split; [reflexivity|].
  destruct (fold_minimum_least rest x) as [Hlo Hlos].
  destruct (fold_maximum_greatest rest x) as [Hhi His].
  intros y [<-|Hy]; split; apply truncate_mono; auto.
Qed.

Lemma detect_exact (lib : Libraries Q) (image : Image) :
  match face_mesh_process lib (cvtColor_BGR2RGB lib image) with
  | [] => detect lib image = Returns None
  | [] :: _ => detect lib image = Raises IndexError
  | (lm :: lms) :: _ =>
      exists d,
        detect lib image = Returns (Some d)
        /\ length (landmarks d) = length (lm :: lms)
        /\ confidence d = (95 # 100)%Q
        /\ image_shape d
           = (Z.of_nat (shape0 image), Z.of_nat (shape1 image))
        /\ box_holds (bbox d) (landmarks d)
  end.
Proof.
  unfold detect.
  destruct (face_mesh_process lib (cvtColor_BGR2RGB lib image))
    as [|[|lm lms] faces]; [reflexivity | reflexivity |].
  set (scaled := map _ (lm :: lms)).
  assert (Hscaled : exists p ps, scaled = p :: ps).
  { unfold scaled. cbn [map]. eexists _, _. reflexivity. }
  destruct Hscaled as (p & ps & Hscaled).
  assert (Hlen : length scaled = length (lm :: lms))
    by (unfold scaled; apply length_map).
  clearbody scaled. subst scaled.
  unfold column. run_binds. cbn [map].
  destruct (reduce_brackets (fst (fst p)) (map (fun q => fst (fst q)) ps))
    as (xlo & xhi & -> & Hxhi & Hx).
  run_binds. unfold py_int. cbn [ftrunc Q_PyFloat of_res]. run_binds.
  rewrite Hxhi. run_binds. cbn [of_res]. run_binds.
  destruct (reduce_brackets (snd (fst p)) (map (fun q => snd (fst q)) ps))
    as (ylo & yhi & -> & Hyhi & Hy).
  run_binds. cbn [of_res]. run_binds. rewrite Hyhi. run_binds.
  cbn [of_res]. run_binds.
  eexists. split; [reflexivity|].
  cbn [landmarks confidence image_shape bbox].
  split; [exact Hlen|]. split; [reflexivity|]. split; [reflexivity|].
  unfold box_holds. fold (truncate xlo) (truncate xhi) (truncate ylo) (truncate yhi).
  assert (Hcol : forall (k : Q * Q * Q -> Q) q,
             In q (p :: ps) -> In (k q) (k p :: map k ps)).
  { intros k q [<-|Hq]; [left; reflexivity | right; apply in_map; exact Hq]. }
  pose proof (Hx _ (Hcol (fun q => fst (fst q)) p (or_introl eq_refl))) as Hxp.
  pose proof (Hy _ (Hcol (fun q => snd (fst q)) p (or_introl eq_refl))) as Hyp.
  cbv beta in Hxp, Hyp.
  split; [lia|]. split; [lia|].
  intros q Hq.
  pose proof (Hx _ (Hcol (fun q => fst (fst q)) q Hq)) as Hxq.
  pose proof (Hy _ (Hcol (fun q => snd (fst q)) q Hq)) as Hyq.
  cbv beta in Hxq, Hyq. lia.
Qed.

(** *** Rows of the landmark array *)

Section Rows.
Context {T : Type} `{PyFloat T}.

Lemma row_returns (landmarks : Landmarks T) (idx : nat) :
  (idx < length landmarks)%nat -> exists p, row landmarks idx = Returns p.
Proof.
  intros Hlt. unfold row.
  destruct (landmarks !! idx) as [p|] eqn:Hrow; [eexists; reflexivity|].
  apply lookup_ge_None_1 in Hrow. lia.
Qed.

Lemma row_raises (landmarks : Landmarks T) (idx : nat) :
  (length landmarks <= idx)%nat -> row landmarks idx = Raises IndexError.
Proof.
  intros Hge. unfold row.
  destruct (landmarks !! idx) as [p|] eqn:Hrow; [|reflexivity].
  apply lookup_lt_Some in Hrow. lia.
Qed.

Lemma rows_returns (landmarks : Landmarks T) (indices : list nat) :
  Forall (fun i => (i < length landmarks)%nat) indices ->
  exists selected,
    rows landmarks indices = Returns selected
    /\ length selected = length indices.
Proof.
  induction 1 as [|i indices Hi _ IH]; cbn [rows].
  - exists []. split; reflexivity.
  - destruct (row_returns landmarks i Hi) as [p ->].
    destruct IH as (ps & -> & Hlen). run_binds.
    exists (p :: ps). split; [reflexivity | cbn; rewrite Hlen; reflexivity].
Qed.

Lemma rows_raises (landmarks : Landmarks T) (indices : list nat) :
  Exists (fun i => (length landmarks <= i)%nat) indices ->
  rows landmarks indices = Raises IndexError.
Proof.
  induction 1 as [i indices Hi|i indices _ IH]; cbn [rows].
  - rewrite (row_raises landmarks i Hi). reflexivity.
  - destruct (row landmarks i) as [p|e] eqn:Hrow; run_binds.
    + rewrite IH. reflexivity.
    + unfold row in Hrow. destruct (landmarks !! i); inversion Hrow.
      reflexivity.
Qed.

Lemma extract_roi_returns (lib : Libraries T) (image : Image)
    (landmarks : Landmarks T) (indices : list nat) :
  Forall (fun i => (i < length landmarks)%nat) indices ->
  exists roi, extract_roi lib image landmarks indices = Returns roi.
Proof.
  intros Hall. unfold extract_roi.
  destruct (rows_returns landmarks indices Hall) as (selected & -> & _).
  run_binds. destruct (boundingRect lib _) as [[[x y] w] h].
  eexists. reflexivity.
Qed.

Lemma extract_roi_raises (lib : Libraries T) (image : Image)
    (landmarks : Landmarks T) (indices : list nat) :
  Exists (fun i => (length landmarks <= i)%nat) indices ->
  extract_roi lib image landmarks indices = Raises IndexError.
Proof.
  intros Hex. unfold extract_roi. rewrite (rows_raises landmarks indices Hex).
  reflexivity.
Qed.

Lemma extract_roi_exact (lib : Libraries T) (image : Image)
    (landmarks : Landmarks T) (indices : list nat) (roi : Image)
    (x y w h : Z) :
  extract_roi lib image landmarks indices = Returns roi ->
  boundingRect lib (roi_points lib landmarks indices) = (x, y, w, h) ->
  let x0 := Z.max 0 (x - 5) in
  let y0 := Z.max 0 (y - 5) in
  let w0 := Z.min (Z.of_nat (shape1 image) - x0) (w + 10) in
  let h0 := Z.min (Z.of_nat (shape0 image) - y0) (h + 10) in
  roi = slice2 image y0 (y0 + h0) x0 (x0 + w0).
Proof.
  unfold extract_roi, roi_points.
  destruct (rows landmarks indices) as [selected|e]; run_binds;
    [|discriminate].
  intros Hroi Hrect. rewrite Hrect in Hroi. inversion Hroi. reflexivity.
Qed.

(** One axis of the padded crop: a side of length [n], a rectangle that
    starts at [x] and is [w] long. *)
Lemma padded_axis (n x w : Z) :
  0 <= n -> 0 <= w ->
  let x0 := Z.max 0 (x - 5) in
  let w0 := Z.min (n - x0) (w + 10) in
  Z.max 0 (Z.min (x0 + w0) n - Z.min x0 n) = Z.max 0 w0
  /\ (0 < Z.max 0 w0 -> Z.min x0 n = x0)
  /\ (0 <= x -> x + w <= n ->
      x0 <= x /\ x + w <= x0 + Z.max 0 w0 /\ x0 + Z.max 0 w0 <= n).
Proof. intros Hn Hw x0 w0. subst x0 w0. lia. Qed.

(** X13.  The region [extract_roi] returns is a crop of the image: the
    bounding rectangle of the chosen landmarks grown by 5 pixels on each
    side and cut at the image border.  For a rectangle inside the image
    it holds the whole rectangle and stays inside the image. *)
Theorem extract_roi_padded (lib : Libraries T) (image : Image)
    (landmarks : Landmarks T) (indices : list nat) (roi : Image)
    (x y w h : Z) :
  extract_roi lib image landmarks indices = Returns roi ->
  boundingRect lib (roi_points lib landmarks indices) = (x, y, w, h) ->
  0 <= w -> 0 <= h ->
  let x0 := Z.max 0 (x - 5) in
  let y0 := Z.max 0 (y - 5) in
  Z.of_nat (shape1 roi)
  = Z.max 0 (Z.min (Z.of_nat (shape1 image) - x0) (w + 10))
  /\ Z.of_nat (shape0 roi)
     = Z.max 0 (Z.min (Z.of_nat (shape0 image) - y0) (h + 10))
  /\ (forall i j, (i < shape0 roi)%nat -> (j < shape1 roi)%nat ->
        entry roi i j = entry image (Z.to_nat y0 + i)%nat (Z.to_nat x0 + j)%nat)
  /\ (0 <= x -> x + w <= Z.of_nat (shape1 image) ->
      x0 <= x /\ x + w <= x0 + Z.of_nat (shape1 roi)
      /\ x0 + Z.of_nat (shape1 roi) <= Z.of_nat (shape1 image))
  /\ (0 <= y -> y + h <= Z.of_nat (shape0 image) ->
      y0 <= y /\ y + h <= y0 + Z.of_nat (shape0 roi)
      /\ y0 + Z.of_nat (shape0 roi) <= Z.of_nat (shape0 image)).
Proof.
  intros Hroi Hrect Hw Hh x0 y0.
  pose proof (extract_roi_exact lib image landmarks indices roi x y w h
                Hroi Hrect) as Hslice.
  cbv zeta in Hslice. fold x0 y0 in Hslice.
  destruct (padded_axis (Z.of_nat (shape1 image)) x w (Nat2Z.is_nonneg _) Hw)
    as (Hcols' & Hx0 & Hx).
  destruct (padded_axis (Z.of_nat (shape0 image)) y h (Nat2Z.is_nonneg _) Hh)
    as (Hrows' & Hy0 & Hy).
  fold x0 in Hcols', Hx0, Hx. fold y0 in Hrows', Hy0, Hy.
  set (w0 := Z.min (Z.of_nat (shape1 image) - x0) (w + 10)) in *.
  set (h0 := Z.min (Z.of_nat (shape0 image) - y0) (h + 10)) in *.
  assert (Hx0' : 0 <= x0) by apply Z.le_max_l.
  assert (Hy0' : 0 <= y0) by apply Z.le_max_l.
  assert (Hx1 : 0 <= x0 + w0)
    by (unfold w0; clear -Hx0' Hw; lia).
  assert (Hy1 : 0 <= y0 + h0)
    by (unfold h0; clear -Hy0' Hh; lia).
  destruct (slice2_shape image y0 (y0 + h0) x0 (x0 + w0) Hy0' Hy1 Hx0' Hx1)
    as (Hrows & Hcols & Hentry).
  rewrite <- Hslice in Hrows, Hcols, Hentry.
  rewrite Hrows' in Hrows. rewrite Hcols' in Hcols.
  split; [exact Hcols|]. split; [exact Hrows|].
  split.
  { intros i j Hi Hj. rewrite Hentry.
    rewrite Hy0 by (clear -Hrows Hi; lia).
    rewrite Hx0 by (clear -Hcols Hj; lia). reflexivity. }
  rewrite Hrows, Hcols. split; assumption.
Qed.

Lemma max_index_below (indices : list nat) (n : nat) :
  (max_index indices < n)%nat -> Forall (fun i => (i < n)%nat) indices.
Proof.
  induction indices as [|i indices IH]; cbn [max_index fold_right]; intros Hlt.
  - constructor.
  - constructor; [lia | apply IH; unfold max_index; lia].
Qed.

Lemma max_index_reached (indices : list nat) (n : nat) :
  indices <> [] -> (n <= max_index indices)%nat ->
  Exists (fun i => (n <= i)%nat) indices.
Proof.
  induction indices as [|i indices IH]; [congruence|].
  intros _ Hle. cbn [max_index fold_right] in Hle.
  destruct (Nat.max_spec i (fold_right Nat.max 0%nat indices))
    as [[Hlt Hmax]|[Hge Hmax]]; rewrite Hmax in Hle.
  - apply Exists_cons_tl. apply IH; [|exact Hle].
    intros ->. cbn in Hlt. lia.
  - apply Exists_cons_hd. exact Hle.
Qed.

Lemma row_error (landmarks : Landmarks T) (idx : nat) (e : Exception) :
  row landmarks idx = Raises e -> e = IndexError.
Proof.
  unfold row. destruct (landmarks !! idx); intros Hrow; inversion Hrow.
  reflexivity.
Qed.

Lemma extract_roi_error (lib : Libraries T) (image : Image)
    (landmarks : Landmarks T) (indices : list nat) (e : Exception) :
  extract_roi lib image landmarks indices = Raises e -> e = IndexError.
Proof.
  unfold extract_roi.
  assert (Hrows : forall e', rows landmarks indices = Raises e' -> e' = IndexError).
  { induction indices as [|i indices IH]; cbn [rows]; [discriminate|].
    intros e'. destruct (row landmarks i) as [p|e1] eqn:Hrow; run_binds.
    - destruct (rows landmarks indices) as [ps|e2]; run_binds;
        [discriminate|].
      intros Heq. inversion Heq; subst. apply IH. reflexivity.
    - intros Heq. inversion Heq; subst. exact (row_error _ _ _ Hrow). }
  destruct (rows landmarks indices) as [selected|e']; run_binds.
  - destruct (boundingRect lib _) as [[[x y] w] h]. discriminate.
  - intros Heq. inversion Heq; subst. apply Hrows. reflexivity.
Qed.

Lemma get_forehead_region_outcome (lib : Libraries T) (image : Image)
    (landmarks : Landmarks T) :
  ((455 <= length landmarks)%nat ->
   exists roi, get_forehead_region lib image landmarks = Returns roi)
  /\ ((length landmarks < 455)%nat ->
      get_forehead_region lib image landmarks = Raises IndexError).
Proof.
  unfold get_forehead_region. split; intros Hlen.
  - apply extract_roi_returns. apply max_index_below.
    change (max_index FOREHEAD_LANDMARKS) with 454%nat. lia.
  - apply extract_roi_raises. apply max_index_reached; [discriminate|].
    change (max_index FOREHEAD_LANDMARKS) with 454%nat. lia.
Qed.

Lemma get_cheek_regions_outcome (lib : Libraries T) (image : Image)
    (landmarks : Landmarks T) :
  ((428 <= length landmarks)%nat ->
   exists regions, get_cheek_regions lib image landmarks = Returns regions)
  /\ ((length landmarks < 428)%nat ->
      get_cheek_regions lib image landmarks = Raises IndexError).
Proof.
  unfold get_cheek_regions. split; intros Hlen.
  - destruct (extract_roi_returns lib image landmarks LEFT_CHEEK_LANDMARKS)
      as [left_cheek ->].
    { apply max_index_below.
      change (max_index LEFT_CHEEK_LANDMARKS) with 207%nat. lia. }
    destruct (extract_roi_returns lib image landmarks RIGHT_CHEEK_LANDMARKS)
      as [right_cheek ->].
    { apply max_index_below.
      change (max_index RIGHT_CHEEK_LANDMARKS) with 427%nat. lia. }
    run_binds. eexists. reflexivity.
  - destruct (extract_roi lib image landmarks LEFT_CHEEK_LANDMARKS)
      as [left_cheek|e] eqn:Hleft; run_binds.
    + rewrite extract_roi_raises; [reflexivity|].
      apply max_index_reached; [discriminate|].
      change (max_index RIGHT_CHEEK_LANDMARKS) with 427%nat. lia.
    + rewrite (extract_roi_error _ _ _ _ _ Hleft). reflexivity.
Qed.

Lemma get_face_measurements_raises (lib : Libraries T)
    (landmarks : Landmarks T) :
  (length landmarks < 455)%nat ->
  get_face_measurements lib landmarks = Raises IndexError.
Proof.
  intros Hlen. unfold get_face_measurements, distance.
  assert (H454 : row landmarks FACE_RIGHT = Raises IndexError)
    by (apply row_raises; unfold FACE_RIGHT; lia).
  destruct (row landmarks FACE_TOP) as [p1|e] eqn:E1; run_binds;
    [|rewrite (row_error _ _ _ E1); reflexivity].
  destruct (row landmarks FACE_BOTTOM) as [p2|e] eqn:E2; run_binds;
    [|rewrite (row_error _ _ _ E2); reflexivity].
  destruct (row landmarks FACE_LEFT) as [p3|e] eqn:E3; run_binds;
    [|rewrite (row_error _ _ _ E3); reflexivity].
  rewrite H454. reflexivity.
Qed.

Lemma get_face_measurements_returns (lib : Libraries T)
    (landmarks : Landmarks T) :
  (455 <= length landmarks)%nat ->
  exists face_length face_width forehead_width jaw_width jawline_angle,
    get_face_measurements lib landmarks
    = Returns (list_to_map
        [ ("face_length", face_length);
          ("face_width", face_width);
          ("forehead_width", forehead_width);
          ("jaw_width", jaw_width);
          ("cheekbone_width", face_width);
          ("jawline_angle", jawline_angle);
          ("length_width_ratio",
           if flt (lit 0) face_width
           then np_true_divide face_length face_width else lit 0);
          ("forehead_jaw_ratio",
           if flt (lit 0) jaw_width
           then np_true_divide forehead_width jaw_width else lit 0) ]).
Proof.
  intros Hlen. unfold get_face_measurements, distance.
  destruct (row_returns landmarks FACE_TOP) as [p1 E1];
    [unfold FACE_TOP; lia|].
  destruct (row_returns landmarks FACE_BOTTOM) as [p2 E2];
    [unfold FACE_BOTTOM; lia|].
  destruct (row_returns landmarks FACE_LEFT) as [p3 E3];
    [unfold FACE_LEFT; lia|].
  destruct (row_returns landmarks FACE_RIGHT) as [p4 E4];
    [unfold FACE_RIGHT; lia|].
  destruct (row_returns landmarks FOREHEAD_LEFT) as [p5 E5];
    [unfold FOREHEAD_LEFT; lia|].
  destruct (row_returns landmarks FOREHEAD_RIGHT) as [p6 E6];
    [unfold FOREHEAD_RIGHT; lia|].
  destruct (row_returns landmarks JAW_LEFT) as [p7 E7];
    [unfold JAW_LEFT; lia|].
  destruct (row_returns landmarks JAW_RIGHT) as [p8 E8];
    [unfold JAW_RIGHT; lia|].
  change CHEEKBONE_LEFT with FACE_LEFT.
  change CHEEKBONE_RIGHT with FACE_RIGHT.
  rewrite E1, E2, E3, E4, E5, E6, E7, E8. run_binds.
  eexists _, _, _, _, _. reflexivity.
Qed.

End Rows.

Lemma extract_roi_padded_witness :
  exists roi,
    extract_roi sample_libraries test_image
                [(10, 20, 0); (30, 40, 0); (20, 60, 0)]%Q [0; 1; 2]%nat
    = Returns roi
    /\ Z.of_nat (shape1 roi) = 31
    /\ Z.of_nat (shape0 roi) = 51.
Proof.
  eexists. split; [vm_compute; reflexivity|].
  destruct (extract_roi_padded sample_libraries test_image
              [(10, 20, 0); (30, 40, 0); (20, 60, 0)]%Q [0; 1; 2]%nat
              _ 10 20 21 41 eq_refl)
    as (Hcols & Hrows & _); [vm_compute; reflexivity | lia | lia |].
  split; [exact Hcols | exact Hrows].
Defined.

End DetectorProperties.

(** ** The orchestrator on the detector of [detector.py] *)

Section WithDetector.
Import FaceAnalyzer.

Lemma analyze_with_detector {T} `{PyFloat T} (lib : Detector.Libraries T)
    (cv : OpenCV T) (image : Image) :
  match Detector.detect lib image with
  | Raises e => Analyzer.analyze lib cv image = Raises e
  | Returns None =>
      Analyzer.analyze lib cv image
      = of_res (analyze (Analyzer.returned None (image, image) image ∅)
                        cv image)
  | Returns (Some d) =>
      match Detector.get_cheek_regions lib image (landmarks d),
            Detector.get_forehead_region lib image (landmarks d),
            Detector.get_face_measurements lib (landmarks d) with
      | Returns cheeks, Returns forehead, Returns measurements =>
          (455 <= length (landmarks d))%nat
          /\ Analyzer.analyze lib cv image
             = of_res (analyze (Analyzer.returned (Some d) cheeks forehead
                                                  measurements)
                               cv image)
      | _, _, _ =>
          (length (landmarks d) < 455)%nat
          /\ Analyzer.analyze lib cv image = Raises IndexError
      end
  end.
Proof.
  unfold Analyzer.analyze.
  destruct (Detector.detect lib image) as [[d|]|e]; run_binds;
    [|reflexivity|reflexivity].
  destruct (get_cheek_regions_outcome lib image (landmarks d)) as [Hc Hc'].
  destruct (get_forehead_region_outcome lib image (landmarks d)) as [Hf Hf'].
  pose proof (get_face_measurements_returns lib (landmarks d)) as Hm.
  pose proof (get_face_measurements_raises lib (landmarks d)) as Hm'.
  destruct (le_lt_dec 455 (length (landmarks d))) as [Hlen|Hlen].
  - destruct Hc as [[left_cheek right_cheek] ->]; [lia|].
    destruct (Hf Hlen) as [forehead ->].
    destruct (Hm Hlen) as (fl & fw & fow & jw & ja & ->).
    split; [exact Hlen|]. run_binds.
    unfold analyze, Analyzer.returned.
    cbn [detect get_cheek_regions get_forehead_region get_face_measurements].
    destruct (SkinToneDetector.analyze cv _) as [st|e]; cbn [of_res bind];
      run_binds; [|reflexivity].
    destruct (FaceShapeClassifier.classify _) as [fs|e]; cbn [of_res bind];
      run_binds; [|reflexivity].
    destruct (BaldnessDetector.analyze cv image (bbox d)) as [hc|e];
      cbn [of_res bind]; run_binds; [|reflexivity].
    match goal with
    | |- context [of_res ?m] =>
        destruct m as [overall|e]; cbn [of_res bind]; run_binds; reflexivity
    end.
  - rewrite (Hf' Hlen), (Hm' Hlen).
    destruct (Detector.get_cheek_regions lib image (landmarks d))
      as [[left_cheek right_cheek]|e]; run_binds.
    + split; [exact Hlen | reflexivity].
    + split; [exact Hlen|].
      destruct (le_lt_dec 428 (length (landmarks d))) as [Hlen'|Hlen'].
      * destruct (Hc Hlen') as [regions Hregions]. discriminate Hregions.
      * pose proof (Hc' Hlen') as He. inversion He. reflexivity.
Qed.

(** What the orchestrator guarantees of its results with any detector
    holds of its results with this one. *)
Lemma analyze_transfers {T} `{PyFloat T} (P : FaceAnalysisResult T -> Prop)
    (lib : Detector.Libraries T) (cv : OpenCV T) (image : Image) :
  (forall face_detector, on_result P (analyze face_detector cv image)) ->
  on_return P (Analyzer.analyze lib cv image).
Proof.
  intros HP. pose proof (analyze_with_detector lib cv image) as Hrun.
  assert (Hof : forall fd r,
             Analyzer.analyze lib cv image = of_res (analyze fd cv image) ->
             Analyzer.analyze lib cv image = Returns r -> P r).
  { intros fd r Heq Hr. rewrite Heq in Hr. specialize (HP fd).
    destruct (analyze fd cv image); inversion Hr; subst. exact HP. }
  destruct (Analyzer.analyze lib cv image) as [r|e] eqn:Hr; [|exact I].
  cbn [on_return].
  destruct (Detector.detect lib image) as [[d|]|e].
  - destruct (Detector.get_cheek_regions lib image (landmarks d));
      destruct (Detector.get_forehead_region lib image (landmarks d));
      destruct (Detector.get_face_measurements lib (landmarks d));
      destruct Hrun as [_ Hrun]; try discriminate Hrun.
    eapply Hof; [exact Hrun | reflexivity].
  - eapply Hof; [exact Hrun | reflexivity].
  - discriminate Hrun.
Qed.

End WithDetector.

Section WithDetectorExact.
Import FaceAnalyzer.
Local Open Scope Q_scope.

(** X17.  The whole analysis in exact arithmetic, by what Face Mesh
    finds.  With no face it returns the result with [detected] false,
    confidence 0 and the two-key response.  With a first face of fewer
    than 455 landmarks it raises IndexError.  With a first face of 455
    landmarks or more it raises only what the hair-coverage step raised
    on the box of that face, and a result it returns has [detected]
    true, a face shape, a hair coverage and an overall confidence
    between 0.55 and 0.965. *)
Theorem analyze_on_detector_exact (lib : Detector.Libraries Q) (cv : OpenCV Q)
    (image : Image) :
  match Detector.face_mesh_process lib (Detector.cvtColor_BGR2RGB lib image) with
  | [] =>
      exists r,
        Analyzer.analyze lib cv image = Returns r
        /\ detected r = false /\ overall_confidence r = 0
        /\ Analyzer.to_dict r
           = list_to_map [ ("detected", JBool false);
                           ("overall_confidence", JFloat 0) ]
  | face :: _ =>
      if (455 <=? length face)%nat then
        match Analyzer.analyze lib cv image with
        | Returns r =>
            detected r = true
            /\ is_Some (face_shape r) /\ is_Some (hair_coverage r)
            /\ 55 # 100 <= overall_confidence r <= 965 # 1000
        | Raises e =>
            exists d e',
              Detector.detect lib image = Returns (Some d)
              /\ BaldnessDetector.analyze cv image (bbox d) = Raise e'
              /\ e = Core e'
        end
      else Analyzer.analyze lib cv image = Raises IndexError
  end.
Proof.
  pose proof (detect_exact lib image) as Hdetect.
  pose proof (analyze_with_detector lib cv image) as Hrun.
  destruct (Detector.face_mesh_process lib (Detector.cvtColor_BGR2RGB lib image))
    as [|[|lm lms] faces].
  - rewrite Hdetect in Hrun. rewrite Hrun. cbn.
    eexists. split; [reflexivity|]. repeat split.
  - rewrite Hdetect in Hrun. exact Hrun.
  - destruct Hdetect as (d & Hd & Hlen & _). rewrite Hd in Hrun.
    rewrite <- Hlen.
    destruct (Detector.get_cheek_regions lib image (landmarks d))
      as [cheeks|e];
      [destruct (Detector.get_forehead_region lib image (landmarks d))
         as [forehead|e];
       [destruct (Detector.get_face_measurements lib (landmarks d))
          as [measurements|e]|]|];
      destruct Hrun as [Hn Hrun];
      try (rewrite (proj2 (Nat.leb_gt _ _) Hn); exact Hrun).
    rewrite (proj2 (Nat.leb_le _ _) Hn). rewrite Hrun.
    set (fd := Analyzer.returned (Some d) cheeks forehead measurements).
    pose proof (analyze_overall_confidence fd cv image) as Hconf.
    pose proof (analyze_season_present fd cv image) as Hseason.
    pose proof (analyze_result_present fd cv image) as Hpresent.
    pose proof (analyze_outcome_exact fd cv image) as Hout.
    destruct (analyze fd cv image) as [r|e];
      cbn [of_res on_result] in *.
    + destruct Hconf as [_ Hconf].
      assert (Hdet : detected r = true)
        by (apply (proj1 Hseason); discriminate).
      split; [exact Hdet|].
      destruct (Hpresent Hdet) as (fs & hc & -> & ->).
      split; [eexists; reflexivity|]. split; [eexists; reflexivity|].
      apply Hconf. exact Hdet.
    + destruct Hout as (d' & Hd' & Hraise). inversion Hd'; subst d'.
      exists d, e. split; [exact Hd|]. split; [exact Hraise | reflexivity].
Qed.

End WithDetectorExact.

(** ** The response of the analysis endpoint *)

Section Responses.
Import FaceAnalyzer Analyzer.

Lemma to_dict_keys {T} (r : FaceAnalysisResult T) :
  dom (to_dict r) = result_keys r.
Proof.
  destruct r as [det st fs hc cs oc]. unfold to_dict, result_keys.
  cbn [detected skin_tone face_shape hair_coverage color_season
       overall_confidence].
  destruct st as [st|], fs as [fs|], hc as [hc|], cs as [season|];
    try destruct (String.eqb season "");
    cbn [list_to_map foldr fst snd];
    rewrite ?dom_insert_L, ?dom_empty_L; set_solver.
Qed.

Lemma to_dict_nested {T} (r : FaceAnalysisResult T) :
  nested_keys (to_dict r) "skin_tone"
  = option_map (fun _ => skin_tone_keys) (skin_tone r)
  /\ nested_keys (to_dict r) "face_shape"
     = option_map (fun _ => face_shape_keys) (face_shape r)
  /\ nested_keys (to_dict r) "hair_coverage"
     = option_map (fun _ => hair_coverage_keys) (hair_coverage r).
Proof.
  destruct r as [det st fs hc cs oc].
  unfold to_dict, nested_keys, skin_tone_keys, face_shape_keys,
    hair_coverage_keys.
  cbn [detected skin_tone face_shape hair_coverage color_season
       overall_confidence].
  destruct st as [st|], fs as [fs|], hc as [hc|], cs as [season|];
    try destruct (String.eqb season "");
    cbn [list_to_map foldr fst snd option_map];
    repeat split; simplify_map_eq; try reflexivity;
    f_equal; rewrite ?dom_insert_L, ?dom_empty_L; set_solver.
Qed.

Lemma to_dict_scalars {T} (r : FaceAnalysisResult T) :
  to_dict r !! "detected" = Some (JBool (detected r))
  /\ to_dict r !! "overall_confidence" = Some (JFloat (overall_confidence r))
  /\ (forall s, to_dict r !! "color_season" = Some (JStr s) ->
      color_season r = Some s /\ s <> "").
Proof.
  destruct r as [det st fs hc cs oc]. unfold to_dict.
  cbn [detected skin_tone face_shape hair_coverage color_season
       overall_confidence].
  destruct st as [st|], fs as [fs|], hc as [hc|], cs as [season|];
    try destruct (String.eqb_spec season "");
    cbn [list_to_map foldr fst snd];
    repeat split; intros; simplify_map_eq; try reflexivity; try assumption.
Qed.

End Responses.

Section Endpoint.
Import FaceAnalyzer AnalysisAPI.
Context {T : Type} `{PyFloat T}.

Lemma analyze_face_unfold (services : Services T) (file : UploadFile) :
  analyze_face services file
  = if declares_image file
    then match analyze_face_try services file with
         | Returns response => response
         | Raises e => HTTPException 500 ("Analysis failed: " +:+ str services e)
         end
    else HTTPException 400 "File must be an image".
Proof.
  unfold analyze_face, declares_image.
  destruct (content_type file) as [t|]; [|reflexivity].
  destruct t as [|c t]; [reflexivity|].
  cbn [String.eqb orb]. destruct (String.prefix _ _); reflexivity.
Qed.

(** A result the orchestrator returns with [detected] carries the keys
    of the face shape and of the hair coverage into the response. *)
Lemma analyze_to_dict_keys (lib : Detector.Libraries T) (cv : OpenCV T)
    (image : Image) (result : FaceAnalysisResult T) :
  Analyzer.analyze lib cv image = Returns result ->
  (if detected result
   then ({[ "detected"; "overall_confidence"; "face_shape"; "hair_coverage" ]}
           : gset string) ⊆ dom (Analyzer.to_dict result)
        /\ ("skin_tone" ∈ dom (Analyzer.to_dict result)
            <-> "color_season" ∈ dom (Analyzer.to_dict result))
   else dom (Analyzer.to_dict result)
        = ({[ "detected"; "overall_confidence" ]} : gset string)).
Proof.
  intros Hresult.
  pose proof (analyze_transfers shape_and_hair_present lib cv image
                (fun fd => analyze_result_present fd cv image)) as Hpresent.
  assert (Hseason :
            on_return
              (fun r => season_follows_tone r
                        /\ (forall s, color_season r = Some s -> In s season_names)
                        /\ (detected r = false -> sub_confidences r = []))
              (Analyzer.analyze lib cv image)).
  { apply analyze_transfers. intros fd.
    pose proof (analyze_season_present fd cv image) as Hs.
    destruct (analyze fd cv image); [|exact I]. cbn [on_result] in *. tauto. }
  rewrite Hresult in Hpresent, Hseason. cbn [on_return] in Hpresent, Hseason.
  destruct Hseason as (Hfollows & Hnames & Hnone).
  rewrite to_dict_keys. unfold result_keys.
  unfold season_follows_tone in Hfollows.
  destruct (detected result) eqn:Hdet.
  - destruct (Hpresent Hdet) as (fs & hc & -> & ->).
    split.
    { intros k Hk. rewrite !elem_of_union, !elem_of_singleton in Hk.
      rewrite !elem_of_union, !elem_of_singleton. tauto. }
    rewrite Hfollows in *.
    destruct (skin_tone result) as [st|]; cbn [option_map] in *.
    + assert (Hne : SkinToneDetector.get_season
                      (SkinToneDetector.fitzpatrick_type st)
                      (SkinToneDetector.undertone st) <> "").
      { intros Heq. specialize (Hnames _ eq_refl). rewrite Heq in Hnames.
        cbn in Hnames. intuition discriminate. }
      destruct (String.eqb_spec
                  (SkinToneDetector.get_season
                     (SkinToneDetector.fitzpatrick_type st)
                     (SkinToneDetector.undertone st)) "");
        [contradiction|].
      set_solver.
    + set_solver.
  - specialize (Hnone eq_refl). unfold sub_confidences in Hnone.
    rewrite Hfollows.
    destruct (skin_tone result); [discriminate|].
    destruct (face_shape result); [discriminate|].
    destruct (hair_coverage result); [discriminate|].
    cbn [option_map]. set_solver.
Qed.

Lemma analyze_face_try_returns (services : Services T) (file : UploadFile)
    (response : Response T) :
  analyze_face_try services file = Returns response ->
  match response with
  | HTTPException status_code detail => status_code = 400
  | JSONResponse content =>
      exists image analyzer result,
        decode services (contents file) = Returns (Some image)
        /\ (480 <= shape0 image)%nat /\ (480 <= shape1 image)%nat
        /\ get_analyzer services = Returns analyzer
        /\ Analyzer.analyze (fst analyzer) (snd analyzer) image = Returns result
        /\ detected result = true
        /\ render services content = Returns tt
        /\ content
           = list_to_map [ ("success", JBool true);
                           ("analysis", JDict (Analyzer.to_dict result)) ]
  end.
Proof.
  unfold analyze_face_try.
  destruct (decode services (contents file)) as [[image|]|e] eqn:Hdecode;
    run_binds; [| |discriminate].
  2: { intros Hr. inversion Hr. reflexivity. }
  destruct (Z.ltb_spec (Z.of_nat (shape0 image)) 480) as [Hh|Hh];
    cbn [orb]; [intros Hr; inversion Hr; reflexivity|].
  destruct (Z.ltb_spec (Z.of_nat (shape1 image)) 480) as [Hw|Hw];
    [intros Hr; inversion Hr; reflexivity|].
  destruct (get_analyzer services) as [analyzer|e]; run_binds;
    [|discriminate].
  destruct (Analyzer.analyze (fst analyzer) (snd analyzer) image)
    as [result|e] eqn:Hresult; run_binds; [|discriminate].
  destruct (detected result) eqn:Hdet; cbn [negb];
    [|intros Hr; inversion Hr; reflexivity].
  destruct (render services _) as [[]|e] eqn:Hrender; run_binds;
    [|discriminate].
  intros Hr. inversion Hr. exists image, analyzer, result.
  repeat split; try assumption; try reflexivity; lia.
Qed.

End Endpoint.

(** ** Recommendations for the values an analysis reports *)

Section AnalysisToRecommendations.
Import ColorTheoryEngine RecommendationEngine.
Context `{PyStr}.

Lemma face_shape_value_listed (s : FaceShapeClassifier.FaceShape) :
  lower (FaceShapeClassifier.value s) = FaceShapeClassifier.value s
  /\ exists necklines eyewear hairstyles beards,
       StyleMatchingEngine.NECKLINE_BY_FACE_SHAPE
         !! FaceShapeClassifier.value s = Some necklines
       /\ StyleMatchingEngine.EYEWEAR_BY_FACE_SHAPE
            !! FaceShapeClassifier.value s = Some eyewear
       /\ GroomingRecommendationEngine.HAIRSTYLES_BY_FACE_SHAPE
            !! FaceShapeClassifier.value s = Some hairstyles
       /\ GroomingRecommendationEngine.BEARD_STYLES_BY_FACE_SHAPE
            !! FaceShapeClassifier.value s = Some beards.
Proof.
  destruct s; cbn [FaceShapeClassifier.value]; case_of_literals;
    (split; [reflexivity|]); eexists _, _, _, _;
    repeat split; vm_compute; reflexivity.
Qed.

Lemma coverage_value_bald (level : BaldnessDetector.HairCoverageLevel) :
  (lower (BaldnessDetector.value level) = "bald"
   \/ lower (BaldnessDetector.value level) = "thinning")
  <-> level <> BaldnessDetector.FULL.
Proof.
  destruct level; cbn [BaldnessDetector.value]; case_of_literals;
    split; intros Hl; try congruence; try tauto;
    destruct Hl; discriminate.
Qed.

(** X24.  On the values an analysis reports (the level, the undertone,
    the face shape and the hair-coverage level, as [to_dict] writes
    them) the recommendations use the table entries of the face shape
    itself, never the fallback; "alternative_styling" is present exactly
    when the coverage level is not full, which is when the analysis
    sets [requires_alternative_styling]; and the season recommended is
    the colour season of the analysis except for a neutral undertone on
    a level of 3 or less. *)
Theorem recommendations_follow_analysis (ft : SkinToneDetector.FitzpatrickType)
    (u : SkinToneDetector.Undertone) (s : FaceShapeClassifier.FaceShape)
    (level : BaldnessDetector.HairCoverageLevel) (body_type gender : string) :
  exists rec,
    generate_recommendations (SkinToneDetector.value ft)
                             (SkinToneDetector.Undertone_value u)
                             (FaceShapeClassifier.value s) body_type
                             (BaldnessDetector.value level) gender
    = Returns rec
    /\ (is_Some (rec !! "alternative_styling")
        <-> level <> BaldnessDetector.FULL)
    /\ rec !! "style" ≫= (.!! "recommended_necklines")
       = Items <$> StyleMatchingEngine.NECKLINE_BY_FACE_SHAPE
                     !! FaceShapeClassifier.value s
    /\ rec !! "style" ≫= (.!! "eyewear")
       = Items <$> StyleMatchingEngine.EYEWEAR_BY_FACE_SHAPE
                     !! FaceShapeClassifier.value s
    /\ (level = BaldnessDetector.FULL ->
        rec !! "grooming" ≫= (.!! "hairstyles")
        = Items <$> GroomingRecommendationEngine.HAIRSTYLES_BY_FACE_SHAPE
                      !! FaceShapeClassifier.value s)
    /\ (rec !! "color_analysis" ≫= (.!! "season")
        = Some (Text (SkinToneDetector.get_season ft u))
        <-> ~ (u = SkinToneDetector.NEUTRAL /\ SkinToneDetector.value ft <= 3)).
Proof.
  destruct (generate_recommendations_returns
              (SkinToneDetector.value ft) (SkinToneDetector.Undertone_value u)
              (FaceShapeClassifier.value s) body_type
              (BaldnessDetector.value level) gender)
    as (rec & Hrec & Hseason & Halt & _ & _ & _ & _ & Hneck & Heye & Hhair).
  destruct (face_shape_value_listed s)
    as (Hlower & necklines & eyewear & hairstyles & beards
        & Hn & He & Hh & Hb).
  rewrite Hlower in Hneck, Heye, Hhair.
  rewrite Hn in Hneck. rewrite He in Heye. rewrite Hh in Hhair.
  cbn [default] in Hneck, Heye, Hhair.
  exists rec. split; [exact Hrec|].
  split; [rewrite Halt; apply coverage_value_bald|].
  split; [rewrite Hneck, Hn; reflexivity|].
  split; [rewrite Heye, He; reflexivity|].
  split.
  { intros Hfull. rewrite Hh. apply Hhair.
    rewrite coverage_value_bald. intros Hne. exact (Hne Hfull). }
  rewrite Hseason. rewrite <- season_rules_agree.
  split; [intros Heq; inversion Heq; reflexivity | intros ->; reflexivity].
Qed.

End AnalysisToRecommendations.

(** ** Outfits: the gender key, the colours, the occasion *)

Section OccasionOutfits.
Import ColorTheoryEngine OccasionStylingEngine.
Context `{PyStr}.

(** X25.  [get_occasion_outfit] accepts every occasion string and fails
    on the gender only: it returns an outfit when the gender is "male"
    or "female" in any letter case, and raises KeyError with the
    lower-cased gender for any other. *)
Theorem occasion_outfit_gender (occasion gender : string)
    (color_palette : list string) (face_shape : string) :
  (lower gender = "male" \/ lower gender = "female" ->
   exists outfit,
     get_occasion_outfit occasion gender color_palette face_shape
     = Returns outfit)
  /\ (~ (lower gender = "male" \/ lower gender = "female") ->
      get_occasion_outfit occasion gender color_palette face_shape
      = Raises (KeyError (lower gender))).
Proof.
  destruct (get_occasion_outfit_spec occasion gender color_palette face_shape)
    as (bg & _ & Hgender & _ & Hrun).
  specialize (Hgender (lower gender)).
  destruct (bg !! lower gender) as [template|].
  - destruct Hrun as (a & aa & b & bb & f & ff & acc & _ & _ & _ & _ & ->).
    split; [intros _; eexists; reflexivity|].
    intros Hno. exfalso. apply Hno. apply Hgender. eexists. reflexivity.
  - split; [|intros _; exact Hrun].
    intros Hyes. apply Hgender in Hyes. destruct Hyes as [t Ht]. discriminate Ht.
Qed.

Lemma primary_colors_length (color_palette : list string) :
  (1 <= length (primary_colors color_palette) <= 3)%nat
  /\ (color_palette <> [] ->
      primary_colors color_palette = take 3 color_palette).
Proof.
  unfold primary_colors.
  destruct color_palette as [|c1 [|c2 [|c3 rest]]]; simpl;
    (split; [lia|]); intros Hne; [contradiction | reflexivity ..].
Qed.

Lemma get_occasion_outfit_content (occasion gender : string)
    (color_palette : list string) (face_shape : string)
    (outfit : OccasionOutfit) :
  get_occasion_outfit occasion gender color_palette face_shape = Returns outfit ->
  OccasionStylingEngine.occasion outfit = occasion
  /\ color_suggestions outfit = primary_colors color_palette
  /\ top outfit !! "color_suggestion"
     = Some (Text (default "#FFFFFF" (head (primary_colors color_palette))))
  /\ bottom outfit !! "color_suggestion"
     = Some (Text (default "#000000"
                     (primary_colors color_palette !! 1%nat)))
  /\ footwear outfit !! "color_suggestion" = Some (Text "neutral")
  /\ grooming_notes outfit
     = _get_grooming_notes (template_key occasion) (lower gender)
  /\ exists by_gender template tops bottoms shoes,
       assoc OCCASION_TEMPLATES (template_key occasion) = Some by_gender
       /\ by_gender !! lower gender = Some template
       /\ template !! "tops" = Some tops
       /\ template !! "bottoms" = Some bottoms
       /\ template !! "footwear" = Some shoes
       /\ template !! "accessories" = Some (accessories outfit)
       /\ (exists t alts, top outfit !! "type" = Some (Text t)
                          /\ top outfit !! "alternatives" = Some (Items alts)
                          /\ tops = t :: alts)
       /\ (exists t alts, bottom outfit !! "type" = Some (Text t)
                          /\ bottom outfit !! "alternatives" = Some (Items alts)
                          /\ bottoms = t :: alts)
       /\ (exists t alts, footwear outfit !! "type" = Some (Text t)
                          /\ footwear outfit !! "alternatives" = Some (Items alts)
                          /\ shoes = t :: alts).
Proof.
  intros Hrun.
  destruct (get_occasion_outfit_spec occasion gender color_palette face_shape)
    as (bg & Hbg & _ & _ & Hspec).
  destruct (bg !! lower gender) as [template|] eqn:Htemplate;
    [|rewrite Hspec in Hrun; discriminate Hrun].
  destruct Hspec as (a & aa & b & bb & f & ff & acc & Ha & Hb & Hf & Hacc & Heq).
  rewrite Heq in Hrun. inversion Hrun; subst outfit; clear Hrun.
  cbn [OccasionStylingEngine.occasion top bottom footwear accessories
       grooming_notes color_suggestions].
  split; [reflexivity|]. split; [reflexivity|].
  split.
  { unfold garment. cbn [list_to_map foldr fst snd]. simplify_map_eq.
    destruct (primary_colors color_palette); reflexivity. }
  split.
  { unfold garment. cbn [list_to_map foldr fst snd]. simplify_map_eq.
    destruct (primary_colors color_palette) as [|c1 [|c2 l]]; reflexivity. }
  split.
  { unfold garment. cbn [list_to_map foldr fst snd]. simplify_map_eq.
    reflexivity. }
  split; [reflexivity|].
  exists bg, template, (a :: aa), (b :: bb), (f :: ff).
  split; [exact Hbg|]. split; [exact Htemplate|].
  split; [exact Ha|]. split; [exact Hb|]. split; [exact Hf|].
  split; [exact Hacc|].
  unfold garment. cbn [list_to_map foldr fst snd].
  repeat split; eexists _, _; simplify_map_eq; repeat split; reflexivity.
Qed.

(** The occasions of [get_all_occasions] are their own keys, and any
    other occasion is dressed as "casual". *)
Lemma template_key_cases (occasion : string) :
  In (template_key occasion) get_all_occasions
  /\ (In (normalise occasion) get_all_occasions ->
      template_key occasion = normalise occasion)
  /\ (~ In (normalise occasion) get_all_occasions ->
      template_key occasion = "casual").
Proof.
  unfold template_key, get_all_occasions.
  destruct (assoc OCCASION_TEMPLATES (normalise occasion)) as [bg|] eqn:Hbg.
  - apply assoc_listed in Hbg.
    assert (Hin : In (normalise occasion) (map fst OCCASION_TEMPLATES))
      by (apply (in_map fst) in Hbg; exact Hbg).
    split; [exact Hin|]. split; [reflexivity | contradiction].
  - split; [vm_compute; tauto|]. split; [|reflexivity].
    intros Hin. exfalso. apply in_map_iff in Hin.
    destruct Hin as ([k v] & Hk & Hkv). cbn [fst] in Hk. subst k.
    unfold assoc in Hbg.
    destruct (find _ OCCASION_TEMPLATES) as [kv|] eqn:Hfind; [discriminate|].
    apply (find_none _ _ Hfind) in Hkv. cbn [fst] in Hkv.
    rewrite String.eqb_refl in Hkv. discriminate Hkv.
Qed.

Lemma listed_occasion_normal (occasion : string) :
  In occasion get_all_occasions ->
  normalise occasion = occasion /\ template_key occasion = occasion.
Proof.
  intros Hin.
  assert (Hnormal : normalise occasion = occasion).
  { vm_compute in Hin. unfold normalise.
    repeat (destruct Hin as [<-|Hin];
            [case_of_literals; vm_compute; reflexivity|]).
    contradiction. }
  split; [exact Hnormal|].
  destruct (template_key_cases occasion) as (_ & Hkey & _).
  rewrite Hkey; rewrite Hnormal; [reflexivity | exact Hin].
Qed.

(** An occasion is dressed as its key. *)
Lemma occasion_as_key (occasion gender : string) (color_palette : list string)
    (face_shape : string) :
  let key := replace " " "_" (lower occasion) in
  let listed := if contains get_all_occasions key then key else "casual" in
  In listed get_all_occasions
  /\ match get_occasion_outfit occasion gender color_palette face_shape,
           get_occasion_outfit listed gender color_palette face_shape with
     | Returns outfit, Returns outfit' =>
         OccasionStylingEngine.occasion outfit = occasion
         /\ OccasionStylingEngine.occasion outfit' = listed
         /\ top outfit = top outfit'
         /\ bottom outfit = bottom outfit'
         /\ footwear outfit = footwear outfit'
         /\ accessories outfit = accessories outfit'
         /\ grooming_notes outfit = grooming_notes outfit'
         /\ color_suggestions outfit = color_suggestions outfit'
     | Raises e, Raises e' => e = e'
     | _, _ => False
     end.
Proof.
  cbv zeta. fold (normalise occasion).
  set (listed := if contains get_all_occasions (normalise occasion)
                 then normalise occasion else "casual").
  assert (Hkey : template_key occasion = listed).
  { destruct (template_key_cases occasion) as (_ & Hin & Hout). unfold listed.
    destruct (contains get_all_occasions (normalise occasion)) eqn:Hc.
    - apply Hin. apply contains_spec. exact Hc.
    - apply Hout. intros Hin'. apply contains_spec in Hin'.
      rewrite Hin' in Hc. discriminate Hc. }
  assert (Hlisted : In listed get_all_occasions).
  { rewrite <- Hkey. apply template_key_cases. }
  split; [exact Hlisted|].
  destruct (listed_occasion_normal listed Hlisted) as [_ Hkey'].
  destruct (get_occasion_outfit_spec occasion gender color_palette face_shape)
    as (bg & Hbg & _ & _ & Hrun).
  destruct (get_occasion_outfit_spec listed gender color_palette face_shape)
    as (bg' & Hbg' & _ & _ & Hrun').
  rewrite Hkey in Hbg, Hrun. rewrite Hkey' in Hbg', Hrun'.
  rewrite Hbg in Hbg'. inversion Hbg'; subst bg'. clear Hbg'.
  destruct (bg !! lower gender) as [template|].
  - destruct Hrun as (a & aa & b & bb & f & ff & acc
                      & Ha & Hb & Hf & Hacc & ->).
    destruct Hrun' as (a' & aa' & b' & bb' & f' & ff' & acc'
                       & Ha' & Hb' & Hf' & Hacc' & ->).
    rewrite Ha in Ha'. rewrite Hb in Hb'. rewrite Hf in Hf'.
    rewrite Hacc in Hacc'.
    inversion Ha'; inversion Hb'; inversion Hf'; inversion Hacc'; subst.
    cbn [OccasionStylingEngine.occasion top bottom footwear accessories
         grooming_notes color_suggestions].
    repeat split.
  - rewrite Hrun, Hrun'. reflexivity.
Qed.

End OccasionOutfits.

(** ** Further properties of the skin-tone detector *)

Section SkinToneFurther.
Import SkinToneDetector.
Local Open Scope Q_scope.

(** X1.  [_classify_fitzpatrick] returns for every luminance, and the level
    is fixed by the thresholds 75, 65, 55, 45 and 35 alone, bounds
    included: a luminance on a threshold gets the lighter level, one
    below 35 (negative ones too) gets level 6, one of 75 or more (100
    and beyond too) gets level 1; the confidence is between 0.7 and
    0.98.  The same holds for every binary64 value, where a NaN, which
    is below no threshold and above none, gets level 6 at confidence
    0.85. *)
Theorem fitzpatrick_level_by_threshold :
  (forall L : Q,
      exists ft c,
        _classify_fitzpatrick L = Ok (ft, c)
        /\ (value ft = 1%Z <-> 75 <= L)
        /\ (value ft = 2%Z <-> 65 <= L < 75)
        /\ (value ft = 3%Z <-> 55 <= L < 65)
        /\ (value ft = 4%Z <-> 45 <= L < 55)
        /\ (value ft = 5%Z <-> 35 <= L < 45)
        /\ (value ft = 6%Z <-> L < 35)
        /\ 7 # 10 <= c <= 98 # 100)
  /\ (forall L : float,
        exists ft c,
          _classify_fitzpatrick L = Ok (ft, c)
          /\ (value ft = 1%Z <-> PrimFloat.leb (lit 75) L = true)
          /\ (value ft = 2%Z
              <-> PrimFloat.leb (lit 65) L = true
                  /\ PrimFloat.ltb L (lit 75) = true)
          /\ (value ft = 3%Z
              <-> PrimFloat.leb (lit 55) L = true
                  /\ PrimFloat.ltb L (lit 65) = true)
          /\ (value ft = 4%Z
              <-> PrimFloat.leb (lit 45) L = true
                  /\ PrimFloat.ltb L (lit 55) = true)
          /\ (value ft = 5%Z
              <-> PrimFloat.leb (lit 35) L = true
                  /\ PrimFloat.ltb L (lit 45) = true)
          /\ (value ft = 6%Z <-> PrimFloat.leb (lit 35) L = false)
          /\ PrimFloat.leb (lit (7 # 10)) c = true
          /\ PrimFloat.leb c (lit (98 # 100)) = true)
  /\ _classify_fitzpatrick PrimFloat.nan = Ok (TYPE_VI, lit (85 # 100)).
Proof.
  split; [exact classify_fitzpatrick_by_threshold|].
  split; [exact classify_fitzpatrick_by_threshold_float|].
  vm_compute. reflexivity.
Qed.

(** X2.  The level never rises with the luminance: of two luminances the
    greater one gets a level that is at most the level of the smaller
    one, in exact arithmetic and in binary64. *)
Theorem fitzpatrick_level_antitone :
  (forall (L1 L2 : Q) ft1 c1 ft2 c2,
      L1 <= L2 ->
      _classify_fitzpatrick L1 = Ok (ft1, c1) ->
      _classify_fitzpatrick L2 = Ok (ft2, c2) ->
      (value ft2 <= value ft1)%Z)
  /\ (forall (L1 L2 : float) ft1 c1 ft2 c2,
        PrimFloat.leb L1 L2 = true ->
        _classify_fitzpatrick L1 = Ok (ft1, c1) ->
        _classify_fitzpatrick L2 = Ok (ft2, c2) ->
        (value ft2 <= value ft1)%Z).
Proof.
  split.
  - exact classify_fitzpatrick_antitone.
  - exact classify_fitzpatrick_antitone_float.
Qed.

(** X3.  What is sampled from a region of at least two rows and two
    columns, when [cvtColor] keeps the shape: the LAB pixels at which
    the skin mask is set, row by row, when they are ten or more; and
    otherwise, whatever the mask, the centre sample, the LAB pixels of
    the rows from h//4 up to 3h//4 and the columns from w//4 up to
    3w//4, row by row, which are (3h//4 - h//4)(3w//4 - w//4) in number.
    The list returned is never empty. *)
Theorem extract_skin_lab_values_fallback {T} `{PyFloat T} (cv : OpenCV T)
    (region : Image) :
  same_shape (cvtColor_BGR2LAB cv region) region ->
  (2 <= shape0 region)%nat -> (2 <= shape1 region)%nat ->
  let lab := cvtColor_BGR2LAB cv region in
  let skin := masked_pixels lab (skin_mask cv region) in
  exists l,
    _extract_skin_lab_values cv region = Some l
    /\ l <> []
    /\ ((10 <= Z.of_nat (length skin))%Z -> l = skin)
    /\ ((Z.of_nat (length skin) < 10)%Z ->
        l = centre_pixels lab region
        /\ Z.of_nat (length l) = centre_count region).
Proof.
  intros Hlab Hh Hw lab skin.
  destruct (extract_skin_lab_values_samples cv region Hlab Hh Hw)
    as [Hl Hcount].
  fold lab in Hl, Hcount. fold skin in Hl.
  eexists. split; [exact Hl|].
  split; [exact (extract_skin_lab_values_nonempty cv region _ Hl)|].
  destruct (Z.ltb_spec (Z.of_nat (length skin)) 10) as [Hfew|Hmany].
  - split; [lia|]. intros _. split; [reflexivity | exact Hcount].
  - split; [reflexivity | lia].
Qed.

Lemma extract_skin_lab_values_fallback_witness :
  exists l,
    _extract_skin_lab_values (T := Q) pointwise_cv half_dark_image = Some l
    /\ l <> []
    /\ l = masked_pixels half_dark_image (skin_mask (T := Q) pointwise_cv
                                                     half_dark_image)
    /\ length l = 600%nat.
Proof.
  destruct (extract_skin_lab_values_fallback (T := Q) pointwise_cv
              half_dark_image)
    as (l & Hl & Hne & Hskin & _).
  - split; reflexivity.
  - cbn. lia.
  - cbn. lia.
  - exists l. split; [exact Hl|]. split; [exact Hne|].
    assert (Heq : l = masked_pixels half_dark_image
                        (skin_mask (T := Q) pointwise_cv half_dark_image))
      by (apply Hskin; vm_compute; discriminate).
    split; [exact Heq|]. rewrite Heq. vm_compute. reflexivity.
Defined.

(** X4.  Whatever the arithmetic, a result of
    [SkinToneDetector.analyze] is consistent with the mean LAB values it
    stores: its level and its undertone are those of
    [_classify_fitzpatrick] and [_classify_undertone] on the stored
    values, its confidence is the sum of their two confidences divided
    by 2, and its colour is [_lab_to_hex] of the stored values.  In
    exact arithmetic [analyze] returns for every list of regions. *)
Theorem skin_tone_analyze_consistent :
  (forall (T : Type) (H : PyFloat T) (cv : OpenCV T)
          (skin_regions : list Image),
      on_result
        (fun o => forall r, o = Some r ->
           exists cf cu,
             _classify_fitzpatrick (fst (fst (lab_values r)))
             = Ok (fitzpatrick_type r, cf)
             /\ _classify_undertone (snd (fst (lab_values r)))
                                    (snd (lab_values r))
                = Ok (undertone r, cu)
             /\ confidence r = fdiv (fadd cf cu) (lit 2)
             /\ hex_color r
                = _lab_to_hex cv (fst (fst (lab_values r)))
                              (snd (fst (lab_values r)))
                              (snd (lab_values r)))
        (analyze cv skin_regions))
  /\ (forall (cv : OpenCV Q) (skin_regions : list Image),
        exists o, analyze cv skin_regions = Ok o).
Proof.
  split.
  - intros T H cv skin_regions.
    exact (skin_tone_analyze_consistency cv skin_regions).
  - exact skin_tone_analyze_returns.
Qed.

End SkinToneFurther.

(** ** Further properties of the face-shape classifier *)

Section FaceShapeFurther.
Import FaceShapeClassifier.
Local Open Scope Q_scope.

(** X6.  Ties are broken by the order of the score table: [classify]
    returns the first category, in the order round, oblong, heart,
    triangle, square, diamond, oval, whose score is the maximum (every
    score before it is strictly smaller, every score after it is at
    most equal), unless that maximum is below 0.3, when it returns
    oval; the confidence is between 0.6 and 0.98. *)
Theorem classify_first_maximum (m : gmap string Q) :
  exists r pre s best post,
    classify m = Ok r
    /\ (let '(lw, fj, ja, cfr, cjr) := quantities m in
        scores lw fj ja cfr cjr) = pre ++ (s, best) :: post
    /\ Forall (fun kv => snd kv < best) pre
    /\ Forall (fun kv => snd kv <= best) post
    /\ (3 # 10 <= best -> shape r = s)
    /\ (best < 3 # 10 -> shape r = OVAL)
    /\ 6 # 10 <= confidence r <= 98 # 100.
Proof.
  destruct (classify_first_exact m)
    as (r & pre & s & best & post & Hr & Hsc & Hpre & Hpost & Hs & Ho).
  exists r, pre, s, best, post.
  repeat (split; [assumption|]).
  destruct (classify_winner_exact m) as (r' & Hr' & Hw).
  rewrite Hr in Hr'. inversion Hr'; subst r'.
  destruct (quantities m) as [[[[lw fj] ja] cfr] cjr].
  apply winner_confidence in Hw. apply Hw.
Qed.

(** X7.  Whatever the measurements, each of the seven scores is between
    0 and its cap: 1 for every category but oblong, whose score may
    reach 1.2, and triangle, whose score stays at or below 0.8. *)
Theorem scores_within_caps (lw fj ja cfr cjr : Q) :
  map fst (scores lw fj ja cfr cjr)
  = [ROUND; OBLONG; HEART; TRIANGLE; SQUARE; DIAMOND; OVAL]
  /\ Forall2 (fun kv cap => 0 <= snd kv <= cap)
             (scores lw fj ja cfr cjr)
             [1; 12 # 10; 1; 8 # 10; 1; 1; 1].
Proof.
  split; [reflexivity | apply scores_bounds].
Qed.

End FaceShapeFurther.

(** ** Further properties of the baldness detector *)

Section BaldnessFurther.
Import BaldnessDetector.

(** X9.  In exact arithmetic a result of [BaldnessDetector.analyze]
    has confidence 0.5 only as the default result for a missing or
    empty scalp region; every measured result has a confidence between
    0.7 and 0.95.  [analyze] never returns None, and when it raises, it
    raises what [cv2.dilate] raised on the texture mask of a scalp
    region that is not empty. *)
Theorem baldness_confidence_range (cv : OpenCV Q) (image : Image)
    (face_bbox : Z * Z * Z * Z) :
  match analyze cv image face_bbox with
  | Ok o =>
      exists r,
        o = Some r
        /\ (r = default_result \/ (7 # 10 <= confidence r <= 95 # 100)%Q)
  | Raise e =>
      exists region,
        _extract_scalp_region (T := Q) image face_bbox = Ok (Some region)
        /\ size region <> 0
        /\ dilate_call cv region = Raise e
  end.
Proof.
  pose proof (baldness_analyze_confidence cv image face_bbox) as Hconf.
  pose proof (baldness_analyze_outcome cv image face_bbox) as Hout.
  destruct (analyze cv image face_bbox) as [o|e]; [exact Hconf | exact Hout].
Qed.

(** X28.  With a binding of OpenCV whose [dilate] rejects boolean
    arrays, the hair-coverage measurement raises on every region that
    is not empty: [_calculate_hair_coverage] raises the error of
    [cv2.dilate], so does [BaldnessDetector.analyze] on every image and
    box whose scalp region is extracted and not empty, and so does, in
    exact arithmetic, [FaceAnalyzer.analyze] when the box of the
    detected face is such a box. *)
Theorem hair_coverage_rejected :
  (forall (T : Type) (H : PyFloat T) (cv : OpenCV T),
      rejects_bool cv ->
      (forall region : Image,
          size region <> 0 ->
          _calculate_hair_coverage cv region = Raise Cv2Error)
      /\ (forall (image : Image) (face_bbox : Z * Z * Z * Z) (region : Image),
            _extract_scalp_region image face_bbox = Ok (Some region) ->
            size region <> 0 ->
            analyze cv image face_bbox = Raise Cv2Error))
  /\ (forall (cv : OpenCV Q) (face_detector : FaceAnalyzer.FaceDetector Q)
             (image : Image) (detection : FaceAnalyzer.FaceDetectionResult Q)
             (region : Image),
        rejects_bool cv ->
        FaceAnalyzer.detect face_detector image = Some detection ->
        _extract_scalp_region (T := Q) image (FaceAnalyzer.bbox detection)
        = Ok (Some region) ->
        size region <> 0 ->
        FaceAnalyzer.analyze face_detector cv image = Raise Cv2Error).
Proof.
  assert (Hcalc : forall (T : Type) (H : PyFloat T) (cv : OpenCV T),
             rejects_bool cv ->
             forall region : Image,
               size region <> 0 ->
               _calculate_hair_coverage cv region = Raise Cv2Error).
  { intros T H cv Hcv region Hsize.
    pose proof (calculate_hair_coverage_outcome cv region) as Hrun.
    rewrite (proj2 (Z.eqb_neq _ _) Hsize) in Hrun.
    unfold dilate_call in Hrun. rewrite Hcv in Hrun. exact Hrun. }
  assert (Hanalyze : forall (T : Type) (H : PyFloat T) (cv : OpenCV T),
             rejects_bool cv ->
             forall (image : Image) (face_bbox : Z * Z * Z * Z)
                    (region : Image),
               _extract_scalp_region image face_bbox = Ok (Some region) ->
               size region <> 0 ->
               analyze cv image face_bbox = Raise Cv2Error).
  { intros T H cv Hcv image face_bbox region Hregion Hsize.
    pose proof (analyze_reports_coverage cv image face_bbox region
                  Hregion Hsize) as Hrun.
    rewrite (Hcalc T H cv Hcv region Hsize) in Hrun. exact Hrun. }
  split.
  - intros T H cv Hcv. split; [exact (Hcalc T H cv Hcv)|].
    exact (Hanalyze T H cv Hcv).
  - intros cv face_detector image detection region Hcv Hdetect Hregion Hsize.
    pose proof (analyze_outcome_exact face_detector cv image) as Hout.
    pose proof (Hanalyze Q _ cv Hcv image (FaceAnalyzer.bbox detection)
                  region Hregion Hsize) as Hhair.
    unfold FaceAnalyzer.analyze in *. rewrite Hdetect in *.
    destruct (FaceAnalyzer.get_cheek_regions face_detector image
                (FaceAnalyzer.landmarks detection))
      as [left_cheek right_cheek].
    match goal with
    | |- context [SkinToneDetector.analyze cv ?rs] =>
        destruct (skin_tone_analyze_returns cv rs) as [st ->]
    end.
    cbn [bind].
    match goal with
    | |- context [FaceShapeClassifier.classify ?m] =>
        destruct (classify_winner_exact m) as (fs & -> & _)
    end.
    cbn [bind]. rewrite Hhair. reflexivity.
Qed.

Lemma hair_coverage_rejected_witness :
  analyze (T := float) strict_cv half_dark_image (5, 30, 20, 40)
  = Raise Cv2Error.
Proof.
  refine (proj2 (proj1 hair_coverage_rejected float _ strict_cv _)
                half_dark_image (5, 30, 20, 40)
                (slice2 half_dark_image 10 30 3 27) _ _).
  - intros src kernel iterations. reflexivity.
  - vm_compute. reflexivity.
  - vm_compute. discriminate.
Defined.

End BaldnessFurther.

(** ** Further properties of the orchestrator *)

Section OrchestratorFurther.
Import FaceAnalyzer.

(** X10.  In every result of [FaceAnalyzer.analyze], [detected] tells
    whether the detector found a face, the colour season is the season
    [get_season] gives for the level and the undertone of the skin-tone
    result and is absent exactly when that result is, it is one of
    "spring", "summer", "autumn" and "winter", and a result without a
    face has no sub-result. *)
Theorem analyze_season_follows_tone {T} `{PyFloat T}
    (face_detector : FaceDetector T) (cv : OpenCV T) (image : Image) :
  on_result
    (fun r =>
       (detected r = true <-> detect face_detector image <> None)
       /\ season_follows_tone r
       /\ (forall s, color_season r = Some s -> In s season_names)
       /\ (detected r = false -> sub_confidences r = []))
    (analyze face_detector cv image).
Proof. exact (analyze_season_present face_detector cv image). Qed.

(** X11.  The overall confidence of a result of
    [FaceAnalyzer.analyze].  Whatever the arithmetic, it is 0 without a
    face, and with a face it is the quotient of the sum and the number
    of the confidences of the two or three sub-results present.  In
    exact arithmetic that quotient is their mean and lies between 0.55
    and 0.965. *)
Theorem analyze_overall_confidence_mean :
  (forall (T : Type) (H : PyFloat T) (face_detector : FaceDetector T)
          (cv : OpenCV T) (image : Image),
      on_result
        (fun r =>
           (detected r = false -> overall_confidence r = lit 0)
           /\ (detected r = true ->
               (2 <= length (sub_confidences r) <= 3)%nat
               /\ py_div (py_sum (sub_confidences r))
                         (of_int (Z.of_nat (length (sub_confidences r))))
                  = Ok (overall_confidence r)))
        (analyze face_detector cv image))
  /\ (forall (face_detector : FaceDetector Q) (cv : OpenCV Q) (image : Image),
        on_result
          (fun r =>
             detected r = true ->
             (overall_confidence r
              == py_sum (sub_confidences r)
                 / inject_Z (Z.of_nat (length (sub_confidences r))))%Q
             /\ (55 # 100 <= overall_confidence r <= 965 # 1000)%Q)
          (analyze face_detector cv image)).
Proof.
  split.
  - intros T H face_detector cv image.
    exact (analyze_overall_mean face_detector cv image).
  - intros face_detector cv image.
    pose proof (analyze_overall_confidence face_detector cv image) as Hconf.
    destruct (analyze face_detector cv image) as [r|e]; [|exact I].
    cbn [on_result] in *. intros Hdet.
    destruct Hconf as [_ Hconf]. destruct (Hconf Hdet) as (Hmean & _ & Hrange).
    split; [exact Hmean | exact Hrange].
Qed.

End OrchestratorFurther.

(** ** Properties of the detector *)

Section DetectorFurther.
Import FaceAnalyzer Detector.

(** X12.  [FaceDetector.detect] in exact arithmetic: without a face it
    returns None; for the first face it returns as many landmarks as
    Face Mesh gave, confidence 0.95, the image shape, and a bounding box
    of non-negative width and height that holds the pixel (the
    coordinates truncated to integers) of every landmark; a face with
    no landmark raises IndexError. *)
Theorem detect_bounding_box (lib : Libraries Q) (image : Image) :
  match face_mesh_process lib (cvtColor_BGR2RGB lib image) with
  | [] => detect lib image = Returns None
  | [] :: _ => detect lib image = Raises IndexError
  | (lm :: lms) :: _ =>
      exists d,
        detect lib image = Returns (Some d)
        /\ length (landmarks d) = length (lm :: lms)
        /\ confidence d = (95 # 100)%Q
        /\ image_shape d
           = (Z.of_nat (shape0 image), Z.of_nat (shape1 image))
        /\ box_holds (bbox d) (landmarks d)
  end.
Proof. exact (detect_exact lib image). Qed.

(** X14.  Index errors of the detector: [extract_roi] returns when every
    index it is given is a row of the landmark array and raises
    IndexError as soon as one is not; so [get_cheek_regions] returns
    with 428 landmarks or more and raises IndexError with fewer, and
    [get_forehead_region] and [get_face_measurements] return with 455
    landmarks or more and raise IndexError with fewer. *)
Theorem detector_index_errors {T} `{PyFloat T} (lib : Libraries T)
    (image : Image) (landmarks : Landmarks T) :
  (forall indices,
      Forall (fun i => (i < length landmarks)%nat) indices ->
      exists roi, extract_roi lib image landmarks indices = Returns roi)
  /\ (forall indices,
        Exists (fun i => (length landmarks <= i)%nat) indices ->
        extract_roi lib image landmarks indices = Raises IndexError)
  /\ ((428 <= length landmarks)%nat ->
      exists regions, get_cheek_regions lib image landmarks = Returns regions)
  /\ ((length landmarks < 428)%nat ->
      get_cheek_regions lib image landmarks = Raises IndexError)
  /\ ((455 <= length landmarks)%nat ->
      (exists roi, get_forehead_region lib image landmarks = Returns roi)
      /\ exists m, get_face_measurements lib landmarks = Returns m)
  /\ ((length landmarks < 455)%nat ->
      get_forehead_region lib image landmarks = Raises IndexError
      /\ get_face_measurements lib landmarks = Raises IndexError).
Proof.
  split; [exact (extract_roi_returns lib image landmarks)|].
  split; [exact (extract_roi_raises lib image landmarks)|].
  split; [exact (proj1 (get_cheek_regions_outcome lib image landmarks))|].
  split; [exact (proj2 (get_cheek_regions_outcome lib image landmarks))|].
  split.
  - intros Hlen.
    split; [exact (proj1 (get_forehead_region_outcome lib image landmarks) Hlen)|].
    destruct (get_face_measurements_returns lib landmarks Hlen)
      as (fl & fw & fow & jw & ja & ->).
    eexists. reflexivity.
  - intros Hlen.
    split; [exact (proj2 (get_forehead_region_outcome lib image landmarks) Hlen)|].
    exact (get_face_measurements_raises lib landmarks Hlen).
Qed.

(** X15.  With 455 landmarks or more [get_face_measurements] returns a
    dict of exactly the eight measurement keys; its "cheekbone_width" is
    its "face_width" (both are the distance of landmarks 234 and 454);
    and each ratio is the quotient when its denominator is positive and
    0 otherwise, so the ratios are never the result of a division by
    zero. *)
Theorem face_measurements_keys {T} `{PyFloat T} (lib : Libraries T)
    (landmarks : Landmarks T) :
  (455 <= length landmarks)%nat ->
  exists m,
    get_face_measurements lib landmarks = Returns m
    /\ dom m = measurement_keys
    /\ m !! "cheekbone_width" = m !! "face_width"
    /\ (exists fl fw,
          m !! "face_length" = Some fl /\ m !! "face_width" = Some fw
          /\ m !! "length_width_ratio"
             = Some (if flt (lit 0) fw then np_true_divide fl fw else lit 0))
    /\ (exists fo jw,
          m !! "forehead_width" = Some fo /\ m !! "jaw_width" = Some jw
          /\ m !! "forehead_jaw_ratio"
             = Some (if flt (lit 0) jw then np_true_divide fo jw else lit 0)).
Proof.
  intros Hlen.
  destruct (get_face_measurements_returns lib landmarks Hlen)
    as (fl & fw & fow & jw & ja & ->).
  eexists. split; [reflexivity|].
  cbn [list_to_map foldr fst snd].
  split.
  { rewrite !dom_insert_L, dom_empty_L. unfold measurement_keys.
    set_solver. }
  split; [simplify_map_eq; reflexivity|].
  split.
  - exists fl, fw. repeat split; simplify_map_eq; reflexivity.
  - exists fow, jw. repeat split; simplify_map_eq; reflexivity.
Qed.

Lemma face_measurements_keys_witness :
  exists m,
    get_face_measurements sample_libraries (repeat (1 # 2, 1 # 2, 0)%Q 455)
    = Returns m
    /\ dom m = measurement_keys.
Proof.
  destruct (face_measurements_keys sample_libraries
              (repeat (1 # 2, 1 # 2, 0)%Q 455))
    as (m & Hm & Hdom & _).
  - rewrite repeat_length. lia.
  - exists m. split; [exact Hm | exact Hdom].
Defined.

End DetectorFurther.

(** ** The orchestrator on the detector, and its response *)

Section AnalyzerFurther.
Import FaceAnalyzer.

(** X16.  [FaceAnalyzer.analyze] on the detector of [detector.py]: an
    exception of [detect] passes through; a face of fewer than 455
    landmarks raises IndexError in the region or measurement calls; and
    otherwise the run is the run of the orchestrator on the values the
    four detector calls returned, so that every property of the
    orchestrator's results holds of it. *)
Theorem analyze_on_detector {T} `{PyFloat T} (lib : Detector.Libraries T)
    (cv : OpenCV T) (image : Image) :
  match Detector.detect lib image with
  | Raises e => Analyzer.analyze lib cv image = Raises e
  | Returns None =>
      Analyzer.analyze lib cv image
      = of_res (analyze (Analyzer.returned None (image, image) image ∅)
                        cv image)
  | Returns (Some d) =>
      match Detector.get_cheek_regions lib image (landmarks d),
            Detector.get_forehead_region lib image (landmarks d),
            Detector.get_face_measurements lib (landmarks d) with
      | Returns cheeks, Returns forehead, Returns measurements =>
          (455 <= length (landmarks d))%nat
          /\ Analyzer.analyze lib cv image
             = of_res (analyze (Analyzer.returned (Some d) cheeks forehead
                                                  measurements)
                               cv image)
      | _, _, _ =>
          (length (landmarks d) < 455)%nat
          /\ Analyzer.analyze lib cv image = Raises IndexError
      end
  end.
Proof. exact (analyze_with_detector lib cv image). Qed.

(** X18.  [to_dict] writes "detected" and "overall_confidence" always,
    one nested dict for each sub-result present and none for an absent
    one, and "color_season" only for a season that is not the empty
    string.  The nested dicts have fixed keys: the skin-tone dict does
    not carry the LAB values, nor the face-shape dict the
    measurements. *)
Theorem to_dict_keys_exact {T} (r : FaceAnalysisResult T) :
  dom (Analyzer.to_dict r) = result_keys r
  /\ Analyzer.to_dict r !! "detected" = Some (JBool (detected r))
  /\ Analyzer.to_dict r !! "overall_confidence"
     = Some (JFloat (overall_confidence r))
  /\ (forall s, Analyzer.to_dict r !! "color_season" = Some (JStr s) ->
      color_season r = Some s /\ s <> "")
  /\ nested_keys (Analyzer.to_dict r) "skin_tone"
     = option_map (fun _ => skin_tone_keys) (skin_tone r)
  /\ nested_keys (Analyzer.to_dict r) "face_shape"
     = option_map (fun _ => face_shape_keys) (face_shape r)
  /\ nested_keys (Analyzer.to_dict r) "hair_coverage"
     = option_map (fun _ => hair_coverage_keys) (hair_coverage r).
Proof.
  split; [exact (to_dict_keys r)|].
  destruct (to_dict_scalars r) as (Hd & Ho & Hs).
  split; [exact Hd|]. split; [exact Ho|]. split; [exact Hs|].
  exact (to_dict_nested r).
Qed.

(** X19.  The response of an analysis that returned: with a face it has
    "detected", "overall_confidence", "face_shape" and "hair_coverage",
    and "skin_tone" and "color_season" come together or not at all;
    without a face it has "detected" and "overall_confidence" only. *)
Theorem analyze_response_keys {T} `{PyFloat T} (lib : Detector.Libraries T)
    (cv : OpenCV T) (image : Image) :
  on_return
    (fun result =>
       if detected result
       then ({[ "detected"; "overall_confidence"; "face_shape";
                "hair_coverage" ]} : gset string)
              ⊆ dom (Analyzer.to_dict result)
            /\ ("skin_tone" ∈ dom (Analyzer.to_dict result)
                <-> "color_season" ∈ dom (Analyzer.to_dict result))
       else dom (Analyzer.to_dict result)
            = ({[ "detected"; "overall_confidence" ]} : gset string))
    (Analyzer.analyze lib cv image).
Proof.
  destruct (Analyzer.analyze lib cv image) as [result|e] eqn:Hresult;
    [|exact I].
  exact (analyze_to_dict_keys lib cv image result Hresult).
Qed.

End AnalyzerFurther.

Section EndpointFurther.
Import FaceAnalyzer AnalysisAPI.


End EndpointFurther.

(** ** The recommendation engines *)

Section RecommendationsFurther.
Import ColorTheoryEngine SeasonalPalettes RecommendationEngine.
Context `{PyStr}.

(** X21.  [determine_season] by cases: a level of 3 or less gives spring
    for a warm or neutral undertone and summer for any other; a level
    above 3 gives autumn for a warm undertone and winter for any other,
    neutral included.  The undertone is compared in lower case.  On the
    values of the analysis it gives the season of
    [SkinToneDetector.get_season] except for a neutral undertone on a
    level of 3 or less, where the two differ. *)
Theorem determine_season_by_cases (fitzpatrick_type : Z) (undertone : string) :
  (let u := lower undertone in
   (determine_season fitzpatrick_type undertone = SPRING
    <-> fitzpatrick_type <= 3 /\ (u = "warm" \/ u = "neutral"))
   /\ (determine_season fitzpatrick_type undertone = SUMMER
       <-> fitzpatrick_type <= 3 /\ u <> "warm" /\ u <> "neutral")
   /\ (determine_season fitzpatrick_type undertone = AUTUMN
       <-> 3 < fitzpatrick_type /\ u = "warm")
   /\ (determine_season fitzpatrick_type undertone = WINTER
       <-> 3 < fitzpatrick_type /\ u <> "warm"))
  /\ determine_season fitzpatrick_type (lower undertone)
     = determine_season fitzpatrick_type undertone
  /\ forall (f : SkinToneDetector.FitzpatrickType)
            (u : SkinToneDetector.Undertone),
       value (determine_season (SkinToneDetector.value f)
                               (SkinToneDetector.Undertone_value u))
       = SkinToneDetector.get_season f u
       <-> ~ (u = SkinToneDetector.NEUTRAL /\ SkinToneDetector.value f <= 3).
Proof.
  split; [exact (determine_season_cases fitzpatrick_type undertone)|].
  split; [exact (determine_season_ignores_case fitzpatrick_type undertone)|].
  exact season_rules_agree.
Qed.

(** X22.  Every season has a palette, which [get_palette] returns; no
    colour a palette tells to avoid is among its best, accent or neutral
    colours; and the metal is gold for spring and autumn, silver for
    summer and winter. *)
Theorem palette_consistent (season : ColorSeason) :
  exists p,
    get_palette season = Returns p
    /\ In (season, p) SEASONAL_PALETTES
    /\ (forall c, In c (avoid_colors p) ->
        ~ In c (best_colors p ++ accent_colors p ++ neutral_colors p))
    /\ metal_preference p
       = match season with
         | SPRING | AUTUMN => "gold"
         | SUMMER | WINTER => "silver"
         end.
Proof.
  destruct (get_palette_returns season) as (p & Hp & Hin & Hapart & Hmetal).
  exists p. split; [exact Hp|]. split; [exact Hin|].
  split; [|exact Hmetal].
  intros c. exact (avoids_apart_spec p c Hapart).
Qed.

(** X23.  [generate_recommendations] returns for every input, whatever
    the strings: unknown face shapes and body types get the entries of
    "oval" and "mesomorph".  The result has "alternative_styling", and a
    "hair" reasoning, exactly when the hair coverage is "bald" or
    "thinning" in any letter case, and then the hairstyles are the
    three short ones; the beard styles are empty unless the gender is
    "male" in any letter case, and not empty then. *)
Theorem generate_recommendations_total (fitzpatrick_type : Z)
    (undertone face_shape body_type hair_coverage gender : string) :
  exists rec,
    generate_recommendations fitzpatrick_type undertone face_shape body_type
                             hair_coverage gender = Returns rec
    /\ rec !! "color_analysis" ≫= (.!! "season")
       = Some (Text (value (determine_season fitzpatrick_type undertone)))
    /\ (is_Some (rec !! "alternative_styling")
        <-> lower hair_coverage = "bald" \/ lower hair_coverage = "thinning")
    /\ (is_Some (rec !! "reasoning" ≫= (.!! "hair"))
        <-> lower hair_coverage = "bald" \/ lower hair_coverage = "thinning")
    /\ (lower hair_coverage = "bald" \/ lower hair_coverage = "thinning" ->
        rec !! "grooming" ≫= (.!! "hairstyles")
        = Some (Items ["buzz cut"; "clean shave"; "very short crop"]))
    /\ (lower gender <> "male" ->
        rec !! "grooming" ≫= (.!! "beard_styles") = Some (Items []))
    /\ (lower gender = "male" ->
        exists l, rec !! "grooming" ≫= (.!! "beard_styles") = Some (Items l)
                  /\ l <> []).
Proof.
  destruct (generate_recommendations_returns fitzpatrick_type undertone
              face_shape body_type hair_coverage gender)
    as (rec & H1 & H2 & H3 & H4 & H5 & H6 & H7 & _).
  exists rec. repeat (split; [assumption|]). exact H7.
Qed.

End RecommendationsFurther.

Section OccasionsFurther.
Import ColorTheoryEngine OccasionStylingEngine.
Context `{PyStr}.

(** X26.  An outfit returned keeps the occasion as it was asked; its
    colours are the first three of the palette, or black and white for
    an empty palette; the top takes the first of them, the bottom the
    second or black, the footwear "neutral"; each garment is the head
    of the template list of the occasion and gender with the rest of
    the list as alternatives; and the accessories and grooming notes
    are those of the occasion's template. *)
Theorem occasion_outfit_content (occasion gender : string)
    (color_palette : list string) (face_shape : string)
    (outfit : OccasionOutfit) :
  get_occasion_outfit occasion gender color_palette face_shape = Returns outfit ->
  OccasionStylingEngine.occasion outfit = occasion
  /\ color_suggestions outfit = primary_colors color_palette
  /\ (1 <= length (color_suggestions outfit) <= 3)%nat
  /\ top outfit !! "color_suggestion"
     = Some (Text (default "#FFFFFF" (head (primary_colors color_palette))))
  /\ bottom outfit !! "color_suggestion"
     = Some (Text (default "#000000"
                     (primary_colors color_palette !! 1%nat)))
  /\ footwear outfit !! "color_suggestion" = Some (Text "neutral")
  /\ grooming_notes outfit
     = _get_grooming_notes (template_key occasion) (lower gender)
  /\ exists by_gender template tops bottoms shoes,
       assoc OCCASION_TEMPLATES (template_key occasion) = Some by_gender
       /\ by_gender !! lower gender = Some template
       /\ template !! "tops" = Some tops
       /\ template !! "bottoms" = Some bottoms
       /\ template !! "footwear" = Some shoes
       /\ template !! "accessories" = Some (accessories outfit)
       /\ (exists t alts, top outfit !! "type" = Some (Text t)
                          /\ top outfit !! "alternatives" = Some (Items alts)
                          /\ tops = t :: alts)
       /\ (exists t alts, bottom outfit !! "type" = Some (Text t)
                          /\ bottom outfit !! "alternatives" = Some (Items alts)
                          /\ bottoms = t :: alts)
       /\ (exists t alts, footwear outfit !! "type" = Some (Text t)
                          /\ footwear outfit !! "alternatives" = Some (Items alts)
                          /\ shoes = t :: alts).
Proof.
  intros Hrun.
  destruct (get_occasion_outfit_content occasion gender color_palette
              face_shape outfit Hrun)
    as (H1 & H2 & H3 & H4 & H5 & H6 & H7).
  split; [exact H1|]. split; [exact H2|].
  split; [rewrite H2; apply primary_colors_length|].
  repeat (split; [assumption|]). exact H7.
Qed.


End OccasionsFurther.

Lemma occasion_outfit_content_witness :
  exists outfit,
    OccasionStylingEngine.get_occasion_outfit (H := ascii_text) "Date Night" "Male"
                        ["#000080"; "#FFFFFF"; "#808080"; "#8B4513"] "oval"
    = Returns outfit
    /\ OccasionStylingEngine.occasion outfit = "Date Night"
    /\ OccasionStylingEngine.color_suggestions outfit = ["#000080"; "#FFFFFF"; "#808080"].
Proof.
  eexists. split; [vm_compute; reflexivity|].
  destruct (occasion_outfit_content (H := ascii_text) "Date Night" "Male"
              ["#000080"; "#FFFFFF"; "#808080"; "#8B4513"] "oval" _ eq_refl)
    as (Hocc & Hcolors & _).
  split; [exact Hocc | exact Hcolors].
Defined.
